(** * Zarr format 2 array metadata and the versioned data-type layer

    A shallow embedding of [zarr.core.metadata.v2] (the [ArrayV2Metadata]
    document, its parsers and its derived operations) together with the
    data-type wrappers and the data-type registry it is built on.

    Python values are modelled by one universe [PyObj]; exceptions by the
    [Result] type; [warnings.warn] by a writer layer [M] on top of it.
    Dictionaries whose iteration order is irrelevant (codec configurations,
    the keyword dictionary of [from_dict]) are finite maps; the registry,
    which is scanned in insertion order, is an association list. *)

From Stdlib Require Import ZArith NArith List String Ascii Lia.
From Stdlib.Strings Require Import Byte.
From Stdlib.Floats Require Import SpecFloat.
From stdpp Require Import base gmap list strings pretty.

Local Open Scope string_scope.
Set Warnings "-register-all".

(* ===================================================================== *)
(** ** Base64 (the standard alphabet of [base64.standard_b64encode]) *)
(* ===================================================================== *)

Module Base64.
Local Open Scope N_scope.

(** The 64-character alphabet: [A-Z], [a-z], [0-9], [+], [/]. *)
Definition b64_char (i : N) : ascii :=
  if i <? 26 then ascii_of_N (65 + i)
  else if i <? 52 then ascii_of_N (71 + i)
  else if i <? 62 then ascii_of_N (i - 4)
  else if i =? 62 then "+"%char
  else "/"%char.

Definition b64_index (c : ascii) : option N :=
  let n := N_of_ascii c in
  if (65 <=? n) && (n <=? 90) then Some (n - 65)
  else if (97 <=? n) && (n <=? 122) then Some (n - 71)
  else if (48 <=? n) && (n <=? 57) then Some (n + 4)
  else if n =? 43 then Some 62
  else if n =? 47 then Some 63
  else None.

Definition pad : ascii := "="%char.

(** The four sextets of a 24-bit group, most significant first. *)
Definition sextets (n : N) : string :=
  String (b64_char (n / 262144))
    (String (b64_char ((n / 4096) mod 64))
       (String (b64_char ((n / 64) mod 64))
          (String (b64_char (n mod 64)) ""))).

Definition group24 (a b c : byte) : N :=
  Byte.to_N a * 65536 + Byte.to_N b * 256 + Byte.to_N c.

Fixpoint encode (bs : list byte) : string :=
  match bs with
  | [] => ""
  | [a] =>
      let n := Byte.to_N a * 65536 in
      String (b64_char (n / 262144))
        (String (b64_char ((n / 4096) mod 64)) "==")
  | [a; b] =>
      let n := Byte.to_N a * 65536 + Byte.to_N b * 256 in
      String (b64_char (n / 262144))
        (String (b64_char ((n / 4096) mod 64))
           (String (b64_char ((n / 64) mod 64)) "="))
  | a :: b :: c :: rest => sextets (group24 a b c) +:+ encode rest
  end.

Definition is_pad (c : ascii) : bool := Ascii.eqb c pad.

(** Decoding of one quantum.  Bits that do not fill a whole byte are
    dropped, as the library decoder does. *)
Fixpoint decode (s : string) : option (list byte) :=
  match s with
  | "" => Some []
  | String c0 (String c1 (String c2 (String c3 rest))) =>
      if is_pad c3 then
        match rest with
        | "" =>
            if is_pad c2 then
              match b64_index c0, b64_index c1 with
              | Some i0, Some i1 =>
                  match Byte.of_N ((i0 * 64 + i1) / 16) with
                  | Some a => Some [a]
                  | None => None
                  end
              | _, _ => None
              end
            else
              match b64_index c0, b64_index c1, b64_index c2 with
              | Some i0, Some i1, Some i2 =>
                  let n := (i0 * 64 + i1) * 64 + i2 in
                  match Byte.of_N (n / 1024), Byte.of_N ((n / 4) mod 256) with
                  | Some a, Some b => Some [a; b]
                  | _, _ => None
                  end
              | _, _, _ => None
              end
        | _ => None
        end
      else
        match b64_index c0, b64_index c1, b64_index c2, b64_index c3 with
        | Some i0, Some i1, Some i2, Some i3 =>
            let n := ((i0 * 64 + i1) * 64 + i2) * 64 + i3 in
            match Byte.of_N (n / 65536), Byte.of_N ((n / 256) mod 256),
                  Byte.of_N (n mod 256), decode rest with
            | Some a, Some b, Some c, Some r => Some (a :: b :: c :: r)
            | _, _, _, _ => None
            end
        | _, _, _, _ => None
        end
  | _ => None
  end.

End Base64.

(* ===================================================================== *)
(** ** The host type system: native dtypes and native scalars *)
(* ===================================================================== *)

Inductive TimeUnit :=
| unit_Y | unit_M | unit_W | unit_D | unit_h | unit_m | unit_s
| unit_ms | unit_us | unit_ns | unit_ps | unit_fs | unit_as.

Inductive IntWidth := W8 | W16 | W32 | W64.
Inductive FloatWidth := F16 | F32 | F64.
Inductive ComplexWidth := C64 | C128.

(** A [numpy.dtype] instance (native byte order). *)
Inductive np_dtype :=
| np_bool
| np_int (w : IntWidth)
| np_uint (w : IntWidth)
| np_float (w : FloatWidth)
| np_complex (w : ComplexWidth)
| np_bytes (len : nat)                        (* kind S *)
| np_str (len : nat)                          (* kind U *)
| np_void (len : nat)                         (* kind V, no fields *)
| np_struct (fields : list (string * np_dtype)) (* kind V, with fields *)
| np_datetime64 (u : TimeUnit)                (* kind M *)
| np_StringDType                              (* kind T *)
| np_object.                                  (* kind O *)

(** [dtype.kind] *)
Definition kind (d : np_dtype) : ascii :=
  match d with
  | np_bool => "b" | np_int _ => "i" | np_uint _ => "u" | np_float _ => "f"
  | np_complex _ => "c" | np_bytes _ => "S" | np_str _ => "U"
  | np_void _ => "V" | np_struct _ => "V" | np_datetime64 _ => "M"
  | np_StringDType => "T" | np_object => "O"
  end%char.

(** [dtype.hasobject]: the dtype is, or contains a field that is, the
    object dtype. *)
Fixpoint hasobject (d : np_dtype) : bool :=
  match d with
  | np_object => true
  | np_struct fs =>
      (fix any (l : list (string * np_dtype)) : bool :=
         match l with
         | [] => false
         | (_, d') :: l' => hasobject d' || any l'
         end) fs
  | _ => false
  end.

(** A native scalar.  Floating-point values are IEEE 754 values in the
    sense of [SpecFloat]; a [datetime64] is a count of units since the
    epoch, [None] being the not-a-time value. *)
Inductive Scalar :=
| SBool (b : bool)
| SInt (n : Z)
| SFloat (f : spec_float)
| SComplex (re im : spec_float)
| SBytes (b : list byte)            (* numpy.bytes_ *)
| SVoid (b : list byte)             (* numpy.void without fields *)
| SStr (s : string)                 (* numpy.str_ / str *)
| SStruct (fs : list Scalar)        (* numpy.void with fields *)
| SDateTime (t : option Z).

(** [isinstance(x, np.void)] *)
Definition is_np_void (x : Scalar) : bool :=
  match x with SVoid _ | SStruct _ => true | _ => false end.

(* ===================================================================== *)
(** ** Type wrappers *)
(* ===================================================================== *)

(** The instances of the wrapper classes of [zarr.core.dtype]. *)
Inductive ZDType :=
| Bool
| Int8 | Int16 | Int32 | Int64
| UInt8 | UInt16 | UInt32 | UInt64
| Float16 | Float32 | Float64
| Complex64 | Complex128
| FixedLengthAscii (length : nat)
| FixedLengthBytes (length : nat)
| FixedLengthUnicode (length : nat)
| VariableLengthString
| Structured (fields : list (string * ZDType))
| DateTime64 (unit : TimeUnit).

Inductive ZarrFormat := V2 | V3.

(* ===================================================================== *)
(** ** Python values, exceptions and warnings *)
(* ===================================================================== *)

(** One universe of Python values.  JSON documents are the values built
    from [PNone], [PBool], [PInt], [PFloat], [PStr], [PList] and [PDict].
    A codec object is identified with the configuration it reports. *)
Inductive PyObj :=
| PNone
| PBool (b : bool)
| PInt (n : Z)
| PFloat (f : spec_float)
| PStr (s : string)
| PBytes (b : list byte)
| PList (xs : list PyObj)                 (* list or tuple *)
| PDict (d : gmap string PyObj)
| PCodec (cfg : gmap string PyObj)        (* numcodecs.abc.Codec *)
| PNp (d : np_dtype) (x : Scalar)         (* numpy scalar of dtype d *)
| PWrapper (w : ZDType).                  (* DTypeWrapper instance *)

Abbreviation JSON := PyObj (only parsing).
Abbreviation Config := (gmap string PyObj) (only parsing).

(** A codec, seen through [get_config]. *)
Record Codec := mkCodec { get_config : gmap string PyObj }.

Inductive ExcClass :=
| ValueError | TypeError | KeyError | OverflowError
| DataTypeValidationError | BinasciiError.

(** The pieces of a formatted message. *)
Inductive Frag :=
| Lit (s : string)
| FStr (o : PyObj)          (* {o} *)
| FRepr (o : PyObj)         (* {o!r} *)
| FType (o : PyObj)         (* {type(o)} *)
| FDType (d : np_dtype)     (* {dtype} *)
| FNat (n : nat).

Record PyExc := Exc { exc_class : ExcClass; exc_msg : list Frag }.

Inductive Result (A : Type) :=
| Ok (a : A)
| Raise (e : PyExc).
Arguments Ok {A} a.
Arguments Raise {A} e.

Definition is_ok {A} (r : Result A) : bool :=
  match r with Ok _ => true | Raise _ => false end.

#[global] Instance Result_ret : MRet Result := fun A a => Ok a.
#[global] Instance Result_bind : MBind Result := fun A B f r =>
  match r with
  | Ok a => f a
  | Raise e => Raise e
  end.

(** Computations that may also emit warnings before they return or raise. *)
Inductive Warning := UserWarning (msg : string).

Record M (A : Type) := mkM { warnings : list Warning; outcome : Result A }.
Arguments mkM {A} warnings outcome.
Arguments warnings {A} m.
Arguments outcome {A} m.

#[global] Instance M_ret : MRet M := fun A a => mkM [] (Ok a).
#[global] Instance M_bind : MBind M := fun A B f m =>
  match outcome m with
  | Ok a => mkM (warnings m ++ warnings (f a))%list (outcome (f a))
  | Raise e => mkM (warnings m) (Raise e)
  end.

(** [warnings.warn(msg, UserWarning)] *)
Definition warn (w : Warning) : M unit := mkM [w] (Ok tt).
Definition lift {A} (r : Result A) : M A := mkM [] r.

(* ===================================================================== *)
(** ** Scalar encodings of the type wrappers *)
(* ===================================================================== *)

Definition exc (c : ExcClass) (msg : list Frag) : PyExc := Exc c msg.

Definition int_bits (w : IntWidth) : Z :=
  match w with W8 => 8 | W16 => 16 | W32 => 32 | W64 => 64 end.

Definition in_int_range (w : IntWidth) (n : Z) : bool :=
  ((- 2 ^ (int_bits w - 1) <=? n) && (n <? 2 ^ (int_bits w - 1)))%Z.

Definition in_uint_range (w : IntWidth) (n : Z) : bool :=
  ((0 <=? n) && (n <? 2 ^ int_bits w))%Z.

(** The integer that numpy reserves for not-a-time. *)
Definition NaT_int : Z := (- 2 ^ 63)%Z.

Section Fields.
Context {W X Y : Type} (f : W -> X -> Result Y) (mismatch : PyExc).

(** Field-by-field traversal of a record against its declared fields, in
    declaration order. *)
Fixpoint map_fields (fs : list (string * W)) (xs : list X)
  : Result (list Y) :=
  match fs, xs with
  | [], [] => Ok []
  | (_, w) :: fs', x :: xs' =>
      y ← f w x; ys ← map_fields fs' xs'; mret (y :: ys)
  | _, _ => Raise mismatch
  end.
End Fields.

Section AllFields.
Context {W X : Type} (p : W -> X -> bool).

Fixpoint all_fields (fs : list (string * W)) (xs : list X) : bool :=
  match fs, xs with
  | [], [] => true
  | (_, w) :: fs', x :: xs' => p w x && all_fields fs' xs'
  | _, _ => false
  end.
End AllFields.

Module Wrapper.

(** Modelled from the spec: [to_native] of each wrapper class of
    [zarr.core.dtype._numpy], which is not part of the sources at hand;
    the pairing of classes and native types is the one exercised by
    [test_wrap]. *)
Fixpoint to_dtype (w : ZDType) : np_dtype :=
  match w with
  | Bool => np_bool
  | Int8 => np_int W8 | Int16 => np_int W16
  | Int32 => np_int W32 | Int64 => np_int W64
  | UInt8 => np_uint W8 | UInt16 => np_uint W16
  | UInt32 => np_uint W32 | UInt64 => np_uint W64
  | Float16 => np_float F16 | Float32 => np_float F32
  | Float64 => np_float F64
  | Complex64 => np_complex C64 | Complex128 => np_complex C128
  | FixedLengthAscii n => np_bytes n
  | FixedLengthBytes n => np_void n
  | FixedLengthUnicode n => np_str n
  | VariableLengthString => np_StringDType
  | Structured fs =>
      np_struct ((fix go (l : list (string * ZDType)) :=
                    match l with
                    | [] => []
                    | (nm, w') :: l' => (nm, to_dtype w') :: go l'
                    end) fs)
  | DateTime64 u => np_datetime64 u
  end.

(** Modelled from the spec: the native scalar type of each wrapper
    (section 4.1 and the tables of [test_to_json_value_v2]): integers
    within the width of the type, byte strings no longer than the fixed
    length, records with one value per declared field. *)
Fixpoint has_type (w : ZDType) (x : Scalar) {struct w} : bool :=
  match w, x with
  | Bool, SBool _ => true
  | Int8, SInt n => in_int_range W8 n
  | Int16, SInt n => in_int_range W16 n
  | Int32, SInt n => in_int_range W32 n
  | Int64, SInt n => in_int_range W64 n
  | UInt8, SInt n => in_uint_range W8 n
  | UInt16, SInt n => in_uint_range W16 n
  | UInt32, SInt n => in_uint_range W32 n
  | UInt64, SInt n => in_uint_range W64 n
  | (Float16 | Float32 | Float64), SFloat _ => true
  | (Complex64 | Complex128), SComplex _ _ => true
  | FixedLengthAscii n, SBytes b => Nat.leb (List.length b) n
  | FixedLengthBytes n, SVoid b => Nat.eqb (List.length b) n
  | FixedLengthUnicode n, SStr s => Nat.leb (String.length s) n
  | VariableLengthString, SStr _ => true
  | Structured fs, SStruct xs => all_fields has_type fs xs
  | DateTime64 _, SDateTime None => true
  | DateTime64 _, SDateTime (Some t) =>
      ((NaT_int <? t) && (t <? 2 ^ 63))%Z
  | _, _ => false
  end.

(** Modelled from the spec: the JSON-safe convention for floating-point
    values (section 4.1: finite values are numbers, not-a-number and the
    infinities are sentinel strings, the same for both format
    versions). *)
Definition float_to_json (f : spec_float) : JSON :=
  match f with
  | S754_nan => PStr "NaN"
  | S754_infinity false => PStr "Infinity"
  | S754_infinity true => PStr "-Infinity"
  | _ => PFloat f
  end.

Definition bad_json (j : JSON) : PyExc :=
  exc TypeError [Lit "Invalid type: "; FStr j].

Definition float_from_json (j : JSON) : Result spec_float :=
  match j with
  | PFloat f => Ok f
  | PStr s =>
      if String.eqb s "NaN" then Ok S754_nan
      else if String.eqb s "Infinity" then Ok (S754_infinity false)
      else if String.eqb s "-Infinity" then Ok (S754_infinity true)
      else Raise (bad_json j)
  | _ => Raise (bad_json j)
  end.

Definition bad_scalar (x : Scalar) (d : np_dtype) : PyExc :=
  exc TypeError [Lit "Invalid scalar for "; FDType d].

(** Modelled from the spec: [to_json_value] of the wrapper classes
    (section 4.1 and the fill-value encoding table of section 6), which
    live in [zarr.core.dtype._numpy], not part of the sources at hand.
    Structured values are encoded field by field in declaration order. *)
Fixpoint to_json_value (w : ZDType) (x : Scalar) (zarr_format : ZarrFormat)
  {struct w} : Result JSON :=
  match w, x with
  | Bool, SBool b => Ok (PBool b)
  | (Int8 | Int16 | Int32 | Int64 | UInt8 | UInt16 | UInt32 | UInt64),
    SInt n => Ok (PInt n)
  | (Float16 | Float32 | Float64), SFloat f => Ok (float_to_json f)
  | (Complex64 | Complex128), SComplex re im =>
      Ok (PList [float_to_json re; float_to_json im])
  | FixedLengthAscii _, SBytes b => Ok (PStr (Base64.encode b))
  | FixedLengthBytes _, SVoid b => Ok (PStr (Base64.encode b))
  | (FixedLengthUnicode _ | VariableLengthString), SStr s => Ok (PStr s)
  | Structured fs, SStruct xs =>
      js ← map_fields (fun w' x' => to_json_value w' x' zarr_format)
             (bad_scalar x (to_dtype w)) fs xs;
      mret (PList js)
  | DateTime64 _, SDateTime None => Ok PNone
  | DateTime64 _, SDateTime (Some t) => Ok (PInt t)
  | _, _ => Raise (bad_scalar x (to_dtype w))
  end.

Definition int_from_json (signed : bool) (w : IntWidth) (j : JSON)
  : Result Scalar :=
  match j with
  | PInt n =>
      if (if signed then in_int_range w n else in_uint_range w n)
      then Ok (SInt n)
      else Raise (exc OverflowError [FStr j])
  | _ => Raise (bad_json j)
  end.

Definition b64_from_json (mk : list byte -> Scalar) (j : JSON)
  : Result Scalar :=
  match j with
  | PStr s =>
      match Base64.decode s with
      | Some b => Ok (mk b)
      | None => Raise (exc BinasciiError [FStr j])
      end
  | _ => Raise (bad_json j)
  end.

(** Modelled from the spec: [from_json_value] of the wrapper classes, the
    inverse of [to_json_value] (section 4.1), with base64 decoding and the
    reconstruction of the instant from its epoch offset. *)
Fixpoint from_json_value (w : ZDType) (j : JSON) (zarr_format : ZarrFormat)
  {struct w} : Result Scalar :=
  match w with
  | Bool =>
      match j with PBool b => Ok (SBool b) | _ => Raise (bad_json j) end
  | Int8 => int_from_json true W8 j
  | Int16 => int_from_json true W16 j
  | Int32 => int_from_json true W32 j
  | Int64 => int_from_json true W64 j
  | UInt8 => int_from_json false W8 j
  | UInt16 => int_from_json false W16 j
  | UInt32 => int_from_json false W32 j
  | UInt64 => int_from_json false W64 j
  | Float16 | Float32 | Float64 => f ← float_from_json j; mret (SFloat f)
  | Complex64 | Complex128 =>
      match j with
      | PList [jre; jim] =>
          re ← float_from_json jre; im ← float_from_json jim;
          mret (SComplex re im)
      | _ => Raise (bad_json j)
      end
  | FixedLengthAscii _ => b64_from_json SBytes j
  | FixedLengthBytes _ => b64_from_json SVoid j
  | FixedLengthUnicode _ | VariableLengthString =>
      match j with PStr s => Ok (SStr s) | _ => Raise (bad_json j) end
  | Structured fs =>
      match j with
      | PList js =>
          xs ← map_fields (fun w' j' => from_json_value w' j' zarr_format)
                 (bad_json j) fs js;
          mret (SStruct xs)
      | _ => Raise (bad_json j)
      end
  | DateTime64 _ =>
      match j with
      | PNone => Ok (SDateTime None)
      | PInt t =>
          if (t =? NaT_int)%Z then Ok (SDateTime None)
          else if in_int_range W64 t then Ok (SDateTime (Some t))
          else Raise (exc OverflowError [FStr j])
      | _ => Raise (bad_json j)
      end
  end.

(** Days since 1970-01-01 of a proleptic Gregorian date, for the scenario
    of section 8. *)
Definition days_from_civil (y m d : Z) : Z :=
  (let y' := if m <=? 2 then y - 1 else y in
   let era := y' / 400 in
   let yoe := y' - era * 400 in
   let mp := (m + 9) mod 12 in
   let doy := (153 * mp + 2) / 5 + d - 1 in
   let doe := yoe * 365 + yoe / 4 - yoe / 100 + doy in
   era * 146097 + doe - 719468)%Z.

(** [np.datetime64("YYYY-MM-DDThh:mm:ss", "s")] *)
Definition datetime64_s (y m d hh mm ss : Z) : Scalar :=
  SDateTime (Some (days_from_civil y m d * 86400 + hh * 3600 + mm * 60 + ss)%Z).

End Wrapper.

(* ===================================================================== *)
(** ** The data type registry *)
(* ===================================================================== *)

Module Registry.

(** Modelled from the spec: a wrapper factory (section 3), that is a
    wrapper class seen through its stable name and its [from_dtype] class
    method. *)
Record Factory := mkFactory {
  zarr_v3_name : string;
  from_dtype : np_dtype -> Result ZDType;
}.

(** Insertion-ordered dictionary: assignment to a key that is present
    replaces the value in place, assignment to a new key appends. *)
Fixpoint dict_set {V} (k : string) (v : V) (d : list (string * V))
  : list (string * V) :=
  match d with
  | [] => [(k, v)]
  | (k', v') :: d' =>
      if String.eqb k k' then (k, v) :: d' else (k', v') :: dict_set k v d'
  end.

Fixpoint dict_get {V} (k : string) (d : list (string * V)) : option V :=
  match d with
  | [] => None
  | (k', v') :: d' => if String.eqb k k' then Some v' else dict_get k d'
  end.

Record DataTypeRegistry := mkRegistry {
  contents : list (string * Factory);
}.

Definition empty : DataTypeRegistry := mkRegistry [].

Definition no_match (d : np_dtype) : PyExc :=
  exc ValueError
    [Lit "No data type wrapper found that matches dtype '"; FDType d; Lit "'"].

Definition not_found (key : string) : PyExc :=
  exc KeyError [FRepr (PStr key)].

Definition is_validation_error (e : PyExc) : bool :=
  match exc_class e with DataTypeValidationError => true | _ => false end.

(** Modelled from the spec: [DataTypeRegistry.register] of
    [zarr.core.dtype.registry] (section 4.1: unconditional insert or
    override); the module is not part of the sources at hand. *)
Definition register (key : string) (cls : Factory) (r : DataTypeRegistry)
  : DataTypeRegistry :=
  mkRegistry (dict_set key cls (contents r)).

(** Modelled from the spec: [DataTypeRegistry.get] (section 4.1: fails
    with a not-found error when the name is absent). *)
Definition get (r : DataTypeRegistry) (key : string) : Result Factory :=
  match dict_get key (contents r) with
  | Some cls => Ok cls
  | None => Raise (not_found key)
  end.

Fixpoint scan (l : list (string * Factory)) (d : np_dtype) : Result ZDType :=
  match l with
  | [] => Raise (no_match d)
  | (_, cls) :: l' =>
      match from_dtype cls d with
      | Ok w => Ok w
      | Raise e => if is_validation_error e then scan l' d else Raise e
      end
  end.

(** Modelled from the spec: [DataTypeRegistry.match_dtype] (section 4.1:
    scans the registered factories for a structural match, and fails with
    a no-match error naming the native type when there is none; the text
    of the message is the one [test_unregistered_dtype] expects). *)
Definition match_dtype (r : DataTypeRegistry) (d : np_dtype)
  : Result ZDType :=
  scan (contents r) d.

(** A factory structurally matches a native type when its [from_dtype]
    accepts it. *)
Definition matches (cls : Factory) (d : np_dtype) : bool :=
  is_ok (from_dtype cls d).

Definition rejects (cls : Factory) (d : np_dtype) : Prop :=
  exists e, from_dtype cls d = Raise e /\ is_validation_error e = true.

(** *** The built-in wrapper classes *)

Inductive DTypeClass :=
| cBool
| cInt8 | cInt16 | cInt32 | cInt64
| cUInt8 | cUInt16 | cUInt32 | cUInt64
| cFloat16 | cFloat32 | cFloat64
| cComplex64 | cComplex128
| cFixedLengthAscii | cFixedLengthBytes | cFixedLengthUnicode
| cVariableLengthString | cStructured | cDateTime64.

#[global] Instance DTypeClass_eq_dec : EqDecision DTypeClass.
Proof. solve_decision. Defined.

(** [type(w)] *)
Definition class_of (w : ZDType) : DTypeClass :=
  match w with
  | Bool => cBool
  | Int8 => cInt8 | Int16 => cInt16 | Int32 => cInt32 | Int64 => cInt64
  | UInt8 => cUInt8 | UInt16 => cUInt16
  | UInt32 => cUInt32 | UInt64 => cUInt64
  | Float16 => cFloat16 | Float32 => cFloat32 | Float64 => cFloat64
  | Complex64 => cComplex64 | Complex128 => cComplex128
  | FixedLengthAscii _ => cFixedLengthAscii
  | FixedLengthBytes _ => cFixedLengthBytes
  | FixedLengthUnicode _ => cFixedLengthUnicode
  | VariableLengthString => cVariableLengthString
  | Structured _ => cStructured
  | DateTime64 _ => cDateTime64
  end.

Definition class_name (c : DTypeClass) : string :=
  match c with
  | cBool => "bool"
  | cInt8 => "int8" | cInt16 => "int16"
  | cInt32 => "int32" | cInt64 => "int64"
  | cUInt8 => "uint8" | cUInt16 => "uint16"
  | cUInt32 => "uint32" | cUInt64 => "uint64"
  | cFloat16 => "float16" | cFloat32 => "float32" | cFloat64 => "float64"
  | cComplex64 => "complex64" | cComplex128 => "complex128"
  | cFixedLengthAscii => "numpy.fixed_length_ascii"
  | cFixedLengthBytes => "numpy.fixed_length_bytes"
  | cFixedLengthUnicode => "numpy.fixed_length_unicode"
  | cVariableLengthString => "numpy.variable_length_string"
  | cStructured => "numpy.structured"
  | cDateTime64 => "numpy.datetime64"
  end.

Definition invalid_dtype (d : np_dtype) : PyExc :=
  exc DataTypeValidationError [Lit "Invalid dtype: "; FDType d].

Definition wrap_fields (wrap : np_dtype -> Result ZDType) :=
  fix go (l : list (string * np_dtype)) : Result (list (string * ZDType)) :=
    match l with
    | [] => Ok []
    | (nm, d') :: l' => w ← wrap d'; ws ← go l'; mret ((nm, w) :: ws)
    end.

(** Modelled from the spec: the wrapper instance that stands for a native
    type (section 4.1, [from_native]): the inverse of
    [Wrapper.to_dtype]. *)
Fixpoint wrap (d : np_dtype) : Result ZDType :=
  match d with
  | np_bool => Ok Bool
  | np_int W8 => Ok Int8 | np_int W16 => Ok Int16
  | np_int W32 => Ok Int32 | np_int W64 => Ok Int64
  | np_uint W8 => Ok UInt8 | np_uint W16 => Ok UInt16
  | np_uint W32 => Ok UInt32 | np_uint W64 => Ok UInt64
  | np_float F16 => Ok Float16 | np_float F32 => Ok Float32
  | np_float F64 => Ok Float64
  | np_complex C64 => Ok Complex64 | np_complex C128 => Ok Complex128
  | np_bytes n => Ok (FixedLengthAscii n)
  | np_void n => Ok (FixedLengthBytes n)
  | np_str n => Ok (FixedLengthUnicode n)
  | np_StringDType => Ok VariableLengthString
  | np_struct fs => ws ← wrap_fields wrap fs; mret (Structured ws)
  | np_datetime64 u => Ok (DateTime64 u)
  | np_object => Raise (invalid_dtype d)
  end.

(** Modelled from the spec: [from_native] of the wrapper classes (section
    4.1: fails with a type-validation error when the input is not the
    exact native type the class handles). *)
Definition from_dtype_of (c : DTypeClass) (d : np_dtype) : Result ZDType :=
  match wrap d with
  | Ok w => if decide (class_of w = c) then Ok w else Raise (invalid_dtype d)
  | Raise _ => Raise (invalid_dtype d)
  end.

Definition factory_of (c : DTypeClass) : Factory :=
  mkFactory (class_name c) (from_dtype_of c).

(** The members of the exported union type [DTYPE]. *)
Definition DTYPE : list DTypeClass :=
  [cBool; cInt8; cInt16; cInt32; cInt64; cUInt8; cUInt16; cUInt32; cUInt64;
   cFloat16; cFloat32; cFloat64; cComplex64; cComplex128;
   cFixedLengthAscii; cFixedLengthBytes; cFixedLengthUnicode;
   cVariableLengthString; cStructured; cDateTime64].

Definition register_all (cs : list DTypeClass) (r : DataTypeRegistry)
  : DataTypeRegistry :=
  fold_left (fun r c => register (class_name c) (factory_of c) r) cs r.

(** The process-wide registry, populated with the built-in classes. *)
Definition data_type_registry : DataTypeRegistry := register_all DTYPE empty.

(** The registry of [test_match_dtype_unique]: every class of [DTYPE]
    but [c]. *)
Definition registry_without (c : DTypeClass) : DataTypeRegistry :=
  register_all (List.filter (fun c' => negb (bool_decide (c' = c))) DTYPE)
    empty.

Definition Int8_cls : Factory := factory_of cInt8.
Definition Bool_cls : Factory := factory_of cBool.

(** A class registered under the name of [Bool_cls] that stores booleans
    in one unsigned byte, in the manner of the subclass of
    [test_override]. *)
Definition NewBool_cls : Factory :=
  mkFactory "bool"
    (fun d => match d with
              | np_bool => Ok UInt8
              | _ => Raise (invalid_dtype d)
              end).

End Registry.

(* ===================================================================== *)
(** ** Python built-ins used by the metadata module *)
(* ===================================================================== *)

Definition is_zero_float (f : spec_float) : bool :=
  match f with S754_zero _ => true | _ => false end.

(** The value of a float when it is the integer [n]. *)
Definition float_eq_Z (f : spec_float) (n : Z) : bool :=
  match f with
  | S754_zero _ => (n =? 0)%Z
  | S754_finite s m e =>
      let v := if s then Z.neg m else Z.pos m in
      if (0 <=? e)%Z then (v * 2 ^ e =? n)%Z else (v =? n * 2 ^ (- e))%Z
  | _ => false
  end.

(** [x == n] for an integer literal [n] *)
Definition py_eq_int (x : PyObj) (n : Z) : bool :=
  match x with
  | PBool b | PNp _ (SBool b) => ((if b then 1 else 0) =? n)%Z
  | PInt k | PNp _ (SInt k) => (k =? n)%Z
  | PFloat f | PNp _ (SFloat f) => float_eq_Z f n
  | PNp _ (SComplex re im) => float_eq_Z re n && is_zero_float im
  | _ => false
  end.

(** [bool(x)] *)
Definition py_truthy (x : PyObj) : bool :=
  match x with
  | PNone => false
  | PBool b => b
  | PInt n => negb (n =? 0)%Z
  | PFloat f => negb (is_zero_float f)
  | PStr s => negb (String.eqb s "")
  | PBytes b => negb (Nat.eqb (List.length b) 0)
  | PList xs => negb (Nat.eqb (List.length xs) 0)
  | PDict d => negb (Nat.eqb (size d) 0)
  | PNp _ (SBool b) => b
  | PNp _ (SInt n) => negb (n =? 0)%Z
  | PNp _ (SFloat f) => negb (is_zero_float f)
  | PNp _ (SComplex re im) => negb (is_zero_float re && is_zero_float im)
  | PNp _ (SBytes b) => negb (Nat.eqb (List.length b) 0)
  | PNp _ (SStr s) => negb (String.eqb s "")
  | _ => true
  end.

(** [x == s] for a string literal [s] *)
Definition py_eq_str (x : PyObj) (s : string) : bool :=
  match x with
  | PStr s' | PNp _ (SStr s') => String.eqb s' s
  | _ => false
  end.

(** [isinstance(x, str)]; [numpy.str_] is a subclass of [str]. *)
Definition is_str (x : PyObj) : bool :=
  match x with PStr _ | PNp _ (SStr _) => true | _ => false end.

(** [isinstance(x, bytes)], with the bytes held; [numpy.bytes_] is a
    subclass of [bytes]. *)
Definition as_bytes (x : PyObj) : option (list byte) :=
  match x with PBytes b | PNp _ (SBytes b) => Some b | _ => None end.

(** [isinstance(x, np.void)] *)
Definition is_void (x : PyObj) : bool :=
  match x with PNp _ s => is_np_void s | _ => false end.

Definition str_chars (s : string) : list PyObj :=
  (fun c => PStr (String c "")) <$> list_ascii_of_string s.

(** The elements of [x] when [isinstance(x, Iterable)]: lists and tuples,
    dictionaries (their keys), strings and bytes, with their numpy
    subclasses. *)
Definition py_iter (x : PyObj) : option (list PyObj) :=
  match x with
  | PList xs => Some xs
  | PDict d => Some ((fun kv => PStr (fst kv)) <$> map_to_list d)
  | PStr s | PNp _ (SStr s) => Some (str_chars s)
  | PBytes b | PNp _ (SBytes b) =>
      Some ((fun c => PInt (Z.of_N (Byte.to_N c))) <$> b)
  | _ => None
  end.

(** [len(x)] *)
Definition py_len (x : PyObj) : Result nat :=
  match x with
  | PList xs => Ok (List.length xs)
  | PDict d => Ok (size d)
  | PStr s | PNp _ (SStr s) => Ok (String.length s)
  | PBytes b | PNp _ (SBytes b) => Ok (List.length b)
  | _ => Raise (exc TypeError [Lit "object of type "; FType x; Lit " has no len()"])
  end.

(** [sep.join(parts)] *)
Fixpoint str_join (sep : string) (parts : list string) : string :=
  match parts with
  | [] => ""
  | [p] => p
  | p :: rest => p +:+ sep +:+ str_join sep rest
  end.

(** The characters that are neither of the two dimension separators. *)
Definition is_key_char (c : ascii) : Prop :=
  c <> "."%char /\ c <> "/"%char.

(** The native scalar a Python value stands for when it is handed to a
    wrapper. *)
Definition as_scalar (x : PyObj) : option Scalar :=
  match x with
  | PNp _ s => Some s
  | PBool b => Some (SBool b)
  | PInt n => Some (SInt n)
  | PFloat f => Some (SFloat f)
  | PStr s => Some (SStr s)
  | PBytes b => Some (SBytes b)
  | _ => None
  end.

(* ===================================================================== *)
(** ** External collaborators *)
(* ===================================================================== *)

(** The part of numpy the metadata module calls. *)
Class Numpy := {
  (** [np.dtype(x)] *)
  np_dtype_of : PyObj -> Result np_dtype;
  (** [np.zeros((), dtype=dtype)[()]] *)
  np_zeros : np_dtype -> PyObj;
  (** [np.array(x, dtype=dtype)[()]] *)
  np_array : PyObj -> np_dtype -> Result PyObj;
  (** [np.array(b, dtype=dtype.str).view(dtype)[()]] *)
  np_array_view : list byte -> np_dtype -> Result PyObj;
}.

(** The codec-configuration resolver [numcodecs.get_codec]. *)
Class Numcodecs := {
  get_codec : gmap string PyObj -> Result Codec;
}.

(** [DTypeWrapper.get_name], the version-specific name of a data type. *)
Class DTypeNames := {
  get_name : ZDType -> ZarrFormat -> string;
}.

(** [DTypeWrapper.kind], the attribute that the default-codec lookups of
    the metadata module read. *)
Class DTypeKinds := {
  wrapper_kind : ZDType -> string;
}.

(** [json.dumps(obj, indent=indent).encode()] *)
Class Json := {
  json_dumps : PyObj -> PyObj -> Result (list byte);
}.

(** The names of the two documents of an array, [ZARRAY_JSON] and
    [ZATTRS_JSON] of [zarr.core.common]. *)
Class DocumentNames := {
  ZARRAY_JSON : string;
  ZATTRS_JSON : string;
}.

(* ===================================================================== *)
(** ** [zarr.core.config] *)
(* ===================================================================== *)

Definition parse_indexing_order (data : PyObj) : Result string :=
  if py_eq_str data "C" then Ok "C"
  else if py_eq_str data "F" then Ok "F"
  else Raise (exc ValueError
                [Lit "Expected one of ('C', 'F'), got "; FStr data;
                 Lit " instead."]).

Module Config.

Definition codec_zstd_v2 : PyObj :=
  PDict (list_to_map [("id", PStr "zstd"); ("level", PInt 0);
                      ("checksum", PBool false)]).

Definition codec_zstd_v3 : PyObj :=
  PDict (list_to_map
           [("name", PStr "zstd");
            ("configuration",
              PDict (list_to_map [("level", PInt 0);
                                  ("checksum", PBool false)]))]).

(** The default configuration for zarr. *)
Definition defaults : PyObj :=
  PDict (list_to_map
    [("default_zarr_format", PInt 3);
     ("array", PDict (list_to_map
        [("order", PStr "C");
         ("write_empty_chunks", PBool false);
         ("v2_default_compressor", PDict (list_to_map
            [("default", codec_zstd_v2);
             ("variable-length-string", codec_zstd_v2)]));
         ("v2_default_filters", PDict (list_to_map
            [("default", PNone);
             ("variable-length-string",
               PList [PDict (list_to_map [("id", PStr "vlen-utf8")])])]));
         ("v3_default_filters", PDict (list_to_map
            [("default", PList []);
             ("variable-length-string", PList [])]));
         ("v3_default_serializer", PDict (list_to_map
            [("default", PDict (list_to_map
                [("name", PStr "bytes");
                 ("configuration",
                   PDict (list_to_map [("endian", PStr "little")]))]));
             ("variable-length-string",
               PDict (list_to_map [("name", PStr "vlen-utf8")]))]));
         ("v3_default_compressors", PDict (list_to_map
            [("default", PList [codec_zstd_v3]);
             ("variable-length-string", PList [codec_zstd_v3])]))]));
     ("async", PDict (list_to_map
        [("concurrency", PInt 10); ("timeout", PNone)]));
     ("threading", PDict (list_to_map [("max_workers", PNone)]));
     ("json_indent", PInt 2);
     ("codec_pipeline", PDict (list_to_map
        [("path", PStr "zarr.core.codec_pipeline.BatchedCodecPipeline");
         ("batch_size", PInt 1)]));
     ("codecs", PDict (list_to_map
        [("blosc", PStr "zarr.codecs.blosc.BloscCodec");
         ("gzip", PStr "zarr.codecs.gzip.GzipCodec");
         ("zstd", PStr "zarr.codecs.zstd.ZstdCodec");
         ("bytes", PStr "zarr.codecs.bytes.BytesCodec");
         ("endian", PStr "zarr.codecs.bytes.BytesCodec");
         ("crc32c", PStr "zarr.codecs.crc32c_.Crc32cCodec");
         ("sharding_indexed", PStr "zarr.codecs.sharding.ShardingCodec");
         ("transpose", PStr "zarr.codecs.transpose.TransposeCodec");
         ("vlen-utf8", PStr "zarr.codecs.vlen_utf8.VLenUTF8Codec");
         ("vlen-bytes", PStr "zarr.codecs.vlen_utf8.VLenBytesCodec")]));
     ("buffer", PStr "zarr.core.buffer.cpu.Buffer");
     ("ndbuffer", PStr "zarr.core.buffer.cpu.NDBuffer")]).

(** The components of a key: a dot separates one level of nesting from
    the next. *)
Fixpoint split_key (key : string) : list string :=
  match key with
  | "" => [""]
  | String c rest =>
      if Ascii.eqb c "." then "" :: split_key rest
      else
        match split_key rest with
        | [] => [String c ""]
        | p :: ps => String c p :: ps
        end
  end.

Fixpoint get_path (d : PyObj) (path : list string) (key : string)
  : Result PyObj :=
  match path with
  | [] => Ok d
  | k :: path' =>
      match d with
      | PDict m =>
          match m !! k with
          | Some v => get_path v path' key
          | None => Raise (exc KeyError [FRepr (PStr key)])
          end
      | _ => Raise (exc KeyError [FRepr (PStr key)])
      end
  end.

(** [config.get(key)] on a configuration whose effective values are
    [cfg]: nested access by a dotted key, [KeyError] when a level is
    missing. *)
Definition get (cfg : PyObj) (key : string) : Result PyObj :=
  get_path cfg (split_key key) key.

(** The two values of [DTypeCategory]. *)
Definition categories : list string := ["variable-length-string"; "default"].

Definition categorize_data_type (dtype : ZDType) : string :=
  match dtype with
  | VariableLengthString => "variable-length-string"
  | _ => "default"
  end.

End Config.

(* ===================================================================== *)
(** ** [zarr.core.metadata.v2] *)
(* ===================================================================== *)

Module V2.

Record ArrayV2Metadata := mkArrayV2Metadata {
  shape : list Z;
  chunks : list Z;
  dtype : ZDType;
  fill_value : PyObj;
  order : string;
  filters : option (list Codec);
  dimension_separator : string;
  compressor : option Codec;
  attributes : gmap string PyObj;
}.

(** The one value of the [zarr_format] field, which has [init=False]. *)
Definition zarr_format (m : ArrayV2Metadata) : Z := 2%Z.

(** The keyword arguments of [ArrayV2Metadata.__init__]. *)
Record InitArgs := mkInitArgs {
  arg_shape : PyObj;
  arg_dtype : PyObj;
  arg_chunks : PyObj;
  arg_fill_value : PyObj;
  arg_order : PyObj;
  arg_dimension_separator : PyObj;
  arg_compressor : PyObj;
  arg_filters : PyObj;
  arg_attributes : PyObj;
}.

(** *** Helpers imported from sibling modules *)

Fixpoint shape_items (xs : list PyObj) (whole : PyObj) : Result (list Z) :=
  match xs with
  | [] => Ok []
  | PInt n :: xs' =>
      if (n <? 0)%Z
      then Raise (exc ValueError
                    [Lit "Expected all values to be non-negative. Got ";
                     FStr whole; Lit " instead."])
      else ns ← shape_items xs' whole; mret (n :: ns)
  | _ :: _ =>
      Raise (exc TypeError
               [Lit "Expected an iterable of integers. Got "; FStr whole;
                Lit " instead."])
  end.

(** Modelled from the spec: [parse_shapelike] of [zarr.core.common]
    (section 4.2: shape and chunk shape are coerced to fixed-length
    sequences of non-negative integers); the module is not part of the
    sources at hand. *)
Definition parse_shapelike (data : PyObj) : Result (list Z) :=
  match data with
  | PList xs => shape_items xs data
  | _ => Raise (exc TypeError
                  [Lit "Expected an iterable of integers. Got "; FStr data;
                   Lit " instead."])
  end.

(** Modelled from the spec: [parse_separator] of
    [zarr.core.chunk_key_encodings] (section 4.2: the dimension separator
    is validated against its two-element enumeration). *)
Definition parse_separator (data : PyObj) : Result string :=
  if py_eq_str data "." then Ok "."
  else if py_eq_str data "/" then Ok "/"
  else Raise (exc ValueError
                [Lit "Expected an '.' or '/' separator. Got "; FStr data;
                 Lit " instead."]).

(** Modelled from the spec: [parse_attributes] of
    [zarr.core.metadata.common] (section 3: a mapping of user attributes,
    empty when none is given). *)
Definition parse_attributes (data : PyObj) : Result (gmap string PyObj) :=
  match data with
  | PNone => Ok ∅
  | PDict d => Ok d
  | _ => Raise (exc TypeError [Lit "Expected dict. Got "; FType data])
  end.

(** *** The parsers of the module *)

Definition parse_zarr_format (data : PyObj) : Result Z :=
  if py_eq_int data 2 then Ok 2%Z
  else Raise (exc ValueError
                [Lit "Invalid value. Expected 2. Got "; FStr data; Lit "."]).

Section WithCodecs.
Context `{Numcodecs}.

(** The loop of [parse_filters]: [out] in the order of the input. *)
Fixpoint parse_filters_loop (idx : nat) (vals : list PyObj)
  : Result (list Codec) :=
  match vals with
  | [] => Ok []
  | val :: vals' =>
      c ← match val with
          | PCodec cfg => Ok (mkCodec cfg)
          | PDict d => get_codec d
          | _ =>
              Raise (exc TypeError
                       [Lit "Invalid filter at index "; FNat idx;
                        Lit ". Expected a numcodecs.abc.Codec or a dict representation of numcodecs.abc.Codec. Got ";
                        FType val; Lit " instead."])
          end;
      out ← parse_filters_loop (S idx) vals';
      mret (c :: out)
  end.

Definition parse_filters (data : PyObj) : Result (option (list Codec)) :=
  match data with
  | PNone => Ok None
  | _ =>
      match py_iter data with
      | Some vals =>
          out ← parse_filters_loop 0 vals;
          if Nat.eqb (List.length out) 0 then Ok None else Ok (Some out)
      | None =>
          match data with
          | PCodec cfg => Ok (Some [mkCodec cfg])
          | _ =>
              Raise (exc TypeError
                       [Lit "Invalid filters. Expected None, an iterable of numcodecs.abc.Codec or dict representations of numcodecs.abc.Codec. Got ";
                        FType data; Lit " instead."])
          end
      end
  end.

Definition parse_compressor (data : PyObj) : Result (option Codec) :=
  match data with
  | PNone => Ok None
  | PCodec cfg => Ok (Some (mkCodec cfg))
  | PDict d => c ← get_codec d; mret (Some c)
  | _ =>
      Raise (exc ValueError
               [Lit "Invalid compressor. Expected None, a numcodecs.abc.Codec, or a dict representation of a numcodecs.abc.Codec. Got ";
                FType data; Lit " instead."])
  end.
End WithCodecs.

Definition shape_mismatch (l_chunks l_shape : nat) : PyExc :=
  exc ValueError
    [Lit "The `shape` and `chunks` attributes must have the same length. ";
     Lit "`chunks` has length "; FNat l_chunks;
     Lit ", but `shape` has length "; FNat l_shape; Lit "."].

Definition parse_metadata (data : ArrayV2Metadata) : Result ArrayV2Metadata :=
  let l_chunks := List.length (chunks data) in
  let l_shape := List.length (shape data) in
  if negb (Nat.eqb l_chunks l_shape)
  then Raise (shape_mismatch l_chunks l_shape)
  else Ok data.

Definition is_None (x : PyObj) : bool :=
  match x with PNone => true | _ => false end.

Definition fill_value_not_unicode (fill_value : PyObj) (d : np_dtype) : PyExc :=
  exc ValueError
    [Lit "fill_value "; FRepr fill_value; Lit " is not valid for dtype ";
     FDType d; Lit "; must be a unicode string"].

Definition fill_value_invalid (fill_value : PyObj) (d : np_dtype) : PyExc :=
  exc ValueError
    [Lit "Fill_value "; FStr fill_value; Lit " is not valid for dtype ";
     FDType d; Lit "."].

Section WithNumpy.
Context `{Numpy}.

Definition parse_fill_value (fill_value : PyObj) (d : np_dtype)
  : Result PyObj :=
  if is_None fill_value || hasobject d then
    (* no fill value *)
    Ok fill_value
  else if negb (is_void fill_value) && py_eq_int fill_value 0 then
    Ok (np_zeros d)
  else if Ascii.eqb (kind d) "U" then
    if negb (is_str fill_value)
    then Raise (fill_value_not_unicode fill_value d)
    else Ok fill_value
  else
    match
      match as_bytes fill_value with
      | Some b =>
          if Ascii.eqb (kind d) "V" then np_array_view b d
          else np_array fill_value d
      | None => np_array fill_value d
      end
    with
    | Ok v => Ok v
    | Raise _ => Raise (fill_value_invalid fill_value d)
    end.
End WithNumpy.

(** Modelled from the spec: the per-chunk specification handed to the
    chunk pipeline ([zarr.core.array_spec.ArraySpec], section 4.2: chunk
    shape, data type, fill value, runtime configuration and buffer
    prototype); the class is not part of the sources at hand. *)
Record ArraySpec (ArrayConfig BufferPrototype : Type) := mkArraySpec {
  spec_shape : list Z;
  spec_dtype : ZDType;
  spec_fill_value : PyObj;
  spec_config : ArrayConfig;
  spec_prototype : BufferPrototype;
}.
Arguments mkArraySpec {ArrayConfig BufferPrototype}.

Definition codec_obj (c : Codec) : PyObj := PCodec (get_config c).

(** [if not isinstance(dtype, DTypeWrapper): raise TypeError] *)
Definition check_wrapper (x : PyObj) : Result ZDType :=
  match x with
  | PWrapper w => Ok w
  | _ => Raise (exc TypeError [])
  end.

(** The document [m] with one field exchanged and all others kept. *)
Definition with_shape (m : ArrayV2Metadata) (s : list Z) : ArrayV2Metadata :=
  {| shape := s;
     chunks := chunks m;
     dtype := dtype m;
     fill_value := fill_value m;
     order := order m;
     filters := filters m;
     dimension_separator := dimension_separator m;
     compressor := compressor m;
     attributes := attributes m |}.

Definition with_attributes (m : ArrayV2Metadata) (a : gmap string PyObj)
  : ArrayV2Metadata :=
  {| shape := shape m;
     chunks := chunks m;
     dtype := dtype m;
     fill_value := fill_value m;
     order := order m;
     filters := filters m;
     dimension_separator := dimension_separator m;
     compressor := compressor m;
     attributes := a |}.

Definition key_error (k : string) : PyExc := exc KeyError [FRepr (PStr k)].

(** [d[k]] *)
Definition getitem (d : gmap string PyObj) (k : string) : Result PyObj :=
  match d !! k with
  | Some v => Ok v
  | None => Raise (key_error k)
  end.

(** The names of the dataclass fields, with the two renamed keys. *)
Definition expected : list string :=
  ["shape"; "chunks"; "dtype"; "fill_value"; "order"; "filters";
   "dimension_separator"; "compressor"; "attributes"; "zarr_format";
   "dtype"; "chunks"].

Definition empty_filters_msg : string :=
  "Found an empty list of filters in the array metadata document. " +:+
  "This is contrary to the Zarr V2 specification, and will cause an error in the future. " +:+
  "Use None (or Null in a JSON document) instead of an empty list of filters.".

Section WithExternals.
Context `{Numpy, Numcodecs, DTypeNames}.

(** [ArrayV2Metadata.__init__] *)
Definition init (a : InitArgs) : M ArrayV2Metadata :=
  shape_parsed ← lift (parse_shapelike (arg_shape a));
  chunks_parsed ← lift (parse_shapelike (arg_chunks a));
  dtype ← lift (check_wrapper (arg_dtype a));
  compressor_parsed ← lift (parse_compressor (arg_compressor a));
  order_parsed ← lift (parse_indexing_order (arg_order a));
  dimension_separator_parsed ←
    lift (parse_separator (arg_dimension_separator a));
  filters_parsed ← lift (parse_filters (arg_filters a));
  fill_value_parsed ←
    lift (parse_fill_value (arg_fill_value a) (Wrapper.to_dtype dtype));
  attributes_parsed ← lift (parse_attributes (arg_attributes a));
  (* ensure that the metadata document is consistent *)
  lift (parse_metadata
          {| shape := shape_parsed;
             chunks := chunks_parsed;
             dtype := dtype;
             fill_value := fill_value_parsed;
             order := order_parsed;
             filters := filters_parsed;
             dimension_separator := dimension_separator_parsed;
             compressor := compressor_parsed;
             attributes := attributes_parsed |}).

(** The parsers that [ArrayV2Metadata.__init__] applies to its
    arguments, in the order of its body and without the consistency
    check that follows them: the first parser that raises decides the
    error. *)
Definition parse_arguments (a : InitArgs) : Result ArrayV2Metadata :=
  shape_parsed ← parse_shapelike (arg_shape a);
  chunks_parsed ← parse_shapelike (arg_chunks a);
  dtype ← check_wrapper (arg_dtype a);
  compressor_parsed ← parse_compressor (arg_compressor a);
  order_parsed ← parse_indexing_order (arg_order a);
  dimension_separator_parsed ← parse_separator (arg_dimension_separator a);
  filters_parsed ← parse_filters (arg_filters a);
  fill_value_parsed ←
    parse_fill_value (arg_fill_value a) (Wrapper.to_dtype dtype);
  attributes_parsed ← parse_attributes (arg_attributes a);
  Ok {| shape := shape_parsed;
        chunks := chunks_parsed;
        dtype := dtype;
        fill_value := fill_value_parsed;
        order := order_parsed;
        filters := filters_parsed;
        dimension_separator := dimension_separator_parsed;
        compressor := compressor_parsed;
        attributes := attributes_parsed |}.

(** The keyword arguments [a] with the [filters] argument exchanged. *)
Definition with_filters (a : InitArgs) (f : PyObj) : InitArgs :=
  {| arg_shape := arg_shape a;
     arg_dtype := arg_dtype a;
     arg_chunks := arg_chunks a;
     arg_fill_value := arg_fill_value a;
     arg_order := arg_order a;
     arg_dimension_separator := arg_dimension_separator a;
     arg_compressor := arg_compressor a;
     arg_filters := f;
     arg_attributes := arg_attributes a |}.

(** The fields of [m] as keyword arguments: what [dataclasses.replace]
    collects before it calls the class. *)
Definition field_args (m : ArrayV2Metadata) : InitArgs :=
  {| arg_shape := PList (PInt <$> shape m);
     arg_dtype := PWrapper (dtype m);
     arg_chunks := PList (PInt <$> chunks m);
     arg_fill_value := fill_value m;
     arg_order := PStr (order m);
     arg_dimension_separator := PStr (dimension_separator m);
     arg_compressor :=
       match compressor m with Some c => codec_obj c | None => PNone end;
     arg_filters :=
       match filters m with
       | Some fs => PList (codec_obj <$> fs)
       | None => PNone
       end;
     arg_attributes := PDict (attributes m) |}.

(** [replace(self, shape=shape)]: the class is called on the fields of
    [self], with the given one exchanged. *)
Definition update_shape (m : ArrayV2Metadata) (new_shape : PyObj)
  : M ArrayV2Metadata :=
  let a := field_args m in
  init {| arg_shape := new_shape;
          arg_dtype := arg_dtype a;
          arg_chunks := arg_chunks a;
          arg_fill_value := arg_fill_value a;
          arg_order := arg_order a;
          arg_dimension_separator := arg_dimension_separator a;
          arg_compressor := arg_compressor a;
          arg_filters := arg_filters a;
          arg_attributes := arg_attributes a |}.

(** [replace(self, attributes=attributes)] *)
Definition update_attributes (m : ArrayV2Metadata) (new_attributes : PyObj)
  : M ArrayV2Metadata :=
  let a := field_args m in
  init {| arg_shape := arg_shape a;
          arg_dtype := arg_dtype a;
          arg_chunks := arg_chunks a;
          arg_fill_value := arg_fill_value a;
          arg_order := arg_order a;
          arg_dimension_separator := arg_dimension_separator a;
          arg_compressor := arg_compressor a;
          arg_filters := arg_filters a;
          arg_attributes := new_attributes |}.

Definition ndim (m : ArrayV2Metadata) : nat := List.length (shape m).

Definition shards (m : ArrayV2Metadata) : option (list Z) := None.

Definition get_chunk_spec {ArrayConfig BufferPrototype : Type}
    (m : ArrayV2Metadata) (_chunk_coords : list Z)
    (array_config : ArrayConfig) (prototype : BufferPrototype)
  : ArraySpec ArrayConfig BufferPrototype :=
  mkArraySpec (chunks m) (dtype m) (fill_value m) array_config prototype.

Definition encode_chunk_key (m : ArrayV2Metadata) (chunk_coords : list Z)
  : string :=
  let chunk_identifier :=
    str_join (dimension_separator m) (pretty <$> chunk_coords) in
  if String.eqb chunk_identifier "" then "0" else chunk_identifier.

(** Modelled from the spec: [Metadata.to_dict] of [zarr.abc.metadata]
    (section 4.2: one mapping containing the literal field values); the
    base class is not part of the sources at hand. *)
Definition super_to_dict (m : ArrayV2Metadata) : gmap string PyObj :=
  list_to_map
    [("shape", PList (PInt <$> shape m));
     ("chunks", PList (PInt <$> chunks m));
     ("dtype", PWrapper (dtype m));
     ("fill_value", fill_value m);
     ("order", PStr (order m));
     ("filters",
       match filters m with
       | Some fs => PList (codec_obj <$> fs)
       | None => PNone
       end);
     ("dimension_separator", PStr (dimension_separator m));
     ("compressor",
       match compressor m with Some c => codec_obj c | None => PNone end);
     ("attributes", PDict (attributes m));
     ("zarr_format", PInt (zarr_format m))].

(** The configuration written for a compressor: [get_config()] after
    the hotfix for the checksum key. *)
Definition compressor_config (codec_config : gmap string PyObj)
  : Result (gmap string PyObj) :=
  id ← getitem codec_config "id";
  if py_eq_str id "zstd" &&
     negb (py_truthy (default (PBool false) (codec_config !! "checksum")))
  then
    (* codec_config.pop("checksum") *)
    _ ← getitem codec_config "checksum";
    mret (delete "checksum" codec_config)
  else mret codec_config.

Definition filter_config (f : PyObj) : PyObj :=
  match f with
  | PCodec cfg => PDict cfg
  | _ => f
  end.

Definition dtype_to_json_value (w : ZDType) (x : PyObj) (v : ZarrFormat)
  : Result PyObj :=
  match as_scalar x with
  | Some s => Wrapper.to_json_value w s v
  | None => Raise (Wrapper.bad_scalar (SVoid []) (Wrapper.to_dtype w))
  end.

Definition to_dict (m : ArrayV2Metadata) : Result (gmap string PyObj) :=
  let zarray_dict := super_to_dict m in
  compressor_entry ← getitem zarray_dict "compressor";
  zarray_dict ←
    match compressor_entry with
    | PCodec cfg =>
        codec_config ← compressor_config cfg;
        mret (<["compressor" := PDict codec_config]> zarray_dict)
    | _ => mret zarray_dict
    end;
  raw_filters ← getitem zarray_dict "filters";
  zarray_dict ←
    (if is_None raw_filters then mret zarray_dict
     else
       match py_iter raw_filters with
       | Some fs =>
           mret (<["filters" := PList (filter_config <$> fs)]> zarray_dict)
       | None =>
           Raise (exc TypeError [FType raw_filters;
                                 Lit " object is not iterable"])
       end);
  zarray_dict ←
    (if is_None (fill_value m) then mret zarray_dict
     else
       fv ← dtype_to_json_value (dtype m) (fill_value m) V2;
       mret (<["fill_value" := fv]> zarray_dict));
  mret (<["dtype" := PStr (get_name (dtype m) V2)]> zarray_dict).

(** Modelled from the spec: [get_data_type_from_numpy] of
    [zarr.core.dtype] (section 4.2: the stored native-dtype descriptor
    is resolved through the registry); the package is not part of the
    sources at hand. *)
Definition get_data_type_from_numpy (descr : PyObj) : Result ZDType :=
  d ← np_dtype_of descr;
  Registry.match_dtype Registry.data_type_registry d.

(** [base64.standard_b64decode]; the library function also skips
    characters outside the alphabet, which [Base64.decode] rejects. *)
Definition standard_b64decode (x : PyObj) : Result (list byte) :=
  match x with
  | PStr s =>
      match Base64.decode s with
      | Some b => Ok b
      | None => Raise (exc BinasciiError [Lit "Incorrect padding"])
      end
  | _ => Raise (exc TypeError
                  [Lit "argument should be a bytes-like object or ASCII string, not ";
                   FType x])
  end.

Definition missing_argument (k : string) : PyExc :=
  exc TypeError
    [Lit "__init__() missing required keyword-only argument: "; Lit k].

Definition required (kw : gmap string PyObj) (k : string) : Result PyObj :=
  match kw !! k with
  | Some v => Ok v
  | None => Raise (missing_argument k)
  end.

(** The class called on a keyword dictionary: its entries are bound to
    the parameters of [__init__], with their defaults. *)
Definition call_cls (kw : gmap string PyObj) : M ArrayV2Metadata :=
  a_shape ← lift (required kw "shape");
  a_dtype ← lift (required kw "dtype");
  a_chunks ← lift (required kw "chunks");
  a_fill_value ← lift (required kw "fill_value");
  a_order ← lift (required kw "order");
  init {| arg_shape := a_shape;
          arg_dtype := a_dtype;
          arg_chunks := a_chunks;
          arg_fill_value := a_fill_value;
          arg_order := a_order;
          arg_dimension_separator :=
            default (PStr ".") (kw !! "dimension_separator");
          arg_compressor := default PNone (kw !! "compressor");
          arg_filters := default PNone (kw !! "filters");
          arg_attributes := default PNone (kw !! "attributes") |}.

(** The two conditional blocks of [from_dict], each returning the
    keyword dictionary it leaves behind. *)
Definition decode_fill_value (dtype : ZDType) (_data : gmap string PyObj)
  : M (gmap string PyObj) :=
  let k := kind (Wrapper.to_dtype dtype) in
  if Ascii.eqb k "S" || Ascii.eqb k "V" then
    match _data !! "fill_value" with
    | None | Some PNone => mret _data
    | Some fill_value_encoded =>
        fill_value ← lift (standard_b64decode fill_value_encoded);
        mret (<["fill_value" := PBytes fill_value]> _data)
    end
  else mret _data.

Definition check_empty_filters (_data : gmap string PyObj)
  : M (gmap string PyObj) :=
  fs ← lift (getitem _data "filters");
  if is_None fs then mret _data
  else
    n ← lift (py_len fs);
    if Nat.eqb n 0 then
      _ ← warn (UserWarning empty_filters_msg);
      mret (<["filters" := PNone]> _data)
    else mret _data.

Definition from_dict (data : gmap string PyObj) : M ArrayV2Metadata :=
  (* make a copy to protect the original from modification *)
  let _data := data in
  (* check that the zarr_format attribute is correct *)
  zf ← lift (getitem _data "zarr_format");
  let _data := delete "zarr_format" _data in
  _ ← lift (parse_zarr_format zf);
  descr ← lift (getitem _data "dtype");
  dtype ← lift (get_data_type_from_numpy descr);
  let _data := <["dtype" := PWrapper dtype]> _data in
  _data ← decode_fill_value dtype _data;
  (* zarr v2 allowed arbitrary keys here; the constructor must not fail
     just because someone put an extra key in the metadata *)
  (* check if `filters` is an empty sequence; if so use None instead and
     raise a warning *)
  _data ← check_empty_filters _data;
  let _data := filter (fun kv => fst kv ∈ expected) _data in
  call_cls _data.

End WithExternals.

(** The error of [parse_filters] for the element [val] at index [idx]. *)
Definition invalid_filter (idx : nat) (val : PyObj) : PyExc :=
  exc TypeError
    [Lit "Invalid filter at index "; FNat idx;
     Lit ". Expected a numcodecs.abc.Codec or a dict representation of numcodecs.abc.Codec. Got ";
     FType val; Lit " instead."].

(** [d.get(k, None)] on the value of a configuration key. *)
Definition dict_get_or_None (d : PyObj) (k : string) : Result PyObj :=
  match d with
  | PDict m => Ok (default PNone (m !! k))
  | _ => Raise (exc TypeError [FType d; Lit " object has no attribute 'get'"])
  end.

Section Defaults.
Context `{DTypeKinds}.

(** [_default_compressor], over the effective configuration. *)
Definition _default_compressor (config : PyObj) (dtype : ZDType)
  : Result PyObj :=
  table ← Config.get config "array.v2_default_compressor";
  dict_get_or_None table (wrapper_kind dtype).

(** [_default_filters], over the effective configuration. *)
Definition _default_filters (config : PyObj) (dtype : ZDType)
  : Result PyObj :=
  table ← Config.get config "array.v2_default_filters";
  dict_get_or_None table (wrapper_kind dtype).
End Defaults.

Section Buffers.
Context `{Numpy, Numcodecs, DTypeNames, Json, DocumentNames}.
Context {Buffer BufferPrototype : Type}.
(** [prototype.buffer.from_bytes] *)
Context (from_bytes : BufferPrototype -> list byte -> Buffer).

(** [to_buffer_dict], over the effective configuration. *)
Definition to_buffer_dict (config : PyObj) (m : ArrayV2Metadata)
    (prototype : BufferPrototype) : Result (gmap string Buffer) :=
  zarray_dict ← to_dict m;
  let zattrs_dict := default (PDict ∅) (zarray_dict !! "attributes") in
  let zarray_dict := delete "attributes" zarray_dict in
  json_indent ← Config.get config "json_indent";
  zarray_bytes ← json_dumps (PDict zarray_dict) json_indent;
  zattrs_bytes ← json_dumps zattrs_dict json_indent;
  mret (<[ZATTRS_JSON := from_bytes prototype zattrs_bytes]>
          {[ZARRAY_JSON := from_bytes prototype zarray_bytes]}).
End Buffers.

End V2.

(* ===================================================================== *)
(** ** A reference instantiation of the external collaborators *)
(* ===================================================================== *)

(** Executable stand-ins for the calls into numpy and numcodecs, covering
    the conversions that the scenarios of section 8 of the specification
    and the unit tests exercise.  The general results below do not depend
    on them. *)
Module Reference.

Fixpoint zero_scalar (d : np_dtype) : Scalar :=
  match d with
  | np_bool => SBool false
  | np_int _ | np_uint _ | np_object => SInt 0
  | np_float _ => SFloat (S754_zero false)
  | np_complex _ => SComplex (S754_zero false) (S754_zero false)
  | np_bytes _ => SBytes []
  | np_str _ | np_StringDType => SStr ""
  | np_void n => SVoid (repeat x00 n)
  | np_struct fs =>
      SStruct ((fix go (l : list (string * np_dtype)) :=
                  match l with
                  | [] => []
                  | (_, d') :: l' => zero_scalar d' :: go l'
                  end) fs)
  | np_datetime64 _ => SDateTime (Some 0%Z)
  end.

Definition cast_error : PyExc := exc ValueError [Lit "invalid literal"].

Definition cast (x : PyObj) (d : np_dtype) : Result PyObj :=
  match d, as_scalar x with
  | np_bool, Some (SBool b) => Ok (PNp d (SBool b))
  | np_int w, Some (SInt n) =>
      if in_int_range w n then Ok (PNp d (SInt n)) else Raise cast_error
  | np_uint w, Some (SInt n) =>
      if in_uint_range w n then Ok (PNp d (SInt n)) else Raise cast_error
  | np_float _, Some (SFloat f) => Ok (PNp d (SFloat f))
  | np_bytes n, Some (SBytes b) => Ok (PNp d (SBytes (take n b)))
  | np_void n, Some (SVoid b) =>
      if Nat.eqb (List.length b) n then Ok (PNp d (SVoid b))
      else Raise cast_error
  | _, _ => Raise cast_error
  end.

Definition view (b : list byte) (d : np_dtype) : Result PyObj :=
  match d with
  | np_void n =>
      if Nat.eqb (List.length b) n then Ok (PNp d (SVoid b))
      else Raise cast_error
  | _ => Raise cast_error
  end.

Definition dtype_of (x : PyObj) : Result np_dtype :=
  match x with
  | PStr s =>
      if String.eqb s "|b1" then Ok np_bool
      else if String.eqb s "|i1" then Ok (np_int W8)
      else if String.eqb s "<i4" then Ok (np_int W32)
      else if String.eqb s "<i8" then Ok (np_int W64)
      else if String.eqb s "<f8" then Ok (np_float F64)
      else if String.eqb s "|S4" then Ok (np_bytes 4)
      else if String.eqb s "|V4" then Ok (np_void 4)
      else if String.eqb s "<U4" then Ok (np_str 4)
      else Raise (exc TypeError [Lit "data type "; FRepr x; Lit " not understood"])
  | _ => Raise (exc TypeError [Lit "Cannot interpret "; FRepr x; Lit " as a data type"])
  end.

Definition numpy : Numpy :=
  {| np_dtype_of := dtype_of;
     np_zeros := fun d => PNp d (zero_scalar d);
     np_array := cast;
     np_array_view := view |}.

(** Every configuration with a string [id] names a codec. *)
Definition numcodecs : Numcodecs :=
  {| get_codec := fun cfg =>
       match cfg !! "id" with
       | Some (PStr _) => Ok (mkCodec cfg)
       | _ => Raise (exc ValueError [Lit "codec not available"])
       end |}.

Definition names : DTypeNames :=
  {| get_name := fun w _ =>
       match w with
       | Bool => "|b1" | Int8 => "|i1" | Int32 => "<i4" | Int64 => "<i8"
       | Float64 => "<f8"
       | FixedLengthAscii 4 => "|S4" | FixedLengthBytes 4 => "|V4"
       | FixedLengthUnicode 4 => "<U4"
       | _ => "|O"
       end |}.

(** The document of the scenario of section 8: a 10 by 10 array of
    32-bit integers in 5 by 5 chunks. *)
Definition scenario_args : V2.InitArgs :=
  {| V2.arg_shape := PList [PInt 10; PInt 10];
     V2.arg_dtype := PWrapper Int32;
     V2.arg_chunks := PList [PInt 5; PInt 5];
     V2.arg_fill_value := PInt 0;
     V2.arg_order := PStr "C";
     V2.arg_dimension_separator := PStr ".";
     V2.arg_compressor := PNone;
     V2.arg_filters := PNone;
     V2.arg_attributes := PNone |}.

Definition scenario : V2.ArrayV2Metadata :=
  {| V2.shape := [10; 10]%Z;
     V2.chunks := [5; 5]%Z;
     V2.dtype := Int32;
     V2.fill_value := PNp (np_int W32) (SInt 0);
     V2.order := "C";
     V2.filters := None;
     V2.dimension_separator := ".";
     V2.compressor := None;
     V2.attributes := ∅ |}.

(** The same arguments with a chunk shape of one dimension only. *)
Definition mismatched_args : V2.InitArgs :=
  {| V2.arg_shape := PList [PInt 10; PInt 10];
     V2.arg_dtype := PWrapper Int32;
     V2.arg_chunks := PList [PInt 5];
     V2.arg_fill_value := PInt 0;
     V2.arg_order := PStr "C";
     V2.arg_dimension_separator := PStr ".";
     V2.arg_compressor := PNone;
     V2.arg_filters := PNone;
     V2.arg_attributes := PNone |}.

(** The mismatched arguments with a memory order that is neither
    ["C"] nor ["F"]. *)
Definition bad_order_args : V2.InitArgs :=
  {| V2.arg_shape := PList [PInt 10; PInt 10];
     V2.arg_dtype := PWrapper Int32;
     V2.arg_chunks := PList [PInt 5];
     V2.arg_fill_value := PInt 0;
     V2.arg_order := PStr "X";
     V2.arg_dimension_separator := PStr ".";
     V2.arg_compressor := PNone;
     V2.arg_filters := PNone;
     V2.arg_attributes := PNone |}.

(** The same arguments with an empty list of filters and no fill value. *)
Definition empty_filters_args : V2.InitArgs :=
  {| V2.arg_shape := PList [PInt 10; PInt 10];
     V2.arg_dtype := PWrapper Int32;
     V2.arg_chunks := PList [PInt 5; PInt 5];
     V2.arg_fill_value := PNone;
     V2.arg_order := PStr "C";
     V2.arg_dimension_separator := PStr ".";
     V2.arg_compressor := PNone;
     V2.arg_filters := PList [];
     V2.arg_attributes := PNone |}.

Definition no_fill : V2.ArrayV2Metadata :=
  {| V2.shape := [10; 10]%Z;
     V2.chunks := [5; 5]%Z;
     V2.dtype := Int32;
     V2.fill_value := PNone;
     V2.order := "C";
     V2.filters := None;
     V2.dimension_separator := ".";
     V2.compressor := None;
     V2.attributes := ∅ |}.

(** A stored document with an empty list of filters. *)
Definition empty_filters_document : gmap string PyObj :=
  list_to_map
    [("zarr_format", PInt 2);
     ("shape", PList [PInt 10; PInt 10]);
     ("chunks", PList [PInt 5; PInt 5]);
     ("dtype", PStr "<i4");
     ("fill_value", PNone);
     ("order", PStr "C");
     ("filters", PList []);
     ("compressor", PNone);
     ("extra_key", PStr "ignored")].

(** The configuration that a zstd codec without a checksum setting
    reports, and the default one of [zarr.core.config]. *)
Definition zstd_no_checksum : gmap string PyObj :=
  list_to_map [("id", PStr "zstd"); ("level", PInt 0)].

Definition zstd_default : gmap string PyObj :=
  list_to_map [("id", PStr "zstd"); ("level", PInt 0);
               ("checksum", PBool false)].

Definition with_compressor (cfg : gmap string PyObj) : V2.ArrayV2Metadata :=
  {| V2.shape := [10; 10]%Z;
     V2.chunks := [5; 5]%Z;
     V2.dtype := Int32;
     V2.fill_value := PNone;
     V2.order := "C";
     V2.filters := None;
     V2.dimension_separator := ".";
     V2.compressor := Some (mkCodec cfg);
     V2.attributes := ∅ |}.

(** The kind of a wrapper taken to be the kind code of its native type. *)
Definition kinds : DTypeKinds :=
  {| wrapper_kind := fun w => String (kind (Wrapper.to_dtype w)) "" |}.

(** A stand-in for the JSON writer that spells out the empty object and
    abbreviates everything else. *)
Definition json : Json :=
  {| json_dumps := fun obj _ =>
       match obj with
       | PDict d =>
           if Nat.eqb (size d) 0 then Ok (list_byte_of_string "{}")
           else Ok (list_byte_of_string "{...}")
       | _ => Raise (exc TypeError [Lit "Object of type "; FType obj;
                                    Lit " is not JSON serializable"])
       end |}.

Definition document_names : DocumentNames :=
  {| ZARRAY_JSON := ".zarray"; ZATTRS_JSON := ".zattrs" |}.

(** Buffers that are the bytes they were made from. *)
Definition from_bytes (prototype : unit) (b : list byte) : list byte := b.

(** A document with two filters and a compressor. *)
Definition delta_config : gmap string PyObj :=
  list_to_map [("id", PStr "delta"); ("dtype", PStr "<i4")].

Definition zstd_checksum : gmap string PyObj :=
  list_to_map [("id", PStr "zstd"); ("level", PInt 0);
               ("checksum", PBool true)].

Definition filtered_args : V2.InitArgs :=
  {| V2.arg_shape := PList [PInt 10; PInt 10];
     V2.arg_dtype := PWrapper Int32;
     V2.arg_chunks := PList [PInt 5; PInt 5];
     V2.arg_fill_value := PNone;
     V2.arg_order := PStr "F";
     V2.arg_dimension_separator := PStr "/";
     V2.arg_compressor := PDict zstd_checksum;
     V2.arg_filters := PList [PDict delta_config; PCodec zstd_default];
     V2.arg_attributes := PDict {["answer" := PInt 42]} |}.

Definition filtered : V2.ArrayV2Metadata :=
  {| V2.shape := [10; 10]%Z;
     V2.chunks := [5; 5]%Z;
     V2.dtype := Int32;
     V2.fill_value := PNone;
     V2.order := "F";
     V2.filters := Some [mkCodec delta_config; mkCodec zstd_default];
     V2.dimension_separator := "/";
     V2.compressor := Some (mkCodec zstd_checksum);
     V2.attributes := {["answer" := PInt 42]} |}.

End Reference.

(* ===================================================================== *)
(** * Properties *)
(* ===================================================================== *)

(** ** Exceptions and warnings *)

Lemma bind_Ok {A B} (f : A -> Result B) (a : A) : (Ok a ≫= f) = f a.
Proof. reflexivity. Qed.

Lemma bind_Raise {A B} (f : A -> Result B) (e : PyExc) :
  (Raise e ≫= f) = Raise e.
Proof. reflexivity. Qed.

Lemma bind_is_Ok {A B} (f : A -> Result B) (r : Result A) (b : B) :
  (r ≫= f) = Ok b -> exists a, r = Ok a /\ f a = Ok b.
Proof. destruct r as [a|e]; [eauto | discriminate]. Qed.

(** ** Base64 *)

Module Base64Facts.
Import Base64.
Local Open Scope N_scope.

Ltac euclid := zify; Z.to_euclidean_division_equations; lia.

Lemma b64_index_char (i : N) : i < 64 -> b64_index (b64_char i) = Some i.
Proof.
  intros Hi. destruct i as [|p]; [reflexivity|].
  do 6 (destruct p as [p|p|]; try reflexivity); lia.
Qed.

Lemma b64_char_not_pad (i : N) : i < 64 -> is_pad (b64_char i) = false.
Proof.
  intros Hi. destruct i as [|p]; [reflexivity|].
  do 6 (destruct p as [p|p|]; try reflexivity); lia.
Qed.

Lemma byte_lt (a : byte) : Byte.to_N a < 256.
Proof. pose proof (Byte.to_N_bounded a). lia. Qed.

Lemma sextets_app (n : N) (rest : string) :
  sextets n +:+ rest =
  String (b64_char (n / 262144))
    (String (b64_char ((n / 4096) mod 64))
       (String (b64_char ((n / 64) mod 64))
          (String (b64_char (n mod 64)) rest))).
Proof. reflexivity. Qed.

Lemma decode_sextets (a b c : byte) (rest : string) :
  decode (sextets (group24 a b c) +:+ rest) =
  match decode rest with Some r => Some (a :: b :: c :: r) | None => None end.
Proof.
  pose proof (byte_lt a) as Ha. pose proof (byte_lt b) as Hb.
  pose proof (byte_lt c) as Hc.
  rewrite sextets_app. unfold group24.
  set (n := Byte.to_N a * 65536 + Byte.to_N b * 256 + Byte.to_N c).
  assert (Hn : n < 16777216) by (subst n; lia).
  cbn [decode].
  rewrite (b64_char_not_pad (n mod 64)) by euclid.
  rewrite !b64_index_char by euclid.
  cbv zeta.
  replace ((((n / 262144 * 64 + n / 4096 mod 64) * 64 + n / 64 mod 64) * 64
            + n mod 64)) with n by euclid.
  replace (n / 65536) with (Byte.to_N a) by (subst n; euclid).
  replace (n / 256 mod 256) with (Byte.to_N b) by (subst n; euclid).
  replace (n mod 256) with (Byte.to_N c) by (subst n; euclid).
  rewrite !Byte.of_to_N. reflexivity.
Qed.

Lemma decode_one (a : byte) : decode (encode [a]) = Some [a].
Proof.
  pose proof (byte_lt a) as Ha.
  cbn [encode]. cbv zeta. set (n := Byte.to_N a * 65536).
  cbn [decode]. change (is_pad "=") with true. cbv iota.
  rewrite !b64_index_char by (subst n; euclid).
  replace ((n / 262144 * 64 + n / 4096 mod 64) / 16) with (Byte.to_N a)
    by (subst n; euclid).
  rewrite Byte.of_to_N. reflexivity.
Qed.

Lemma decode_two (a b : byte) : decode (encode [a; b]) = Some [a; b].
Proof.
  pose proof (byte_lt a) as Ha. pose proof (byte_lt b) as Hb.
  cbn [encode]. cbv zeta.
  set (n := Byte.to_N a * 65536 + Byte.to_N b * 256).
  cbn [decode]. change (is_pad "=") with true. cbv iota.
  rewrite (b64_char_not_pad (n / 64 mod 64)) by euclid.
  rewrite !b64_index_char by (subst n; euclid).
  cbv zeta.
  replace (((n / 262144 * 64 + n / 4096 mod 64) * 64 + n / 64 mod 64) / 1024)
    with (Byte.to_N a) by (subst n; euclid).
  replace (((n / 262144 * 64 + n / 4096 mod 64) * 64 + n / 64 mod 64) / 4
           mod 256) with (Byte.to_N b) by (subst n; euclid).
  rewrite !Byte.of_to_N. reflexivity.
Qed.

(** Induction on byte strings three bytes at a time. *)
Lemma list_ind3 {A} (P : list A -> Prop) :
  P [] -> (forall a, P [a]) -> (forall a b, P [a; b]) ->
  (forall a b c l, P l -> P (a :: b :: c :: l)) ->
  forall l, P l.
Proof.
  intros H0 H1 H2 H3.
  assert (H : forall l, P l /\ (forall a, P (a :: l)) /\
                        (forall a b, P (a :: b :: l))).
  { induction l as [|x l (IH0 & IH1 & IH2)]; [auto|].
    split; [apply IH1|]. split; [intros; apply IH2|].
    intros a b. apply H3, IH0. }
  intros l. apply H.
Qed.

Lemma decode_encode (bs : list byte) : decode (encode bs) = Some bs.
Proof.
  induction bs as [|a|a b|a b c l IH] using list_ind3.
  - reflexivity.
  - apply decode_one.
  - apply decode_two.
  - change (encode (a :: b :: c :: l))
      with (sextets (group24 a b c) +:+ encode l).
    rewrite decode_sextets, IH. reflexivity.
Qed.

Example encode_test :
  encode (list_byte_of_string "test") = "dGVzdA==".
Proof. reflexivity. Qed.

Example decode_test :
  decode "dGVzdA==" = Some (list_byte_of_string "test").
Proof. reflexivity. Qed.

End Base64Facts.

(** ** Type wrappers *)

(** Induction that reaches the field types of a structured wrapper. *)
Lemma ZDType_nested_ind (P : ZDType -> Prop) :
  (forall w,
      (forall fs, w = Structured fs -> Forall (fun f => P (snd f)) fs) ->
      P w) ->
  forall w, P w.
Proof.
  intros H. fix IH 1. intros w. destruct w as [| | | | | | | | | | | | | |n|n|n| |fs|u];
    try (apply H; intros fs' Heq; discriminate Heq).
  apply H. intros fs' Heq. injection Heq as <-.
  induction fs as [|[nm w'] l IHl]; constructor; [apply IH | apply IHl].
Qed.

Module WrapperFacts.
Import Wrapper.

Lemma float_json_roundtrip (f : spec_float) :
  float_from_json (float_to_json f) = Ok f.
Proof. destruct f as [s|s| |s m e]; try destruct s; reflexivity. Qed.

Lemma int_json_roundtrip (signed : bool) (w : IntWidth) (n : Z) :
  (if signed then in_int_range w n else in_uint_range w n) = true ->
  int_from_json signed w (PInt n) = Ok (SInt n).
Proof. intros Hr. unfold int_from_json. rewrite Hr. reflexivity. Qed.

Lemma b64_json_roundtrip (mk : list byte -> Scalar) (b : list byte) :
  b64_from_json mk (PStr (Base64.encode b)) = Ok (mk b).
Proof.
  unfold b64_from_json. rewrite Base64Facts.decode_encode. reflexivity.
Qed.

Lemma datetime_json_roundtrip (t : Z) :
  ((NaT_int <? t) && (t <? 2 ^ 63))%Z = true ->
  (if (t =? NaT_int)%Z then Ok (SDateTime None)
   else if in_int_range W64 t then Ok (SDateTime (Some t))
   else Raise (exc OverflowError [FStr (PInt t)])) = Ok (SDateTime (Some t)).
Proof.
  intros Hr. apply andb_prop in Hr as [Hlo Hhi].
  apply Z.ltb_lt in Hlo, Hhi. unfold NaT_int in *.
  destruct (Z.eqb_spec t (- 2 ^ 63)) as [->|_]; [lia|].
  unfold in_int_range, int_bits.
  replace (- 2 ^ (64 - 1) <=? t)%Z with true by (symmetry; apply Z.leb_le; lia).
  replace (t <? 2 ^ (64 - 1))%Z with true by (symmetry; apply Z.ltb_lt; lia).
  reflexivity.
Qed.

(** Records round-trip when each of their fields does. *)
Lemma map_fields_roundtrip (v : ZarrFormat) (e1 e2 : PyExc)
    (fs : list (string * ZDType)) :
  Forall (fun f => forall x, has_type (snd f) x = true ->
            (to_json_value (snd f) x v ≫=
               fun j => from_json_value (snd f) j v) = Ok x) fs ->
  forall xs, all_fields has_type fs xs = true ->
  exists js,
    map_fields (fun w' x' => to_json_value w' x' v) e1 fs xs = Ok js /\
    map_fields (fun w' j' => from_json_value w' j' v) e2 fs js = Ok xs.
Proof.
  induction 1 as [|[nm w] fs Hw _ IH]; intros [|x xs] Hty;
    try discriminate Hty.
  - exists []. split; reflexivity.
  - cbn [all_fields] in Hty. apply andb_prop in Hty as [Hx Hxs].
    destruct (IH xs Hxs) as (js & Hjs & Hback).
    specialize (Hw x Hx). cbn [snd] in Hw.
    destruct (to_json_value w x v) as [j|e] eqn:Hj; [|discriminate Hw].
    rewrite bind_Ok in Hw.
    exists (j :: js). cbn [map_fields]. rewrite Hj, Hjs, Hw, Hback.
    split; reflexivity.
Qed.

Example to_json_value_v2_table :
  let test := list_byte_of_string "test" in
  let f42 := S754_finite false 21 1 in
  let f1 := S754_finite false 1 0 in
  to_json_value Bool (SBool true) V2 = Ok (PBool true) /\
  to_json_value Int8 (SInt 42) V2 = Ok (PInt 42) /\
  to_json_value UInt64 (SInt 42) V2 = Ok (PInt 42) /\
  to_json_value Float64 (SFloat f42) V2 = Ok (PFloat f42) /\
  to_json_value Complex64 (SComplex f42 f1) V2
    = Ok (PList [PFloat f42; PFloat f1]) /\
  to_json_value (FixedLengthAscii 4) (SBytes test) V2 = Ok (PStr "dGVzdA==") /\
  to_json_value (FixedLengthBytes 4) (SVoid test) V2 = Ok (PStr "dGVzdA==") /\
  to_json_value (FixedLengthBytes 4) (SVoid test) V3 = Ok (PStr "dGVzdA==") /\
  to_json_value (FixedLengthUnicode 4) (SStr "test") V2 = Ok (PStr "test") /\
  to_json_value VariableLengthString (SStr "test") V2 = Ok (PStr "test") /\
  to_json_value (DateTime64 unit_s) (datetime64_s 2021 1 1 0 0 0) V2
    = Ok (PInt 1609459200).
Proof. repeat split; reflexivity. Qed.

Example from_json_value_table :
  let test := list_byte_of_string "test" in
  from_json_value (FixedLengthAscii 4) (PStr "dGVzdA==") V2 = Ok (SBytes test) /\
  from_json_value (FixedLengthBytes 4) (PStr "dGVzdA==") V3 = Ok (SVoid test) /\
  from_json_value (DateTime64 unit_s) (PInt 1609459200) V2
    = Ok (datetime64_s 2021 1 1 0 0 0) /\
  from_json_value (DateTime64 unit_s) PNone V2 = Ok (SDateTime None) /\
  from_json_value Int8 (PInt 200) V2 = Raise (exc OverflowError [FStr (PInt 200)]).
Proof. repeat split; reflexivity. Qed.

(** C1.  For every wrapper [w], every scalar [x] of the native type of
    [w] and both format versions [v], decoding the JSON value that
    [to_json_value] produces gives [x] back:
    [from_json_value(to_json_value(x, v), v) == x].  This covers the
    base64 encoding of the fixed-length bytes kinds, the two-element
    [[real, imag]] encoding of complex numbers, the epoch offset of
    timestamps (with [null] for not-a-time) and, field by field,
    structured values. *)
Theorem json_value_roundtrip (w : ZDType) (x : Scalar) (v : ZarrFormat) :
  has_type w x = true ->
  (to_json_value w x v ≫= fun j => from_json_value w j v) = Ok x.
Proof.
  revert x. induction w as [w IH] using ZDType_nested_ind. intros x Hty.
  destruct w; destruct x; try discriminate Hty; cbn in Hty;
    try (cbn [to_json_value from_json_value]; rewrite bind_Ok;
         first [ reflexivity
               | apply (int_json_roundtrip true); exact Hty
               | apply (int_json_roundtrip false); exact Hty
               | apply b64_json_roundtrip
               | cbn [from_json_value]; rewrite !float_json_roundtrip;
                 reflexivity ]).
  - (* Structured *)
    destruct (map_fields_roundtrip v
                (bad_scalar (SStruct fs) (to_dtype (Structured fields)))
                (bad_json (PList []))
                fields (IH fields eq_refl) fs Hty) as (js & Hjs & _).
    destruct (map_fields_roundtrip v
                (bad_scalar (SStruct fs) (to_dtype (Structured fields)))
                (bad_json (PList js))
                fields (IH fields eq_refl) fs Hty) as (js' & Hjs' & Hback).
    rewrite Hjs in Hjs'. injection Hjs' as <-.
    cbn [to_json_value]. rewrite Hjs. cbn. rewrite Hback. reflexivity.
  - (* DateTime64 *)
    destruct t as [t|]; [|reflexivity].
    cbn [to_json_value]. rewrite bind_Ok. cbn [from_json_value].
    apply datetime_json_roundtrip. exact Hty.
Qed.

Lemma json_value_roundtrip_witness :
  has_type
    (Structured [("a", FixedLengthBytes 4); ("b", Complex128);
                 ("c", DateTime64 unit_s)])
    (SStruct [SVoid (list_byte_of_string "test");
              SComplex (S754_finite false 21 1) S754_nan;
              SDateTime (Some 1609459200%Z)]) = true /\
  (to_json_value
     (Structured [("a", FixedLengthBytes 4); ("b", Complex128);
                  ("c", DateTime64 unit_s)])
     (SStruct [SVoid (list_byte_of_string "test");
               SComplex (S754_finite false 21 1) S754_nan;
               SDateTime (Some 1609459200%Z)]) V3
   ≫= fun j =>
     from_json_value
       (Structured [("a", FixedLengthBytes 4); ("b", Complex128);
                    ("c", DateTime64 unit_s)]) j V3)
  = Ok (SStruct [SVoid (list_byte_of_string "test");
                 SComplex (S754_finite false 21 1) S754_nan;
                 SDateTime (Some 1609459200%Z)]).
Proof.
  split; [reflexivity|].
  apply json_value_roundtrip. reflexivity.
Defined.

End WrapperFacts.

(** ** The data type registry *)

Module RegistryFacts.
Import Registry.


Lemma dict_get_set_ne {V} (k k0 : string) (v : V) (d : list (string * V)) :
  k0 <> k -> dict_get k0 (dict_set k v d) = dict_get k0 d.
Proof.
  intros Hne. induction d as [|[k' v'] d IH]; cbn.
  - destruct (String.eqb_spec k0 k); [contradiction | reflexivity].
  - destruct (String.eqb_spec k k') as [->|Hk]; cbn.
    + destruct (String.eqb_spec k0 k'); [contradiction | reflexivity].
    + rewrite IH. reflexivity.
Qed.


Lemma dict_set_elem {V} (k : string) (v : V) (d : list (string * V)) :
  In (k, v) (dict_set k v d).
Proof.
  induction d as [|[k0 v0] d IH]; cbn; [auto|].
  destruct (String.eqb k k0); cbn; auto.
Qed.

Lemma dict_set_elem_inv {V} (k k0 : string) (v v0 : V)
    (d : list (string * V)) :
  In (k0, v0) (dict_set k v d) -> (k0, v0) = (k, v) \/ In (k0, v0) d.
Proof.
  induction d as [|[k1 v1] d IH]; cbn.
  - intros [Heq|[]]. left. symmetry. exact Heq.
  - destruct (String.eqb k k1); cbn; intros [Heq|Hin]; auto.
    destruct (IH Hin); auto.
Qed.

Lemma dict_get_absent {V} (k : string) (d : list (string * V)) :
  ~ In k (map fst d) -> dict_get k d = None.
Proof.
  induction d as [|[k' v'] d IH]; cbn; [reflexivity|].
  intros Hnot. destruct (String.eqb_spec k k') as [->|_].
  - exfalso. apply Hnot. left. reflexivity.
  - apply IH. intros Hin. apply Hnot. right. exact Hin.
Qed.

(** A scan over factories that all reject ends in the no-match error. *)
Lemma scan_all_reject (l : list (string * Factory)) (d : np_dtype) :
  (forall k h, In (k, h) l -> rejects h d) -> scan l d = Raise (no_match d).
Proof.
  induction l as [|[k h] l IH]; intros Hall; cbn; [reflexivity|].
  destruct (Hall k h (or_introl eq_refl)) as (e & -> & ->).
  apply IH. intros k' h' Hin. apply (Hall k' h'). right. exact Hin.
Qed.

(** A scan in which one factory accepts and all others reject returns
    what that factory builds. *)
Lemma scan_single_match (l : list (string * Factory)) (g : Factory)
    (d : np_dtype) (w : ZDType) :
  from_dtype g d = Ok w ->
  (exists k, In (k, g) l) ->
  (forall k h, In (k, h) l -> h = g \/ rejects h d) ->
  scan l d = Ok w.
Proof.
  intros Hg. induction l as [|[k h] l IH]; intros [k0 Hin] Hall.
  - destruct Hin.
  - cbn [scan].
    destruct (Hall k h (or_introl eq_refl)) as [->|(e & He & Hv)].
    + rewrite Hg. reflexivity.
    + rewrite He, Hv. apply IH.
      * destruct Hin as [Heq|Hin]; [|eauto].
        injection Heq as _ ->. rewrite Hg in He. discriminate He.
      * intros k' h' Hin'. apply (Hall k' h'). right. exact Hin'.
Qed.

Example test_register :
  let r := register "bool" Bool_cls empty in
  get r "bool" = Ok Bool_cls /\ match_dtype r np_bool = Ok Bool.
Proof. split; reflexivity. Qed.

Example test_override :
  let r := register "bool" NewBool_cls (register "bool" Bool_cls empty) in
  get r "bool" = Ok NewBool_cls /\ match_dtype r np_bool = Ok UInt8.
Proof. split; reflexivity. Qed.

Example test_unregistered_dtype :
  match_dtype empty (np_int W8) = Raise (no_match (np_int W8)) /\
  get empty "int8" = Raise (not_found "int8").
Proof. split; reflexivity. Qed.


Lemma rejects_Int8_bool : rejects Int8_cls np_bool.
Proof. eexists. split; reflexivity. Qed.


(** C4.  When every registered factory rejects the native type [d],
    [match_dtype] returns no wrapper at all: it raises the no-match
    error, whose message quotes [d] itself.  [get] on a name that is not
    registered raises the not-found error for that name. *)
Theorem lookup_failures (r : DataTypeRegistry) (d : np_dtype) (key : string) :
  ((forall k h, In (k, h) (contents r) -> rejects h d) ->
   match_dtype r d =
   Raise (Exc ValueError
            [Lit "No data type wrapper found that matches dtype '";
             FDType d; Lit "'"])) /\
  (~ In key (map fst (contents r)) ->
   get r key = Raise (Exc KeyError [FRepr (PStr key)])).
Proof.
  split.
  - intros Hall. apply (scan_all_reject _ d Hall).
  - intros Habsent. unfold get. rewrite dict_get_absent by exact Habsent.
    reflexivity.
Qed.

Lemma lookup_failures_witness :
  (forall k h, In (k, h) (contents (register "int8" Int8_cls empty)) ->
               rejects h np_bool) /\
  ~ In "bool" (map fst (contents (register "int8" Int8_cls empty))) /\
  match_dtype (register "int8" Int8_cls empty) np_bool =
    Raise (Exc ValueError
             [Lit "No data type wrapper found that matches dtype '";
              FDType np_bool; Lit "'"]) /\
  get (register "int8" Int8_cls empty) "bool" =
    Raise (Exc KeyError [FRepr (PStr "bool")]).
Proof.
  assert (H1 : forall k h,
             In (k, h) (contents (register "int8" Int8_cls empty)) ->
             rejects h np_bool).
  { intros k h [Heq|[]]. injection Heq as _ <-. exact rejects_Int8_bool. }
  assert (H2 : ~ In "bool"
                 (map fst (contents (register "int8" Int8_cls empty)))).
  { intros [Heq|[]]. discriminate Heq. }
  destruct (lookup_failures (register "int8" Int8_cls empty) np_bool "bool")
    as [Hmatch Hget].
  split; [exact H1|]. split; [exact H2|].
  split; [apply Hmatch, H1 | apply Hget, H2].
Defined.

(** *** The built-in classes match their own native types only *)

Lemma wrap_fields_to_dtype (fs : list (string * ZDType)) :
  Forall (fun f => wrap (Wrapper.to_dtype (snd f)) = Ok (snd f)) fs ->
  wrap_fields wrap
    ((fix go (l : list (string * ZDType)) :=
        match l with
        | [] => []
        | (nm, w') :: l' => (nm, Wrapper.to_dtype w') :: go l'
        end) fs) = Ok fs.
Proof.
  induction 1 as [|[nm w] fs Hw _ IH]; [reflexivity|].
  cbn [wrap_fields snd] in *. rewrite Hw. cbn. rewrite IH. reflexivity.
Qed.

Lemma wrap_to_dtype (w : ZDType) : wrap (Wrapper.to_dtype w) = Ok w.
Proof.
  induction w as [w IH] using ZDType_nested_ind.
  destruct w; try reflexivity.
  cbn [Wrapper.to_dtype wrap].
  rewrite (wrap_fields_to_dtype fields (IH fields eq_refl)). reflexivity.
Qed.

Lemma from_dtype_of_other (c : DTypeClass) (w : ZDType) :
  class_of w <> c -> rejects (factory_of c) (Wrapper.to_dtype w).
Proof.
  intros Hne. exists (invalid_dtype (Wrapper.to_dtype w)).
  split; [|reflexivity]. cbn [factory_of from_dtype]. unfold from_dtype_of.
  rewrite wrap_to_dtype. destruct (decide (class_of w = c)); [contradiction|].
  reflexivity.
Qed.

Lemma from_dtype_of_own (w : ZDType) :
  from_dtype (factory_of (class_of w)) (Wrapper.to_dtype w) = Ok w.
Proof.
  cbn [factory_of from_dtype]. unfold from_dtype_of. rewrite wrap_to_dtype.
  destruct (decide (class_of w = class_of w)); [reflexivity|contradiction].
Qed.

Lemma register_all_elem (cs : list DTypeClass) (r : DataTypeRegistry)
    (k : string) (h : Factory) :
  In (k, h) (contents (register_all cs r)) ->
  In (k, h) (contents r) \/ exists c, In c cs /\ h = factory_of c.
Proof.
  revert r. induction cs as [|c cs IH]; intros r Hin; [left; exact Hin|].
  cbn [register_all fold_left] in Hin. apply IH in Hin as [Hin|(c' & Hc' & ->)].
  - unfold register in Hin. cbn [contents] in Hin.
    apply dict_set_elem_inv in Hin as [Heq|Hin]; [|left; exact Hin].
    right. exists c. split; [left; reflexivity|].
    injection Heq as _ ->. reflexivity.
  - right. exists c'. split; [right; exact Hc'|reflexivity].
Qed.

(** Section 8, property 5: with one class left out of a registry that
    holds all the others, the native type of any instance of that class
    finds no wrapper. *)
Lemma match_dtype_unique (w : ZDType) :
  match_dtype (registry_without (class_of w)) (Wrapper.to_dtype w)
  = Raise (no_match (Wrapper.to_dtype w)).
Proof.
  unfold match_dtype, registry_without.
  apply scan_all_reject. intros k h Hin.
  apply register_all_elem in Hin as [Hin|(c & Hc & ->)]; [destruct Hin|].
  apply filter_In in Hc as [_ Hc]. apply from_dtype_of_other.
  intros Heq. rewrite Heq, bool_decide_eq_true_2 in Hc by reflexivity.
  discriminate Hc.
Qed.

Lemma class_name_inj (c c' : DTypeClass) :
  class_name c = class_name c' -> c = c'.
Proof. destruct c, c'; first [reflexivity | discriminate]. Qed.

Lemma dict_set_keeps {V} (k k0 : string) (v v0 : V) (d : list (string * V)) :
  k <> k0 -> In (k0, v0) d -> In (k0, v0) (dict_set k v d).
Proof.
  intros Hne. induction d as [|[k1 v1] d IH]; [intros []|].
  cbn [dict_set]. destruct (String.eqb_spec k k1) as [->|_].
  - intros [Heq|Hin]; [|right; exact Hin].
    injection Heq as -> _. contradiction.
  - intros [Heq|Hin]; [left; exact Heq | right; apply IH, Hin].
Qed.

(** A class that is registered once, and whose name no later
    registration reuses, is still there. *)
Lemma register_all_keeps (cs : list DTypeClass) (r : DataTypeRegistry)
    (c : DTypeClass) :
  ~ In c cs ->
  In (class_name c, factory_of c) (contents r) ->
  In (class_name c, factory_of c) (contents (register_all cs r)).
Proof.
  revert r. induction cs as [|c0 cs IH]; intros r Hnot Hin; [exact Hin|].
  cbn [register_all fold_left]. apply IH.
  - intros Hc. apply Hnot. right. exact Hc.
  - unfold register. cbn [contents]. apply dict_set_keeps; [|exact Hin].
    intros Heq. apply class_name_inj in Heq. apply Hnot. left. exact Heq.
Qed.

Lemma register_all_holds (cs : list DTypeClass) (r : DataTypeRegistry)
    (c : DTypeClass) :
  List.NoDup cs -> In c cs ->
  In (class_name c, factory_of c) (contents (register_all cs r)).
Proof.
  revert r. induction cs as [|c0 cs IH]; intros r Hnd Hin; [destruct Hin|].
  apply List.NoDup_cons_iff in Hnd as [Hfresh Hnd].
  cbn [register_all fold_left]. destruct Hin as [->|Hin].
  - apply register_all_keeps; [exact Hfresh|].
    unfold register. cbn [contents]. apply dict_set_elem.
  - apply IH; assumption.
Qed.

Lemma DTYPE_complete (c : DTypeClass) : In c DTYPE.
Proof. destruct c; cbn; tauto. Qed.

Lemma DTYPE_NoDup : List.NoDup DTYPE.
Proof.
  unfold DTYPE.
  repeat (apply List.NoDup_cons; [cbn; intuition discriminate|]).
  apply List.NoDup_nil.
Qed.

(** The full registry resolves the native type of every wrapper to that
    wrapper. *)
Lemma match_dtype_registered (w : ZDType) :
  match_dtype data_type_registry (Wrapper.to_dtype w) = Ok w.
Proof.
  unfold match_dtype, data_type_registry.
  apply (scan_single_match _ (factory_of (class_of w))).
  - apply from_dtype_of_own.
  - exists (class_name (class_of w)).
    apply register_all_holds; [apply DTYPE_NoDup | apply DTYPE_complete].
  - intros k h Hin.
    apply register_all_elem in Hin as [Hin|(c & _ & ->)]; [destruct Hin|].
    destruct (decide (class_of w = c)) as [<-|Hne]; [left; reflexivity|].
    right. apply from_dtype_of_other. exact Hne.
Qed.

End RegistryFacts.

(** ** The array metadata document *)

Module V2Facts.
Import V2.

Section Scenario.
#[local] Existing Instances Reference.numpy Reference.numcodecs Reference.names.

Example scenario_init :
  init Reference.scenario_args = mkM [] (Ok Reference.scenario).
Proof. vm_compute. reflexivity. Qed.

Example scenario_chunk_keys :
  encode_chunk_key Reference.scenario [1; 2]%Z = "1.2" /\
  encode_chunk_key Reference.scenario [] = "0".
Proof. split; reflexivity. Qed.

Example scenario_to_dict :
  (d ← to_dict Reference.scenario;
   mret (d !! "zarr_format", d !! "dtype", d !! "fill_value",
         d !! "compressor", d !! "filters"))
  = Ok (Some (PInt 2), Some (PStr "<i4"), Some (PInt 0),
        Some PNone, Some PNone).
Proof. vm_compute. reflexivity. Qed.
End Scenario.

(** *** Decimal forms and joins *)

Lemma pretty_N_go_length (x : N) (s : string) :
  String.length s <= String.length (pretty_N_go x s).
Proof.
  revert s. induction (N.lt_wf_0 x) as [x _ IH]. intros s.
  destruct (N.eq_dec x 0%N) as [->|Hx].
  - rewrite pretty_N_go_0. lia.
  - assert (Hpos : (0 < x)%N) by lia.
    rewrite (pretty_N_go_step x s Hpos).
    pose proof (IH (x `div` 10)%N (N.div_lt x 10 Hpos eq_refl)
                  (String (pretty_N_char (x `mod` 10)) s)) as Hle.
    cbn [String.length] in Hle. lia.
Qed.

Lemma pretty_Z_nonempty (z : Z) : pretty z <> "".
Proof.
  destruct z as [|p|p]; [discriminate| |discriminate].
  change (pretty (Z.pos p)) with (pretty_N_go (N.pos p) "").
  rewrite pretty_N_go_step by lia. intros Hempty.
  pose proof (pretty_N_go_length (N.pos p `div` 10)
                (String (pretty_N_char (N.pos p `mod` 10)) "")) as Hle.
  rewrite Hempty in Hle. cbn in Hle. lia.
Qed.

Lemma str_join_nonempty (sep p : string) (rest : list string) :
  p <> "" -> str_join sep (p :: rest) <> "".
Proof.
  intros Hp. destruct rest as [|q rest]; [exact Hp|].
  cbn [str_join]. destruct p as [|c p]; [contradiction|]. discriminate.
Qed.

(** *** Computations with warnings *)

Lemma lift_bind {A B} (r : Result A) (f : A -> M B) :
  (lift r ≫= f) = match r with Ok a => f a | Raise e => lift (Raise e) end.
Proof.
  destruct r as [a|e]; [|reflexivity].
  unfold mbind, M_bind, lift. cbn. destruct (f a). reflexivity.
Qed.

Lemma M_bind_Ok {A B} (m : M A) (f : A -> M B) (b : B) :
  outcome (m ≫= f) = Ok b ->
  exists a, outcome m = Ok a /\ outcome (f a) = Ok b /\
            warnings (m ≫= f) = (warnings m ++ warnings (f a))%list.
Proof.
  unfold mbind, M_bind. destruct (outcome m) as [a|e]; cbn; [|discriminate].
  intros Hb. exists a. auto.
Qed.

Lemma lift_Ok {A} (r : Result A) (a : A) :
  outcome (lift r) = Ok a -> r = Ok a.
Proof. intros Hr. exact Hr. Qed.

Section General.
Context `{Numpy, Numcodecs, DTypeNames}.

(** The join performed by [encode_chunk_key] is the separator-join of
    the standard library. *)
Lemma str_join_concat (sep : string) (parts : list string) :
  str_join sep parts = String.concat sep parts.
Proof.
  induction parts as [|p rest IH]; [reflexivity|].
  destruct rest as [|q rest]; [reflexivity|].
  change (p +:+ sep +:+ str_join sep (q :: rest) =
          p +:+ sep +:+ String.concat sep (q :: rest)).
  now rewrite IH.
Qed.

(** C8.  [encode_chunk_key] returns the decimal forms of the
    coordinates joined by the dimension separator of the document, and
    the string ["0"] for the empty tuple.  The join is stated against the
    standard library's [String.concat], and once more by its equations:
    a single coordinate gives its decimal form, and a further coordinate
    in front adds its decimal form and one separator. *)
Theorem encode_chunk_key_spec (m : ArrayV2Metadata) (c : list Z) :
  encode_chunk_key m c =
  match c with
  | [] => "0"
  | _ :: _ => String.concat (dimension_separator m) (pretty <$> c)
  end /\
  (forall z : Z, encode_chunk_key m [z] = pretty z) /\
  (forall (z z' : Z) (rest : list Z),
      encode_chunk_key m (z :: z' :: rest) =
      pretty z +:+ dimension_separator m +:+ encode_chunk_key m (z' :: rest)).
Proof.
  assert (Hkey : forall z rest,
             encode_chunk_key m (z :: rest) =
             String.concat (dimension_separator m) (pretty <$> z :: rest)).
  { intros z rest. unfold encode_chunk_key.
    destruct (String.eqb_spec
                (str_join (dimension_separator m) (pretty <$> z :: rest)) "")
      as [Hempty|_]; [|apply str_join_concat].
    exfalso. revert Hempty. rewrite fmap_cons.
    apply str_join_nonempty, pretty_Z_nonempty. }
  split; [|split].
  - destruct c as [|z rest]; [reflexivity|apply Hkey].
  - intros z. now rewrite Hkey.
  - intros z z' rest. now rewrite !Hkey.
Qed.

(** C10.  The per-chunk specification does not depend on the chunk
    coordinates: any two coordinate tuples give the same chunk shape,
    data type, fill value, configuration and prototype. *)
Theorem get_chunk_spec_independent {ArrayConfig BufferPrototype : Type}
    (m : ArrayV2Metadata) (cfg : ArrayConfig) (p : BufferPrototype)
    (c1 c2 : list Z) :
  get_chunk_spec m c1 cfg p = get_chunk_spec m c2 cfg p /\
  spec_shape _ _ (get_chunk_spec m c1 cfg p) = chunks m /\
  spec_dtype _ _ (get_chunk_spec m c1 cfg p) = dtype m /\
  spec_fill_value _ _ (get_chunk_spec m c1 cfg p) = fill_value m.
Proof. repeat split. Qed.

(** *** The validating constructor *)

(** The constructor warns about nothing: it is its parsers in
    sequence, followed by the consistency check. *)
Lemma init_lift (a : InitArgs) :
  init a =
  lift (shape_parsed ← parse_shapelike (arg_shape a);
        chunks_parsed ← parse_shapelike (arg_chunks a);
        dtype ← check_wrapper (arg_dtype a);
        compressor_parsed ← parse_compressor (arg_compressor a);
        order_parsed ← parse_indexing_order (arg_order a);
        dimension_separator_parsed ←
          parse_separator (arg_dimension_separator a);
        filters_parsed ← parse_filters (arg_filters a);
        fill_value_parsed ←
          parse_fill_value (arg_fill_value a) (Wrapper.to_dtype dtype);
        attributes_parsed ← parse_attributes (arg_attributes a);
        parse_metadata
          {| shape := shape_parsed;
             chunks := chunks_parsed;
             dtype := dtype;
             fill_value := fill_value_parsed;
             order := order_parsed;
             filters := filters_parsed;
             dimension_separator := dimension_separator_parsed;
             compressor := compressor_parsed;
             attributes := attributes_parsed |}).
Proof.
  unfold init.
  repeat (rewrite lift_bind;
          match goal with
          | |- match ?r with Ok _ => _ | Raise _ => _ end = _ =>
              destruct r; [rewrite bind_Ok | reflexivity]
          end).
  reflexivity.
Qed.

Lemma init_silent (a : InitArgs) : warnings (init a) = [].
Proof. rewrite init_lift. reflexivity. Qed.

Lemma parse_metadata_Ok (d m : ArrayV2Metadata) :
  parse_metadata d = Ok m ->
  m = d /\ List.length (chunks d) = List.length (shape d).
Proof.
  unfold parse_metadata.
  destruct (Nat.eqb_spec (List.length (chunks d)) (List.length (shape d)))
    as [Heq|_]; cbn; [|discriminate].
  intros Hm. injection Hm as <-. auto.
Qed.

(** What a successful construction tells about its arguments. *)
Lemma init_Ok (a : InitArgs) (m : ArrayV2Metadata) :
  outcome (init a) = Ok m ->
  parse_shapelike (arg_shape a) = Ok (shape m) /\
  parse_shapelike (arg_chunks a) = Ok (chunks m) /\
  check_wrapper (arg_dtype a) = Ok (dtype m) /\
  parse_compressor (arg_compressor a) = Ok (compressor m) /\
  parse_indexing_order (arg_order a) = Ok (order m) /\
  parse_separator (arg_dimension_separator a) = Ok (dimension_separator m) /\
  parse_filters (arg_filters a) = Ok (filters m) /\
  parse_fill_value (arg_fill_value a) (Wrapper.to_dtype (dtype m))
    = Ok (fill_value m) /\
  parse_attributes (arg_attributes a) = Ok (attributes m) /\
  List.length (shape m) = List.length (chunks m).
Proof.
  rewrite init_lift. cbn [outcome lift]. intros Hm.
  repeat (apply bind_is_Ok in Hm as (? & ? & Hm)).
  apply parse_metadata_Ok in Hm as [-> Hlen]. cbn in *.
  repeat split; auto.
Qed.

Lemma shape_items_length (xs : list PyObj) (whole : PyObj) (ns : list Z) :
  shape_items xs whole = Ok ns -> List.length ns = List.length xs.
Proof.
  revert ns. induction xs as [|x xs IH]; intros ns Hns.
  - injection Hns as <-. reflexivity.
  - cbn [shape_items] in Hns. destruct x; try discriminate Hns.
    destruct (n <? 0)%Z; [discriminate Hns|].
    apply bind_is_Ok in Hns as (ns' & Hns' & Hns).
    injection Hns as <-. cbn. rewrite (IH ns' Hns'). reflexivity.
Qed.

Lemma parse_shapelike_length (xs : list PyObj) (ns : list Z) :
  parse_shapelike (PList xs) = Ok ns -> List.length ns = List.length xs.
Proof. apply shape_items_length. Qed.

Lemma update_shape_is_init (m : ArrayV2Metadata) (s : PyObj) :
  exists a, update_shape m s = init a.
Proof. eexists. reflexivity. Qed.

Lemma update_attributes_is_init (m : ArrayV2Metadata) (x : PyObj) :
  exists a, update_attributes m x = init a.
Proof. eexists. reflexivity. Qed.

Lemma call_cls_Ok (kw : gmap string PyObj) (m : ArrayV2Metadata) :
  outcome (call_cls kw) = Ok m ->
  exists a, outcome (init a) = Ok m /\
            warnings (call_cls kw) = [] /\
            arg_filters a = default PNone (kw !! "filters").
Proof.
  unfold call_cls. intros Hm.
  repeat (rewrite lift_bind in Hm |- *;
          match type of Hm with
          | context [match ?r with Ok _ => _ | Raise _ => _ end] =>
              destruct r; [|discriminate Hm]
          end).
  eexists. split; [exact Hm|]. split; [apply init_silent|reflexivity].
Qed.

Lemma from_dict_Ok (data : gmap string PyObj) (m : ArrayV2Metadata) :
  outcome (from_dict data) = Ok m -> exists a, outcome (init a) = Ok m.
Proof.
  unfold from_dict. intros Hm.
  do 6 (apply M_bind_Ok in Hm as (? & _ & Hm & _)).
  apply call_cls_Ok in Hm as (a & Ha & _). exists a. exact Ha.
Qed.

Lemma init_parse_arguments (a : InitArgs) :
  init a = lift (d ← parse_arguments a; parse_metadata d).
Proof.
  rewrite init_lift. unfold parse_arguments. f_equal.
  repeat match goal with
         | |- (match ?r with Ok _ => _ | Raise _ => _ end) = _ =>
             destruct r; [|reflexivity]
         | |- mbind _ ?r = _ => destruct r; [rewrite !bind_Ok|reflexivity]
         end.
  reflexivity.
Qed.

Lemma parse_arguments_Ok (a : InitArgs) (d : ArrayV2Metadata) :
  parse_arguments a = Ok d ->
  parse_shapelike (arg_shape a) = Ok (shape d) /\
  parse_shapelike (arg_chunks a) = Ok (chunks d).
Proof.
  unfold parse_arguments. intros Hd.
  repeat (apply bind_is_Ok in Hd as (? & ? & Hd)).
  injection Hd as <-. cbn. auto.
Qed.

(** C2 (amended).  Every document that exists has a shape and a chunk
    shape of the same length.  The constructor establishes it: it is its
    argument parsers followed by the consistency check, so called on a
    shape and a chunk shape of different lengths it always fails, with
    the shape-mismatch error of [parse_metadata] when every argument
    passes its own parser and with the error of the first parser that
    fails otherwise.  The operations that produce documents
    ([update_shape], [update_attributes], [from_dict]) go through the
    constructor, so none of them produces a document that violates
    it. *)
Theorem shape_chunks_same_length :
  (forall a m, outcome (init a) = Ok m ->
               List.length (shape m) = List.length (chunks m)) /\
  (forall a, init a = lift (d ← parse_arguments a; parse_metadata d)) /\
  (forall a xs ys,
      arg_shape a = PList xs -> arg_chunks a = PList ys ->
      List.length xs <> List.length ys ->
      outcome (init a) =
      match parse_arguments a with
      | Ok _ => Raise (shape_mismatch (List.length ys) (List.length xs))
      | Raise e => Raise e
      end) /\
  (forall a sp cp w,
      parse_shapelike (arg_shape a) = Ok sp ->
      parse_shapelike (arg_chunks a) = Ok cp ->
      arg_dtype a = PWrapper w ->
      is_ok (parse_compressor (arg_compressor a)) = true ->
      is_ok (parse_indexing_order (arg_order a)) = true ->
      is_ok (parse_separator (arg_dimension_separator a)) = true ->
      is_ok (parse_filters (arg_filters a)) = true ->
      is_ok (parse_fill_value (arg_fill_value a) (Wrapper.to_dtype w)) = true ->
      is_ok (parse_attributes (arg_attributes a)) = true ->
      List.length sp <> List.length cp ->
      outcome (init a) =
      Raise (shape_mismatch (List.length cp) (List.length sp))) /\
  (forall m s m', outcome (update_shape m s) = Ok m' ->
                  List.length (shape m') = List.length (chunks m')) /\
  (forall m x m', outcome (update_attributes m x) = Ok m' ->
                  List.length (shape m') = List.length (chunks m')) /\
  (forall data m, outcome (from_dict data) = Ok m ->
                  List.length (shape m) = List.length (chunks m)).
Proof.
  assert (Hinv : forall a m, outcome (init a) = Ok m ->
                   List.length (shape m) = List.length (chunks m)).
  { intros a m Hm. apply init_Ok in Hm. tauto. }
  split; [exact Hinv|]. split; [exact init_parse_arguments|].
  split; [|split; [|split; [|split]]].
  - intros a xs ys Hs Hc Hne.
    rewrite init_parse_arguments. cbn [outcome lift].
    destruct (parse_arguments a) as [d|e] eqn:Hd; [|reflexivity].
    rewrite bind_Ok.
    apply parse_arguments_Ok in Hd as [Hsp Hcp].
    rewrite Hs in Hsp. rewrite Hc in Hcp.
    apply parse_shapelike_length in Hsp, Hcp.
    unfold parse_metadata. rewrite Hsp, Hcp.
    destruct (Nat.eqb_spec (List.length ys) (List.length xs)) as [Heq|_];
      [congruence | reflexivity].
  - intros a sp cp w Hsp Hcp Hw Hc Ho Hd Hf Hv Hat Hne.
    rewrite init_lift. cbn [outcome lift].
    rewrite Hsp, Hcp, Hw. cbn [check_wrapper]. rewrite !bind_Ok.
    destruct (parse_compressor (arg_compressor a)); [|discriminate Hc].
    destruct (parse_indexing_order (arg_order a)); [|discriminate Ho].
    destruct (parse_separator (arg_dimension_separator a));
      [|discriminate Hd].
    destruct (parse_filters (arg_filters a)); [|discriminate Hf].
    destruct (parse_fill_value (arg_fill_value a) (Wrapper.to_dtype w));
      [|discriminate Hv].
    destruct (parse_attributes (arg_attributes a)); [|discriminate Hat].
    rewrite !bind_Ok. unfold parse_metadata. cbn [chunks shape].
    destruct (Nat.eqb_spec (List.length cp) (List.length sp)) as [Heq|_];
      [congruence | reflexivity].
  - intros m s m' Hm'. destruct (update_shape_is_init m s) as [a Ha].
    rewrite Ha in Hm'. apply (Hinv a m' Hm').
  - intros m x m' Hm'. destruct (update_attributes_is_init m x) as [a Ha].
    rewrite Ha in Hm'. apply (Hinv a m' Hm').
  - intros data m Hm. apply from_dict_Ok in Hm as [a Ha].
    apply (Hinv a m Ha).
Qed.

(** *** Empty filter lists *)

Lemma decode_fill_value_Ok (w : ZDType) (d d' : gmap string PyObj) :
  outcome (decode_fill_value w d) = Ok d' ->
  warnings (decode_fill_value w d) = [] /\
  d' !! "filters" = d !! "filters".
Proof.
  unfold decode_fill_value.
  destruct (Ascii.eqb _ "S" || Ascii.eqb _ "V");
    [|intros Hd; injection Hd as <-; auto].
  destruct (d !! "fill_value") as [x|];
    [|intros Hd; injection Hd as <-; auto].
  destruct x;
    try (intros Hd; injection Hd as <-; split; reflexivity);
    rewrite lift_bind;
    (destruct (standard_b64decode _) as [?|?]; [|discriminate]);
    intros Hd; injection Hd as <-;
    (split; [reflexivity|]); apply lookup_insert_ne; discriminate.
Qed.

Lemma check_empty_filters_empty (d : gmap string PyObj) :
  d !! "filters" = Some (PList []) ->
  check_empty_filters d =
  mkM [UserWarning empty_filters_msg] (Ok (<["filters" := PNone]> d)).
Proof.
  intros Hd. unfold check_empty_filters, getitem. rewrite Hd.
  reflexivity.
Qed.

Lemma filters_expected (d : gmap string PyObj) (x : PyObj) :
  d !! "filters" = Some x ->
  filter (fun kv => fst kv ∈ expected) d !! "filters" = Some x.
Proof.
  intros Hd. apply map_lookup_filter_Some. split; [exact Hd|].
  cbn [fst]. unfold expected. set_solver.
Qed.

(** A constructor call with [filters=[]] that returns has stored
    [None]. *)
Lemma init_empty_filters_Ok (a : InitArgs) (m : ArrayV2Metadata) :
  arg_filters a = PList [] -> outcome (init a) = Ok m -> filters m = None.
Proof.
  intros Ha Hm.
  apply init_Ok in Hm as (_ & _ & _ & _ & _ & _ & Hf & _).
  rewrite Ha in Hf. cbn in Hf. injection Hf as <-. reflexivity.
Qed.

(** A [from_dict] call on a document with [filters: []] that returns has
    warned once and stored [None]. *)
Lemma from_dict_empty_filters_Ok (data : gmap string PyObj)
    (m : ArrayV2Metadata) :
  data !! "filters" = Some (PList []) ->
  outcome (from_dict data) = Ok m ->
  filters m = None /\
  warnings (from_dict data) = [UserWarning empty_filters_msg].
Proof.
  intros Hdata. unfold from_dict.
  rewrite lift_bind.
  destruct (getitem data "zarr_format") as [zf|e]; [|discriminate].
  rewrite lift_bind. destruct (parse_zarr_format zf); [|discriminate].
  rewrite lift_bind.
  destruct (getitem (delete "zarr_format" data) "dtype") as [descr|e];
    [|discriminate].
  rewrite lift_bind.
  destruct (get_data_type_from_numpy descr) as [w|e]; [|discriminate].
  set (d0 := <["dtype" := PWrapper w]> (delete "zarr_format" data)).
  assert (Hd0 : d0 !! "filters" = Some (PList [])).
  { subst d0. rewrite lookup_insert_ne by discriminate.
    rewrite lookup_delete_ne by discriminate. exact Hdata. }
  intros Hm.
  apply M_bind_Ok in Hm as (d1 & Hd1 & Hm & ->).
  apply decode_fill_value_Ok in Hd1 as [-> Hd1].
  rewrite Hd0 in Hd1.
  rewrite (check_empty_filters_empty d1 Hd1) in Hm |- *.
  apply M_bind_Ok in Hm as (d2 & Hd2 & Hm & ->).
  cbn in Hd2. injection Hd2 as <-.
  apply call_cls_Ok in Hm as (args & Hargs & -> & Hfs).
  rewrite (filters_expected _ PNone) in Hfs
    by apply lookup_insert_eq.
  cbn in Hfs. split; [|reflexivity].
  apply init_Ok in Hargs as (_ & _ & _ & _ & _ & _ & Hf & _).
  rewrite Hfs in Hf. cbn in Hf. injection Hf as <-. reflexivity.
Qed.

(** *** Fill values *)

Lemma is_None_spec (x : PyObj) : is_None x = true <-> x = PNone.
Proof. destruct x; cbn; split; congruence. Qed.

Lemma is_str_not_zero (x : PyObj) :
  is_str x = true -> negb (is_void x) && py_eq_int x 0 = false.
Proof.
  destruct x as [| | | | | | | | |d x|]; try discriminate; [reflexivity|].
  destruct x; try discriminate. reflexivity.
Qed.

(** C5.  The dispatch of [parse_fill_value], in the order of its
    tests: [None], and any value when the dtype holds objects, is
    returned as it is; otherwise a value that is no [numpy.void] and
    equals [0] becomes the zero scalar of the dtype; otherwise, for the
    unicode kind, a string is returned as it is and anything else is a
    fill-value error; otherwise raw bytes for the [V] kind are
    reinterpreted structurally and any other value is cast into the
    dtype, a failure of either being a fill-value error. *)
Theorem parse_fill_value_dispatch (fv : PyObj) (d : np_dtype) :
  (fv = PNone \/ hasobject d = true -> parse_fill_value fv d = Ok fv) /\
  (fv <> PNone -> hasobject d = false ->
   is_void fv = false -> py_eq_int fv 0 = true ->
   parse_fill_value fv d = Ok (np_zeros d)) /\
  (fv <> PNone -> hasobject d = false -> kind d = "U"%char ->
   is_str fv = true ->
   parse_fill_value fv d = Ok fv) /\
  (fv <> PNone -> hasobject d = false -> kind d = "U"%char ->
   is_str fv = false ->
   is_void fv = true \/ py_eq_int fv 0 = false ->
   parse_fill_value fv d = Raise (fill_value_not_unicode fv d)) /\
  (fv <> PNone -> hasobject d = false -> kind d = "V"%char ->
   is_void fv = true \/ py_eq_int fv 0 = false ->
   forall b, as_bytes fv = Some b ->
   parse_fill_value fv d =
   match np_array_view b d with
   | Ok v => Ok v
   | Raise _ => Raise (fill_value_invalid fv d)
   end) /\
  (fv <> PNone -> hasobject d = false -> kind d <> "U"%char ->
   is_void fv = true \/ py_eq_int fv 0 = false ->
   as_bytes fv = None \/ kind d <> "V"%char ->
   parse_fill_value fv d =
   match np_array fv d with
   | Ok v => Ok v
   | Raise _ => Raise (fill_value_invalid fv d)
   end).
Proof.
  assert (Hnone : fv <> PNone -> is_None fv = false).
  { intros Hne. destruct (is_None fv) eqn:E; [|reflexivity].
    apply is_None_spec in E. contradiction. }
  assert (Hzero : is_void fv = true \/ py_eq_int fv 0 = false ->
                  negb (is_void fv) && py_eq_int fv 0 = false).
  { intros [->| ->]; [reflexivity | apply andb_false_r]. }
  unfold parse_fill_value. repeat split.
  - intros [-> | ->]; [reflexivity|]. rewrite orb_true_r. reflexivity.
  - intros Hne Hobj Hvoid Hz. rewrite (Hnone Hne), Hobj, Hvoid, Hz.
    reflexivity.
  - intros Hne Hobj Hk Hs.
    rewrite (Hnone Hne), Hobj, (is_str_not_zero fv Hs), Hk, Hs.
    reflexivity.
  - intros Hne Hobj Hk Hs Hz.
    rewrite (Hnone Hne), Hobj, (Hzero Hz), Hk, Hs. reflexivity.
  - intros Hne Hobj Hk Hz b Hb.
    rewrite (Hnone Hne), Hobj, (Hzero Hz), Hk, Hb. reflexivity.
  - intros Hne Hobj Hk Hz Hb.
    rewrite (Hnone Hne), Hobj, (Hzero Hz). cbn [orb].
    destruct (Ascii.eqb_spec (kind d) "U") as [HU|_]; [contradiction|].
    destruct Hb as [-> |HV]; [reflexivity|].
    destruct (as_bytes fv); [|reflexivity].
    destruct (Ascii.eqb_spec (kind d) "V") as [HV'|_]; [contradiction|].
    reflexivity.
Qed.

(** *** Serialization of the compressor *)

Lemma getitem_Some (d : gmap string PyObj) (k : string) (v : PyObj) :
  d !! k = Some v -> getitem d k = Ok v.
Proof. intros Hk. unfold getitem. rewrite Hk. reflexivity. Qed.

Lemma super_to_dict_compressor (m : ArrayV2Metadata) :
  super_to_dict m !! "compressor" =
  Some (match compressor m with Some c => codec_obj c | None => PNone end).
Proof. reflexivity. Qed.

(** The outcomes of the checksum hotfix, case by case. *)
Lemma compressor_config_spec (cfg : gmap string PyObj) (id : PyObj) :
  cfg !! "id" = Some id ->
  (py_eq_str id "zstd" = false -> compressor_config cfg = Ok cfg) /\
  (forall c, cfg !! "checksum" = Some c -> py_truthy c = true ->
             compressor_config cfg = Ok cfg) /\
  (forall c, py_eq_str id "zstd" = true ->
             cfg !! "checksum" = Some c -> py_truthy c = false ->
             compressor_config cfg = Ok (delete "checksum" cfg)) /\
  (py_eq_str id "zstd" = true -> cfg !! "checksum" = None ->
   compressor_config cfg = Raise (key_error "checksum")).
Proof.
  intros Hid. unfold compressor_config, getitem. rewrite Hid.
  rewrite bind_Ok. repeat split.
  - intros ->. reflexivity.
  - intros c Hc Ht. rewrite Hc.
    change (default (PBool false) (Some c)) with c.
    rewrite Ht, andb_false_r. reflexivity.
  - intros c Hz Hc Ht. rewrite Hc.
    change (default (PBool false) (Some c)) with c.
    rewrite Hz, Ht. reflexivity.
  - intros Hz Hc. rewrite Hc, Hz. reflexivity.
Qed.

(** C7 (the code departs from it).  When the compressor reports the id
    ["zstd"] and no checksum setting at all, [to_dict] does not emit a
    configuration without the checksum key: the unconditional
    [pop("checksum")] raises [KeyError]. *)
Theorem to_dict_zstd_checksum_absent (m : ArrayV2Metadata) (c : Codec) :
  compressor m = Some c ->
  get_config c !! "id" = Some (PStr "zstd") ->
  get_config c !! "checksum" = None ->
  to_dict m = Raise (key_error "checksum").
Proof.
  intros Hc Hid Hck. unfold to_dict. cbv zeta.
  rewrite (getitem_Some _ _ _ (super_to_dict_compressor m)), Hc.
  unfold codec_obj.
  destruct (compressor_config_spec (get_config c) (PStr "zstd") Hid)
    as (_ & _ & _ & Habsent).
  rewrite bind_Ok, (Habsent eq_refl Hck). reflexivity.
Qed.

(** Whatever the hotfix returns for the configuration of the compressor
    is what the document carries under the compressor key: with the
    previous lemma, a zstd configuration loses a checksum setting that is
    present and false, and every other configuration is written with all
    its keys. *)
Lemma to_dict_compressor_entry (m : ArrayV2Metadata) (c : Codec)
    (cfg : gmap string PyObj) (d : gmap string PyObj) :
  compressor m = Some c ->
  compressor_config (get_config c) = Ok cfg ->
  to_dict m = Ok d ->
  d !! "compressor" = Some (PDict cfg).
Proof.
  intros Hc Hcfg. unfold to_dict. cbv zeta.
  rewrite (getitem_Some _ _ _ (super_to_dict_compressor m)), Hc.
  unfold codec_obj.
  rewrite bind_Ok, Hcfg, !bind_Ok. intros Hd.
  apply bind_is_Ok in Hd as (raw & _ & Hd).
  apply bind_is_Ok in Hd as (d1 & Hd1 & Hd).
  apply bind_is_Ok in Hd as (d2 & Hd2 & Hd).
  injection Hd as <-.
  rewrite lookup_insert_ne by discriminate.
  assert (H1' : d1 !! "compressor" = Some (PDict cfg)).
  { destruct (is_None raw).
    - injection Hd1 as <-. apply lookup_insert_eq.
    - destruct (py_iter raw); [|discriminate Hd1]. injection Hd1 as <-.
      rewrite lookup_insert_ne by discriminate. apply lookup_insert_eq. }
  destruct (is_None (fill_value m)).
  - injection Hd2 as <-. exact H1'.
  - apply bind_is_Ok in Hd2 as (fv & _ & Hd2). injection Hd2 as <-.
    rewrite lookup_insert_ne by discriminate. exact H1'.
Qed.

(** *** Derived copies *)

Lemma shape_items_nonneg (xs : list PyObj) (whole : PyObj) (ns : list Z) :
  shape_items xs whole = Ok ns -> Forall (Z.le 0) ns.
Proof.
  revert ns. induction xs as [|x xs IH]; intros ns Hns.
  - injection Hns as <-. constructor.
  - cbn [shape_items] in Hns. destruct x; try discriminate Hns.
    destruct (Z.ltb_spec n 0); [discriminate Hns|].
    apply bind_is_Ok in Hns as (ns' & Hns' & Hns).
    injection Hns as <-. constructor; [assumption | apply IH, Hns'].
Qed.

Lemma shape_items_ints (ns : list Z) (whole : PyObj) :
  Forall (Z.le 0) ns -> shape_items (PInt <$> ns) whole = Ok ns.
Proof.
  induction 1 as [|n ns Hn _ IH]; [reflexivity|].
  rewrite fmap_cons. cbn [shape_items].
  destruct (Z.ltb_spec n 0); [lia|]. rewrite IH. reflexivity.
Qed.

Lemma parse_shapelike_ints (ns : list Z) :
  Forall (Z.le 0) ns -> parse_shapelike (PList (PInt <$> ns)) = Ok ns.
Proof. apply shape_items_ints. Qed.

Lemma parse_shapelike_again (x : PyObj) (ns : list Z) :
  parse_shapelike x = Ok ns ->
  parse_shapelike (PList (PInt <$> ns)) = Ok ns.
Proof.
  intros Hns. apply parse_shapelike_ints.
  destruct x; try discriminate Hns. apply (shape_items_nonneg _ _ _ Hns).
Qed.

Lemma parse_indexing_order_again (x : PyObj) (o : string) :
  parse_indexing_order x = Ok o -> parse_indexing_order (PStr o) = Ok o.
Proof.
  unfold parse_indexing_order.
  destruct (py_eq_str x "C"); [intros Ho; injection Ho as <-; reflexivity|].
  destruct (py_eq_str x "F"); [intros Ho; injection Ho as <-; reflexivity|].
  discriminate.
Qed.

Lemma parse_separator_again (x : PyObj) (sep : string) :
  parse_separator x = Ok sep -> parse_separator (PStr sep) = Ok sep.
Proof.
  unfold parse_separator.
  destruct (py_eq_str x "."); [intros Ho; injection Ho as <-; reflexivity|].
  destruct (py_eq_str x "/"); [intros Ho; injection Ho as <-; reflexivity|].
  discriminate.
Qed.

Lemma parse_compressor_again (r : option Codec) :
  parse_compressor
    (match r with Some c => codec_obj c | None => PNone end) = Ok r.
Proof. destruct r as [[cfg]|]; reflexivity. Qed.

Lemma parse_filters_loop_codecs (fs : list Codec) (idx : nat) :
  parse_filters_loop idx (codec_obj <$> fs) = Ok fs.
Proof.
  revert idx. induction fs as [|[cfg] fs IH]; intros idx; [reflexivity|].
  rewrite fmap_cons. cbn [parse_filters_loop codec_obj get_config].
  rewrite bind_Ok, IH. reflexivity.
Qed.

Lemma parse_filters_loop_length (vals : list PyObj) (idx : nat)
    (out : list Codec) :
  parse_filters_loop idx vals = Ok out ->
  List.length out = List.length vals.
Proof.
  revert idx out. induction vals as [|val vals IH]; intros idx out Hout.
  - injection Hout as <-. reflexivity.
  - cbn [parse_filters_loop] in Hout.
    apply bind_is_Ok in Hout as (c & _ & Hout).
    apply bind_is_Ok in Hout as (out' & Hout' & Hout).
    injection Hout as <-. cbn. rewrite (IH _ _ Hout'). reflexivity.
Qed.

(** The stored filters are never an empty tuple. *)
Lemma parse_filters_not_empty (x : PyObj) (r : option (list Codec)) :
  parse_filters x = Ok r -> r <> Some [].
Proof.
  assert (Hloop : forall vals,
             (out ← parse_filters_loop 0 vals;
              if Nat.eqb (List.length out) 0 then Ok None else Ok (Some out))
             <> Ok (Some [])).
  { intros vals Hr. apply bind_is_Ok in Hr as (out & _ & Hr).
    destruct out; discriminate Hr. }
  unfold parse_filters. intros Hr Hempty. subst r.
  destruct x as [| | | | | | | | |d [] |]; cbn [py_iter] in Hr;
    try discriminate Hr; exact (Hloop _ Hr).
Qed.

Lemma parse_filters_again (r : option (list Codec)) :
  r <> Some [] ->
  parse_filters
    (match r with Some fs => PList (codec_obj <$> fs) | None => PNone end)
  = Ok r.
Proof.
  destruct r as [fs|]; [|reflexivity]. intros Hne.
  unfold parse_filters. cbn [py_iter].
  rewrite parse_filters_loop_codecs, bind_Ok.
  destruct fs; [contradiction | reflexivity].
Qed.

(** C9.  [update_shape] and [update_attributes] call the validating
    constructor again, on the fields of the document with the one
    field exchanged.  For a document [m] built by the constructor whose
    fill value parses to itself: [update_shape(s)] parses [s] and runs
    the consistency check, so it returns the copy of [m] with only the
    shape replaced exactly when [s] is a sequence of non-negative
    integers as long as the chunk shape, and raises the shape-mismatch
    error when the lengths differ; [update_attributes(a)] returns the
    copy of [m] with only the attributes replaced. *)
Theorem update_reruns_constructor (a : InitArgs) (m : ArrayV2Metadata) :
  outcome (init a) = Ok m ->
  parse_fill_value (fill_value m) (Wrapper.to_dtype (dtype m))
    = Ok (fill_value m) ->
  (forall s, update_shape m s =
             lift (sp ← parse_shapelike s;
                   parse_metadata (with_shape m sp))) /\
  (forall x, update_attributes m x =
             lift (ap ← parse_attributes x;
                   mret (with_attributes m ap))) /\
  (forall ns, Forall (Z.le 0) ns ->
              List.length ns = List.length (chunks m) ->
              outcome (update_shape m (PList (PInt <$> ns)))
              = Ok (with_shape m ns)) /\
  (forall ns, Forall (Z.le 0) ns ->
              List.length ns <> List.length (chunks m) ->
              outcome (update_shape m (PList (PInt <$> ns)))
              = Raise (shape_mismatch (List.length (chunks m))
                         (List.length ns))) /\
  (forall d, outcome (update_attributes m (PDict d))
             = Ok (with_attributes m d)).
Proof.
  intros Hm Hfill.
  pose proof (init_Ok a m Hm)
    as (Hs & Hc & _ & _ & Ho & Hd & Hf & _ & _ & Hlen).
  apply parse_shapelike_again in Hs, Hc.
  apply parse_indexing_order_again in Ho.
  apply parse_separator_again in Hd.
  apply parse_filters_not_empty, parse_filters_again in Hf.
  assert (Hshape : forall s, update_shape m s =
             lift (sp ← parse_shapelike s;
                   parse_metadata (with_shape m sp))).
  { intros s. unfold update_shape. rewrite init_lift. f_equal.
    cbn [field_args arg_shape arg_dtype arg_chunks arg_fill_value
         arg_order arg_dimension_separator arg_compressor arg_filters
         arg_attributes check_wrapper parse_attributes].
    rewrite Hc, parse_compressor_again, Ho, Hd, Hf.
    destruct (parse_shapelike s) as [sp|e]; [|reflexivity].
    rewrite !bind_Ok, Hfill. reflexivity. }
  assert (Hattrs : forall x, update_attributes m x =
             lift (ap ← parse_attributes x;
                   mret (with_attributes m ap))).
  { intros x. unfold update_attributes. rewrite init_lift. f_equal.
    cbn [field_args arg_shape arg_dtype arg_chunks arg_fill_value
         arg_order arg_dimension_separator arg_compressor arg_filters
         arg_attributes check_wrapper].
    rewrite Hs, Hc, parse_compressor_again, Ho, Hd, Hf.
    rewrite !bind_Ok, Hfill, bind_Ok.
    destruct (parse_attributes x) as [ap|e]; [|reflexivity].
    rewrite !bind_Ok. unfold parse_metadata. cbn [chunks shape].
    rewrite <- Hlen, Nat.eqb_refl. reflexivity. }
  split; [exact Hshape|]. split; [exact Hattrs|]. repeat split.
  - intros ns Hns Hl. rewrite Hshape. cbn [outcome lift].
    rewrite (parse_shapelike_ints ns Hns), bind_Ok.
    unfold parse_metadata. cbn [with_shape chunks shape].
    rewrite <- Hl, Nat.eqb_refl. reflexivity.
  - intros ns Hns Hl. rewrite Hshape. cbn [outcome lift].
    rewrite (parse_shapelike_ints ns Hns), bind_Ok.
    unfold parse_metadata. cbn [with_shape chunks shape].
    destruct (Nat.eqb_spec (List.length (chunks m)) (List.length ns));
      [congruence | reflexivity].
  - intros d. rewrite Hattrs. reflexivity.
Qed.

End General.

(** *** The results at the reference scenario *)

Section Concrete.
#[local] Existing Instances Reference.numpy Reference.numcodecs Reference.names.

(** C2 as it is written fails: the consistency check runs after the
    argument parsers, so a shape of two dimensions and a chunk shape of
    one, given together with a memory order that is neither ["C"] nor
    ["F"], raise the error of [parse_indexing_order] and not the
    shape-mismatch error. *)
Lemma shape_mismatch_counterexample :
  arg_shape Reference.bad_order_args = PList [PInt 10; PInt 10] /\
  arg_chunks Reference.bad_order_args = PList [PInt 5] /\
  py_len (arg_shape Reference.bad_order_args) = Ok 2 /\
  py_len (arg_chunks Reference.bad_order_args) = Ok 1 /\
  init Reference.bad_order_args =
  mkM [] (Raise (exc ValueError
                   [Lit "Expected one of ('C', 'F'), got "; FStr (PStr "X");
                    Lit " instead."])) /\
  outcome (init Reference.bad_order_args) <> Raise (shape_mismatch 1 2).
Proof. repeat split. discriminate. Qed.

Lemma shape_chunks_same_length_witness :
  outcome (init Reference.scenario_args) = Ok Reference.scenario /\
  List.length (shape Reference.scenario)
    = List.length (chunks Reference.scenario) /\
  outcome (init Reference.mismatched_args) = Raise (shape_mismatch 1 2) /\
  outcome (init Reference.bad_order_args) =
  Raise (exc ValueError
           [Lit "Expected one of ('C', 'F'), got "; FStr (PStr "X");
            Lit " instead."]) /\
  outcome (init (with_filters Reference.mismatched_args (PList []))) =
  Raise (shape_mismatch 1 2).
Proof.
  destruct shape_chunks_same_length as (Hinv & _ & Hfirst & Hmis & _).
  split; [vm_compute; reflexivity|].
  split; [|split; [|split]].
  - apply (Hinv Reference.scenario_args). vm_compute. reflexivity.
  - apply (Hfirst Reference.mismatched_args [PInt 10; PInt 10] [PInt 5]);
      [reflexivity | reflexivity | cbn; lia].
  - apply (Hfirst Reference.bad_order_args [PInt 10; PInt 10] [PInt 5]);
      [reflexivity | reflexivity | cbn; lia].
  - apply (Hmis (with_filters Reference.mismatched_args (PList []))
             [10; 10]%Z [5]%Z Int32);
      try reflexivity.
    cbn. lia.
Defined.

(** C5 as it is written fails twice: an integer zero given for a
    unicode dtype is no error, it becomes the empty string; and a fill
    value given for the object dtype is kept, not dropped. *)
Lemma parse_fill_value_counterexample :
  (is_str (PInt 0) = false /\
   kind (np_str 4) = "U"%char /\
   parse_fill_value (PInt 0) (np_str 4) = Ok (PNp (np_str 4) (SStr ""))) /\
  (hasobject np_object = true /\
   parse_fill_value (PStr "abc") np_object = Ok (PStr "abc") /\
   parse_fill_value (PStr "abc") np_object <> Ok PNone).
Proof. repeat split. discriminate. Qed.

Lemma parse_fill_value_dispatch_witness :
  parse_fill_value PNone (np_str 4) = Ok PNone /\
  parse_fill_value (PInt 0) (np_int W32) = Ok (PNp (np_int W32) (SInt 0)) /\
  parse_fill_value (PStr "abc") (np_str 4) = Ok (PStr "abc") /\
  parse_fill_value (PInt 7) (np_str 4)
    = Raise (fill_value_not_unicode (PInt 7) (np_str 4)) /\
  parse_fill_value (PBytes (list_byte_of_string "test")) (np_void 4)
    = Ok (PNp (np_void 4) (SVoid (list_byte_of_string "test"))) /\
  parse_fill_value (PInt 7) (np_int W8) = Ok (PNp (np_int W8) (SInt 7)) /\
  parse_fill_value (PInt 300) (np_int W8)
    = Raise (fill_value_invalid (PInt 300) (np_int W8)).
Proof.
  split.
  { pose proof (parse_fill_value_dispatch PNone (np_str 4))
      as (Hnone & _).
    apply Hnone. left. reflexivity. }
  split.
  { pose proof (parse_fill_value_dispatch (PInt 0) (np_int W32))
      as (_ & Hzero & _).
    apply (Hzero ltac:(discriminate) eq_refl eq_refl eq_refl). }
  split.
  { pose proof (parse_fill_value_dispatch (PStr "abc") (np_str 4))
      as (_ & _ & Hstr & _).
    apply (Hstr ltac:(discriminate) eq_refl eq_refl eq_refl). }
  split.
  { pose proof (parse_fill_value_dispatch (PInt 7) (np_str 4))
      as (_ & _ & _ & Hbad & _).
    apply (Hbad ltac:(discriminate) eq_refl eq_refl eq_refl
             (or_intror eq_refl)). }
  split.
  { pose proof (parse_fill_value_dispatch
                  (PBytes (list_byte_of_string "test")) (np_void 4))
      as (_ & _ & _ & _ & Hview & _).
    apply (Hview ltac:(discriminate) eq_refl eq_refl
             (or_intror eq_refl) (list_byte_of_string "test") eq_refl). }
  split.
  { pose proof (parse_fill_value_dispatch (PInt 7) (np_int W8))
      as (_ & _ & _ & _ & _ & Hcast).
    apply (Hcast ltac:(discriminate) eq_refl ltac:(discriminate)
             (or_intror eq_refl) (or_introl eq_refl)). }
  { pose proof (parse_fill_value_dispatch (PInt 300) (np_int W8))
      as (_ & _ & _ & _ & _ & Hcast).
    apply (Hcast ltac:(discriminate) eq_refl ltac:(discriminate)
             (or_intror eq_refl) (or_introl eq_refl)). }
Defined.

(** C6 as it is written fails: the constructor called with an empty
    list of filters stores [None] without any warning. *)
Lemma empty_filters_counterexample :
  arg_filters Reference.empty_filters_args = PList [] /\
  outcome (init Reference.empty_filters_args) = Ok Reference.no_fill /\
  filters Reference.no_fill = None /\
  warnings (init Reference.empty_filters_args) = [].
Proof. repeat split; vm_compute; reflexivity. Qed.

Example from_dict_empty_filters :
  from_dict Reference.empty_filters_document =
  mkM [UserWarning empty_filters_msg] (Ok Reference.no_fill).
Proof. vm_compute. reflexivity. Qed.

Lemma to_dict_zstd_checksum_absent_witness :
  to_dict (Reference.with_compressor Reference.zstd_no_checksum)
  = Raise (key_error "checksum").
Proof.
  apply (to_dict_zstd_checksum_absent _
           (mkCodec Reference.zstd_no_checksum));
    vm_compute; reflexivity.
Defined.

(** The default compressor configuration of [zarr.core.config] is
    written without its checksum key. *)
Example to_dict_zstd_default :
  is_ok (to_dict (Reference.with_compressor Reference.zstd_default)) = true /\
  forall d,
    to_dict (Reference.with_compressor Reference.zstd_default) = Ok d ->
    d !! "compressor" = Some (PDict Reference.zstd_no_checksum).
Proof.
  split; [vm_compute; reflexivity|]. intros d Hd.
  replace Reference.zstd_no_checksum
    with (delete "checksum" Reference.zstd_default)
    by (vm_compute; reflexivity).
  apply (to_dict_compressor_entry
           (Reference.with_compressor Reference.zstd_default)
           (mkCodec Reference.zstd_default));
    [reflexivity| |exact Hd].
  destruct (compressor_config_spec Reference.zstd_default (PStr "zstd")
              eq_refl) as (_ & _ & Hdrop & _).
  apply (Hdrop (PBool false)); reflexivity.
Qed.

(** C9 as it is written fails: a new shape of another length than the
    chunk shape is not stored, the constructor that [replace] calls
    rejects it. *)
Lemma update_shape_counterexample :
  outcome (init Reference.scenario_args) = Ok Reference.scenario /\
  outcome (update_shape Reference.scenario (PList [PInt 10]))
    = Raise (shape_mismatch 2 1) /\
  outcome (update_shape Reference.scenario (PList [PInt 10]))
    <> Ok (with_shape Reference.scenario [10]%Z).
Proof.
  split; [vm_compute; reflexivity|].
  assert (Hraise : outcome (update_shape Reference.scenario (PList [PInt 10]))
                   = Raise (shape_mismatch 2 1))
    by (vm_compute; reflexivity).
  split; [exact Hraise|]. rewrite Hraise. discriminate.
Qed.

Lemma update_reruns_constructor_witness :
  outcome (init Reference.scenario_args) = Ok Reference.scenario /\
  outcome (update_shape Reference.scenario (PList [PInt 20; PInt 30]))
    = Ok (with_shape Reference.scenario [20; 30]%Z) /\
  outcome (update_shape Reference.scenario (PList [PInt 20]))
    = Raise (shape_mismatch 2 1) /\
  outcome (update_attributes Reference.scenario
             (PDict {["answer" := PInt 42]}))
    = Ok (with_attributes Reference.scenario {["answer" := PInt 42]}).
Proof.
  assert (Hinit : outcome (init Reference.scenario_args)
                  = Ok Reference.scenario) by (vm_compute; reflexivity).
  destruct (update_reruns_constructor Reference.scenario_args
              Reference.scenario Hinit eq_refl)
    as (_ & _ & Hsame & Hdiffer & Hattrs).
  split; [exact Hinit|]. split; [|split].
  - apply (Hsame [20; 30]%Z); [repeat constructor; lia | reflexivity].
  - apply (Hdiffer [20]%Z); [repeat constructor; lia | cbn; lia].
  - apply Hattrs.
Defined.

End Concrete.

End V2Facts.

(** ** Further properties of the metadata module *)

Module MetadataFacts.
Import V2 V2Facts.

(** *** Computations with warnings, continued *)

Lemma M_eta {A} (m : M A) : mkM (warnings m) (outcome m) = m.
Proof. destruct m. reflexivity. Qed.

Lemma M_ret_bind {A B} (a : A) (f : A -> M B) : (mret a ≫= f) = f a.
Proof. unfold mbind, M_bind, mret, M_ret. cbn. apply M_eta. Qed.

Lemma M_bind_assoc {A B C} (m : M A) (f : A -> M B) (g : B -> M C) :
  ((m ≫= f) ≫= g) = (m ≫= fun a => f a ≫= g).
Proof.
  unfold mbind, M_bind. destruct m as [ws [a|e]]; cbn; [|reflexivity].
  destruct (f a) as [ws' [b|e]]; cbn; [|reflexivity].
  rewrite app_assoc. reflexivity.
Qed.

Lemma M_bind_ext {A B} (m : M A) (f g : A -> M B) :
  (forall a, f a = g a) -> (m ≫= f) = (m ≫= g).
Proof.
  intros Hfg. unfold mbind, M_bind.
  destruct (outcome m); [rewrite Hfg|]; reflexivity.
Qed.

Lemma M_bind_warnings {A B} (m : M A) (f : A -> M B) :
  warnings (m ≫= f) =
  (warnings m ++ match outcome m with
                 | Ok a => warnings (f a)
                 | Raise _ => []
                 end)%list.
Proof.
  unfold mbind, M_bind. destruct (outcome m); cbn; [reflexivity|].
  rewrite app_nil_r. reflexivity.
Qed.

Lemma M_bind_outcome {A B} (m : M A) (f : A -> M B) :
  outcome (m ≫= f) =
  match outcome m with Ok a => outcome (f a) | Raise e => Raise e end.
Proof. unfold mbind, M_bind. destruct (outcome m); reflexivity. Qed.

Section General.
Context `{Numpy, Numcodecs, DTypeNames}.

(** *** [parse_filters] *)

(** X1.  What [parse_filters] returns when it returns: [None] only for
    [None] itself or an iterable without elements, and otherwise a tuple
    that is never empty, being either the one codec that was given or one
    codec per element of the iterable. *)
Theorem parse_filters_result (x : PyObj) (r : option (list Codec)) :
  parse_filters x = Ok r ->
  match r with
  | None => x = PNone \/ py_iter x = Some []
  | Some out =>
      out <> [] /\
      ((exists cfg, x = PCodec cfg /\ out = [mkCodec cfg]) \/
       (exists vals, py_iter x = Some vals /\
                     List.length out = List.length vals))
  end.
Proof.
  assert (Hloop : forall vals r,
             (out ← parse_filters_loop 0 vals;
              if Nat.eqb (List.length out) 0 then Ok None else Ok (Some out))
             = Ok r ->
             match r with
             | None => vals = []
             | Some out => out <> [] /\ List.length out = List.length vals
             end).
  { intros vals r' Hr. apply bind_is_Ok in Hr as (out & Hout & Hr).
    apply parse_filters_loop_length in Hout.
    destruct out as [|c out]; cbn in Hr; injection Hr as <-.
    - destruct vals; [reflexivity | discriminate Hout].
    - split; [discriminate | exact Hout]. }
  unfold parse_filters. intros Hr.
  destruct x as [| | | | | | | | |d [] |]; cbn [py_iter] in Hr |- *;
    try discriminate Hr;
    try (injection Hr as <-; left; reflexivity);
    try (apply Hloop in Hr; destruct r as [out|];
         [destruct Hr as [Hne Hlen]; split; [exact Hne|]; right; eauto
         | right; rewrite Hr; reflexivity]).
  injection Hr as <-. split; [discriminate|]. left. eauto.
Qed.

Lemma parse_filters_loop_invalid (pre : list Codec) (bad : PyObj)
    (post : list PyObj) (idx : nat) :
  (forall cfg, bad <> PCodec cfg) -> (forall d, bad <> PDict d) ->
  parse_filters_loop idx ((codec_obj <$> pre) ++ bad :: post)
  = Raise (invalid_filter (idx + List.length pre) bad).
Proof.
  intros Hc Hd. revert idx. induction pre as [|[cfg] pre IH]; intros idx.
  - cbn [fmap list_fmap app parse_filters_loop List.length].
    rewrite Nat.add_0_r.
    destruct bad; try reflexivity; [destruct (Hd d eq_refl) | destruct (Hc cfg eq_refl)].
  - rewrite fmap_cons. cbn [app parse_filters_loop codec_obj get_config].
    rewrite bind_Ok, IH. cbn [List.length].
    replace (S idx + List.length pre) with (idx + S (List.length pre)) by lia.
    reflexivity.
Qed.

(** X2.  [parse_filters] reports the first element that is neither a
    codec nor a dictionary: after any number of codecs, such an element
    raises the [TypeError] that carries its index and its type, whatever
    follows it. *)
Theorem parse_filters_first_invalid (pre : list Codec) (bad : PyObj)
    (post : list PyObj) :
  (forall cfg, bad <> PCodec cfg) -> (forall d, bad <> PDict d) ->
  parse_filters (PList ((codec_obj <$> pre) ++ bad :: post))
  = Raise (invalid_filter (List.length pre) bad).
Proof.
  intros Hc Hd. unfold parse_filters. cbn [py_iter].
  rewrite (parse_filters_loop_invalid pre bad post 0 Hc Hd). reflexivity.
Qed.

(** *** [from_dict] *)

Lemma decode_fill_value_silent (w : ZDType) (d : gmap string PyObj) :
  warnings (decode_fill_value w d) = [].
Proof.
  unfold decode_fill_value.
  destruct (Ascii.eqb _ "S" || Ascii.eqb _ "V"); [|reflexivity].
  destruct (d !! "fill_value") as [x|]; [|reflexivity].
  destruct x; try reflexivity;
    rewrite lift_bind; destruct (standard_b64decode _); reflexivity.
Qed.

Lemma call_cls_silent (kw : gmap string PyObj) : warnings (call_cls kw) = [].
Proof.
  unfold call_cls.
  repeat (rewrite lift_bind;
          match goal with
          | |- context [match ?r with Ok _ => _ | Raise _ => _ end] =>
              destruct r; [|reflexivity]
          end).
  apply init_silent.
Qed.

(** X3.  [from_dict] looks at the format marker before anything else: a
    document without [zarr_format] raises [KeyError], and one whose
    [zarr_format] is not equal to 2 raises the invalid-value error that
    quotes the value found; no warning is emitted in either case. *)
Theorem from_dict_checks_format (data : gmap string PyObj) :
  (data !! "zarr_format" = None ->
   from_dict data = mkM [] (Raise (key_error "zarr_format"))) /\
  (forall zf, data !! "zarr_format" = Some zf -> py_eq_int zf 2 = false ->
   from_dict data =
   mkM [] (Raise (exc ValueError
                    [Lit "Invalid value. Expected 2. Got "; FStr zf; Lit "."]))).
Proof.
  split.
  - intros Hzf. unfold from_dict, getitem. rewrite Hzf. reflexivity.
  - intros zf Hzf Hne. unfold from_dict, getitem. rewrite Hzf.
    rewrite lift_bind, lift_bind. unfold parse_zarr_format. rewrite Hne.
    reflexivity.
Qed.

(** X4.  [from_dict] reads [filters] by subscript, so a document that has
    no [filters] key at all is rejected with [KeyError], although the
    constructor itself has a default for that argument. *)
Theorem from_dict_requires_filters (data d1 : gmap string PyObj)
    (zf descr : PyObj) (w : ZDType) :
  data !! "zarr_format" = Some zf -> py_eq_int zf 2 = true ->
  data !! "dtype" = Some descr -> get_data_type_from_numpy descr = Ok w ->
  outcome (decode_fill_value w
             (<["dtype" := PWrapper w]> (delete "zarr_format" data))) = Ok d1 ->
  data !! "filters" = None ->
  outcome (from_dict data) = Raise (key_error "filters").
Proof.
  intros Hzf Htwo Hdescr Hw Hd1 Hfs. unfold from_dict.
  rewrite (getitem_Some _ _ _ Hzf), lift_bind.
  unfold parse_zarr_format. rewrite Htwo, lift_bind.
  assert (Hdescr' : delete "zarr_format" data !! "dtype" = Some descr)
    by (rewrite lookup_delete_ne by discriminate; exact Hdescr).
  rewrite (getitem_Some _ _ _ Hdescr'), lift_bind, Hw, lift_bind.
  rewrite M_bind_outcome, Hd1.
  pose proof (decode_fill_value_Ok _ _ _ Hd1) as [_ Hsame].
  rewrite lookup_insert_ne, lookup_delete_ne, Hfs in Hsame by discriminate.
  rewrite M_bind_outcome. unfold check_empty_filters, getitem.
  rewrite Hsame. reflexivity.
Qed.

Lemma check_empty_filters_warnings (d : gmap string PyObj) :
  warnings (check_empty_filters d) = [] \/
  (warnings (check_empty_filters d) = [UserWarning empty_filters_msg] /\
   exists fs, d !! "filters" = Some fs /\ fs <> PNone /\ py_len fs = Ok 0).
Proof.
  unfold check_empty_filters, getitem.
  destruct (d !! "filters") as [fs|] eqn:Hfs; [|left; reflexivity].
  rewrite lift_bind.
  destruct (is_None fs) eqn:Hnone; [left; reflexivity|].
  rewrite lift_bind. destruct (py_len fs) as [n|e] eqn:Hlen; [|left; reflexivity].
  destruct (Nat.eqb_spec n 0) as [->|_]; [|left; reflexivity].
  right. split; [reflexivity|]. exists fs. repeat split; [|exact Hlen].
  intros ->. discriminate Hnone.
Qed.

(** X6.  [from_dict] never emits more than one warning, and emits the one
    about empty filters only for a document whose [filters] entry is
    present, is not [None] and has length 0. *)
Theorem from_dict_warns_only_on_empty_filters (data : gmap string PyObj) :
  warnings (from_dict data) = [] \/
  (warnings (from_dict data) = [UserWarning empty_filters_msg] /\
   exists fs, data !! "filters" = Some fs /\ fs <> PNone /\ py_len fs = Ok 0).
Proof.
  unfold from_dict.
  rewrite lift_bind. destruct (getitem data "zarr_format"); [|left; reflexivity].
  rewrite lift_bind. destruct (parse_zarr_format _); [|left; reflexivity].
  rewrite lift_bind. destruct (getitem _ "dtype"); [|left; reflexivity].
  rewrite lift_bind.
  destruct (get_data_type_from_numpy _) as [w|]; [|left; reflexivity].
  rewrite M_bind_warnings, decode_fill_value_silent. cbn [app].
  destruct (outcome (decode_fill_value w _)) as [d1|] eqn:Hd1;
    [|left; reflexivity].
  apply decode_fill_value_Ok in Hd1 as [_ Hsame].
  rewrite lookup_insert_ne, lookup_delete_ne in Hsame by discriminate.
  rewrite M_bind_warnings.
  assert (Htail : match outcome (check_empty_filters d1) with
                  | Ok d2 => warnings
                               (call_cls (filter (fun kv => fst kv ∈ expected) d2))
                  | Raise _ => []
                  end = []).
  { destruct (outcome (check_empty_filters d1)); [apply call_cls_silent|reflexivity]. }
  rewrite Htail, app_nil_r.
  destruct (check_empty_filters_warnings d1) as [Hw|(Hw & fs & Hfs & Hne & Hlen)].
  - left. exact Hw.
  - right. split; [exact Hw|]. exists fs. rewrite <- Hsame. auto.
Qed.

(** *** Invariants of documents *)

(** X11.  What holds of every document the constructor returns, besides
    the agreement of the two lengths: the order is ["C"] or ["F"]; the
    filters are never an empty tuple; there is no compressor exactly when
    [None] was given for it; a fill value given as [None] stays [None].
    Documents read by [from_dict] satisfy the first two as well. *)
Theorem document_invariants :
  (forall a m, outcome (init a) = Ok m ->
     (order m = "C" \/ order m = "F") /\
     filters m <> Some [] /\
     (compressor m = None <-> arg_compressor a = PNone) /\
     (arg_fill_value a = PNone -> fill_value m = PNone)) /\
  (forall data m, outcome (from_dict data) = Ok m ->
     (order m = "C" \/ order m = "F") /\ filters m <> Some []).
Proof.
  assert (Hinit : forall a m, outcome (init a) = Ok m ->
     (order m = "C" \/ order m = "F") /\
     filters m <> Some [] /\
     (compressor m = None <-> arg_compressor a = PNone) /\
     (arg_fill_value a = PNone -> fill_value m = PNone)).
  { intros a m Hm.
    apply init_Ok in Hm as (_ & _ & _ & Hc & Ho & _ & Hf & Hv & _ & _).
    split; [|split; [|split]].
    - unfold parse_indexing_order in Ho.
      destruct (py_eq_str _ "C"); [injection Ho as <-; auto|].
      destruct (py_eq_str _ "F"); [injection Ho as <-; auto|discriminate Ho].
    - apply (parse_filters_not_empty _ _ Hf).
    - unfold parse_compressor in Hc. split.
      + intros Hnone. rewrite Hnone in Hc.
        destruct (arg_compressor a); try discriminate Hc; [reflexivity|].
        apply bind_is_Ok in Hc as (c & _ & Hc). discriminate Hc.
      + intros Harg. rewrite Harg in Hc. injection Hc as <-. reflexivity.
    - intros Harg. rewrite Harg in Hv. cbn in Hv. injection Hv as <-.
      reflexivity. }
  split; [exact Hinit|].
  intros data m Hm. apply from_dict_Ok in Hm as [a Ha].
  destruct (Hinit a m Ha) as (Ho & Hf & _). auto.
Qed.

(** *** [to_dict] *)

Lemma super_to_dict_lookups (m : ArrayV2Metadata) :
  super_to_dict m !! "shape" = Some (PList (PInt <$> shape m)) /\
  super_to_dict m !! "chunks" = Some (PList (PInt <$> chunks m)) /\
  super_to_dict m !! "fill_value" = Some (fill_value m) /\
  super_to_dict m !! "order" = Some (PStr (order m)) /\
  super_to_dict m !! "filters" =
    Some (match filters m with
          | Some fs => PList (codec_obj <$> fs)
          | None => PNone
          end) /\
  super_to_dict m !! "dimension_separator"
    = Some (PStr (dimension_separator m)) /\
  super_to_dict m !! "attributes" = Some (PDict (attributes m)) /\
  super_to_dict m !! "zarr_format" = Some (PInt 2).
Proof. repeat split. Qed.

(** The mapping that [to_dict] returns, as four assignments on the
    mapping of the literal field values. *)
Lemma to_dict_form (m : ArrayV2Metadata) (d : gmap string PyObj) :
  to_dict m = Ok d ->
  exists c v,
    match compressor m with
    | None => c = PNone
    | Some k =>
        exists cfg, compressor_config (get_config k) = Ok cfg /\ c = PDict cfg
    end /\
    (if is_None (fill_value m) then v = PNone
     else dtype_to_json_value (dtype m) (fill_value m) V2 = Ok v) /\
    d = <["dtype" := PStr (get_name (dtype m) V2)]>
          (<["fill_value" := v]>
             (<["filters" :=
                  match filters m with
                  | Some fs => PList ((fun k => PDict (get_config k)) <$> fs)
                  | None => PNone
                  end]>
                (<["compressor" := c]> (super_to_dict m)))).
Proof.
  destruct (super_to_dict_lookups m) as (_ & _ & Hfv & _ & Hfs & _).
  unfold to_dict. cbv zeta.
  rewrite (getitem_Some _ _ _ (super_to_dict_compressor m)), bind_Ok.
  intros Hd. apply bind_is_Ok in Hd as (z1 & Hz1 & Hd).
  assert (Hstep1 : exists c,
             match compressor m with
             | None => c = PNone
             | Some k =>
                 exists cfg, compressor_config (get_config k) = Ok cfg /\
                             c = PDict cfg
             end /\ z1 = <["compressor" := c]> (super_to_dict m)).
  { destruct (compressor m) as [k|] eqn:Hk.
    - unfold codec_obj in Hz1. apply bind_is_Ok in Hz1 as (cfg & Hcfg & Hz1).
      injection Hz1 as <-. exists (PDict cfg). eauto.
    - injection Hz1 as <-. exists PNone. split; [reflexivity|].
      symmetry. apply insert_id. rewrite super_to_dict_compressor, Hk.
      reflexivity. }
  destruct Hstep1 as (c & Hc & ->).
  apply bind_is_Ok in Hd as (raw & Hraw & Hd).
  unfold getitem in Hraw.
  rewrite lookup_insert_ne, Hfs in Hraw by discriminate. injection Hraw as <-.
  apply bind_is_Ok in Hd as (z2 & Hz2 & Hd).
  assert (Hstep2 : z2 = <["filters" :=
                        match filters m with
                        | Some fs => PList ((fun k => PDict (get_config k)) <$> fs)
                        | None => PNone
                        end]> (<["compressor" := c]> (super_to_dict m))).
  { destruct (filters m) as [fs|] eqn:Hf.
    - cbn [is_None py_iter] in Hz2. injection Hz2 as <-.
      rewrite <- list_fmap_compose. reflexivity.
    - injection Hz2 as <-. symmetry. apply insert_id.
      rewrite lookup_insert_ne by discriminate. exact Hfs. }
  subst z2.
  apply bind_is_Ok in Hd as (z3 & Hz3 & Hd). injection Hd as <-.
  exists c. destruct (is_None (fill_value m)) eqn:Hnone.
  - exists PNone. split; [exact Hc|]. split; [reflexivity|].
    injection Hz3 as <-. f_equal. symmetry. apply insert_id.
    rewrite !lookup_insert_ne by discriminate. rewrite Hfv.
    apply is_None_spec in Hnone. rewrite Hnone. reflexivity.
  - apply bind_is_Ok in Hz3 as (v & Hv & Hz3). injection Hz3 as <-.
    exists v. auto.
Qed.

(** X8.  [to_dict] writes each filter as the configuration the codec
    reports, in the order of the tuple, and does not apply the checksum
    hotfix of the compressor to filters; a document without filters has
    [None] under the key. *)
Theorem to_dict_filters (m : ArrayV2Metadata) (d : gmap string PyObj) :
  to_dict m = Ok d ->
  d !! "filters" =
  Some (match filters m with
        | Some fs => PList ((fun k => PDict (get_config k)) <$> fs)
        | None => PNone
        end).
Proof.
  intros Hd. apply to_dict_form in Hd as (c & v & _ & _ & ->).
  rewrite !lookup_insert_ne by discriminate. apply lookup_insert_eq.
Qed.

(** X9.  The mapping that [to_dict] returns holds no wrapper and no codec
    object: the data type is its version 2 name, the compressor entry is
    [None] or a configuration dictionary, and the fill value entry is
    [None] exactly when the document has no fill value to encode. *)
Theorem to_dict_entries (m : ArrayV2Metadata) (d : gmap string PyObj) :
  to_dict m = Ok d ->
  d !! "dtype" = Some (PStr (get_name (dtype m) V2)) /\
  (compressor m = None -> d !! "compressor" = Some PNone) /\
  (forall k, compressor m = Some k ->
     exists cfg, compressor_config (get_config k) = Ok cfg /\
                 d !! "compressor" = Some (PDict cfg)) /\
  (fill_value m = PNone -> d !! "fill_value" = Some PNone) /\
  (fill_value m <> PNone ->
     exists v, dtype_to_json_value (dtype m) (fill_value m) V2 = Ok v /\
               d !! "fill_value" = Some v).
Proof.
  intros Hd. apply to_dict_form in Hd as (c & v & Hc & Hv & ->).
  split; [apply lookup_insert_eq|].
  rewrite !(lookup_insert_ne _ "dtype") by discriminate.
  split; [|split; [|split]].
  - intros Hnone. rewrite Hnone in Hc. subst c.
    rewrite !lookup_insert_ne by discriminate. apply lookup_insert_eq.
  - intros k Hk. rewrite Hk in Hc. destruct Hc as (cfg & Hcfg & ->).
    exists cfg. split; [exact Hcfg|].
    rewrite !lookup_insert_ne by discriminate. apply lookup_insert_eq.
  - intros Hnone. rewrite Hnone in Hv. cbn in Hv. subst v.
    apply lookup_insert_eq.
  - intros Hsome. destruct (is_None (fill_value m)) eqn:E.
    + apply is_None_spec in E. contradiction.
    + exists v. split; [exact Hv | apply lookup_insert_eq].
Qed.

(** *** Keys that [from_dict] does not know *)

Lemma getitem_insert_ne (d : gmap string PyObj) (k n : string) (v : PyObj) :
  k <> n -> getitem (<[k := v]> d) n = getitem d n.
Proof. intros Hne. unfold getitem. rewrite lookup_insert_ne by exact Hne. reflexivity. Qed.

Lemma decode_fill_value_insert (w : ZDType) (d : gmap string PyObj)
    (k : string) (v : PyObj) :
  k <> "fill_value" ->
  decode_fill_value w (<[k := v]> d) =
  (d' ← decode_fill_value w d; mret (<[k := v]> d')).
Proof.
  intros Hne. unfold decode_fill_value.
  destruct (Ascii.eqb _ "S" || Ascii.eqb _ "V");
    [|rewrite M_ret_bind; reflexivity].
  rewrite lookup_insert_ne by exact Hne.
  destruct (d !! "fill_value") as [x|]; [|rewrite M_ret_bind; reflexivity].
  destruct x; try (rewrite M_ret_bind; reflexivity);
    rewrite M_bind_assoc, !lift_bind;
    (destruct (standard_b64decode _); [|reflexivity]);
    rewrite M_ret_bind, insert_insert_ne by (intros Heq; apply Hne; symmetry; exact Heq);
    reflexivity.
Qed.

Lemma check_empty_filters_insert (d : gmap string PyObj) (k : string)
    (v : PyObj) :
  k <> "filters" ->
  check_empty_filters (<[k := v]> d) =
  (d' ← check_empty_filters d; mret (<[k := v]> d')).
Proof.
  intros Hne. unfold check_empty_filters.
  rewrite getitem_insert_ne by exact Hne.
  rewrite M_bind_assoc, !lift_bind.
  destruct (getitem d "filters") as [fs|]; [|reflexivity].
  destruct (is_None fs); [rewrite M_ret_bind; reflexivity|].
  rewrite M_bind_assoc, !lift_bind.
  destruct (py_len fs) as [n|]; [|reflexivity].
  destruct (Nat.eqb n 0); [|rewrite M_ret_bind; reflexivity].
  rewrite M_bind_assoc. unfold warn, mbind, M_bind, mret, M_ret. cbn.
  rewrite insert_insert_ne by (intros Heq; apply Hne; symmetry; exact Heq).
  reflexivity.
Qed.

Lemma not_expected (k n : string) : k ∉ expected -> n ∈ expected -> k <> n.
Proof. intros Hk Hn ->. contradiction. Qed.

(** X5.  [from_dict] ignores every key it does not expect: adding an
    entry under a key that is no field name to a document changes neither
    the document built, nor the error raised, nor the warnings. *)
Theorem from_dict_ignores_extra_keys (data : gmap string PyObj) (k : string)
    (v : PyObj) :
  k ∉ expected -> from_dict (<[k := v]> data) = from_dict data.
Proof.
  intros Hk.
  assert (Hzf : k <> "zarr_format")
    by (apply (not_expected _ _ Hk); apply list_elem_of_In; cbn; tauto).
  assert (Hdt : k <> "dtype")
    by (apply (not_expected _ _ Hk); apply list_elem_of_In; cbn; tauto).
  assert (Hfv : k <> "fill_value")
    by (apply (not_expected _ _ Hk); apply list_elem_of_In; cbn; tauto).
  assert (Hfs : k <> "filters")
    by (apply (not_expected _ _ Hk); apply list_elem_of_In; cbn; tauto).
  unfold from_dict. rewrite getitem_insert_ne by exact Hzf.
  rewrite ?lift_bind.
  destruct (getitem data "zarr_format"); [|reflexivity].
  rewrite ?lift_bind. destruct (parse_zarr_format _); [|reflexivity].
  rewrite delete_insert_ne by (intros Heq; apply Hzf; symmetry; exact Heq).
  rewrite getitem_insert_ne by exact Hdt.
  rewrite ?lift_bind. destruct (getitem _ "dtype"); [|reflexivity].
  rewrite ?lift_bind.
  destruct (get_data_type_from_numpy _) as [w|]; [|reflexivity].
  rewrite insert_insert_ne by (intros Heq; apply Hdt; symmetry; exact Heq).
  rewrite decode_fill_value_insert by exact Hfv.
  rewrite M_bind_assoc. apply M_bind_ext. intros d1.
  rewrite M_ret_bind, check_empty_filters_insert by exact Hfs.
  rewrite M_bind_assoc. apply M_bind_ext. intros d2.
  rewrite M_ret_bind, map_filter_insert_not
    by (intros y Hy; cbn [fst] in Hy; contradiction).
  reflexivity.
Qed.

(** *** Empty filter lists, whatever else the arguments hold *)

Lemma check_empty_filters_None (d : gmap string PyObj) :
  d !! "filters" = Some PNone -> check_empty_filters d = mret d.
Proof.
  intros Hd. unfold check_empty_filters, getitem. rewrite Hd. reflexivity.
Qed.

Lemma init_with_filters_empty (a : InitArgs) :
  arg_filters a = PList [] -> init a = init (with_filters a PNone).
Proof. intros Ha. unfold init. rewrite Ha. reflexivity. Qed.

Lemma from_dict_empty_as_None (data : gmap string PyObj) :
  data !! "filters" = Some (PList []) ->
  outcome (from_dict data) = outcome (from_dict (<["filters" := PNone]> data)) /\
  warnings (from_dict (<["filters" := PNone]> data)) = [].
Proof.
  intros Hdata. unfold from_dict.
  rewrite getitem_insert_ne by discriminate.
  rewrite ?lift_bind.
  destruct (getitem data "zarr_format") as [zf|]; [|split; reflexivity].
  rewrite ?lift_bind.
  destruct (parse_zarr_format zf); [|split; reflexivity].
  rewrite delete_insert_ne by discriminate.
  rewrite getitem_insert_ne by discriminate.
  rewrite ?lift_bind.
  destruct (getitem _ "dtype") as [descr|]; [|split; reflexivity].
  rewrite ?lift_bind.
  destruct (get_data_type_from_numpy descr) as [w|]; [|split; reflexivity].
  rewrite (insert_insert_ne _ "dtype" "filters") by discriminate.
  set (d0 := <["dtype" := PWrapper w]> (delete "zarr_format" data)).
  rewrite (decode_fill_value_insert w d0 "filters" PNone) by discriminate.
  rewrite M_bind_assoc.
  assert (Hd0 : d0 !! "filters" = Some (PList [])).
  { subst d0. rewrite lookup_insert_ne by discriminate.
    rewrite lookup_delete_ne by discriminate. exact Hdata. }
  rewrite (M_bind_outcome (decode_fill_value w d0)).
  rewrite (M_bind_outcome (decode_fill_value w d0)).
  rewrite (M_bind_warnings (decode_fill_value w d0)).
  rewrite decode_fill_value_silent.
  destruct (outcome (decode_fill_value w d0)) as [d1|] eqn:Hd1;
    [|split; reflexivity].
  apply decode_fill_value_Ok in Hd1 as [_ Hd1]. rewrite Hd0 in Hd1.
  rewrite M_ret_bind.
  rewrite (check_empty_filters_empty d1 Hd1).
  rewrite (check_empty_filters_None (<["filters" := PNone]> d1))
    by apply lookup_insert_eq.
  rewrite M_ret_bind.
  split; [reflexivity|]. apply call_cls_silent.
Qed.

(** C6 (amended).  An empty list of filters is never stored, and it is
    no error.  [parse_filters] turns it into [None]; the constructor
    called with [filters=[]] does exactly what it does when called with
    [filters=None], whatever the other arguments are, and emits no
    warning at all.  [from_dict] called on a document whose [filters]
    entry is the empty list returns or raises exactly what it does on
    the document with [filters: None], which emits nothing; it emits
    the one [UserWarning] whenever the format marker, the data type and
    the fill value before the filters check are accepted, and so in
    every call that returns, where [None] is stored.  Hence for
    arguments that are valid with [filters=None] the constructor returns
    the same document silently, and for a document that is valid with
    [filters: None] [from_dict] returns the same document with exactly
    the one warning. *)
Theorem empty_filters_normalised :
  parse_filters (PList []) = Ok None /\
  (forall a, arg_filters a = PList [] ->
     init a = init (with_filters a PNone) /\ warnings (init a) = []) /\
  (forall a m, arg_filters a = PList [] -> outcome (init a) = Ok m ->
     filters m = None) /\
  (forall data, data !! "filters" = Some (PList []) ->
     outcome (from_dict data)
       = outcome (from_dict (<["filters" := PNone]> data)) /\
     warnings (from_dict (<["filters" := PNone]> data)) = []) /\
  (forall data zf descr w d1,
     data !! "filters" = Some (PList []) ->
     data !! "zarr_format" = Some zf -> py_eq_int zf 2 = true ->
     data !! "dtype" = Some descr -> get_data_type_from_numpy descr = Ok w ->
     outcome (decode_fill_value w
                (<["dtype" := PWrapper w]> (delete "zarr_format" data)))
       = Ok d1 ->
     warnings (from_dict data) = [UserWarning empty_filters_msg]) /\
  (forall data m,
     data !! "filters" = Some (PList []) ->
     outcome (from_dict data) = Ok m ->
     filters m = None /\
     warnings (from_dict data) = [UserWarning empty_filters_msg]) /\
  (forall a m,
     arg_filters a = PList [] ->
     outcome (init (with_filters a PNone)) = Ok m ->
     init a = mkM [] (Ok m) /\ filters m = None) /\
  (forall data m,
     data !! "filters" = Some (PList []) ->
     outcome (from_dict (<["filters" := PNone]> data)) = Ok m ->
     from_dict data = mkM [UserWarning empty_filters_msg] (Ok m) /\
     filters m = None).
Proof.
  split; [reflexivity|].
  split; [|split; [|split; [|split; [|split; [|split]]]]].
  - intros a Ha. split; [apply init_with_filters_empty, Ha|apply init_silent].
  - apply init_empty_filters_Ok.
  - apply from_dict_empty_as_None.
  - intros data zf descr w d1 Hdata Hzf Htwo Hdescr Hw Hd1.
    unfold from_dict.
    rewrite (getitem_Some _ _ _ Hzf), lift_bind.
    unfold parse_zarr_format. rewrite Htwo, lift_bind.
    assert (Hdescr' : delete "zarr_format" data !! "dtype" = Some descr)
      by (rewrite lookup_delete_ne by discriminate; exact Hdescr).
    rewrite (getitem_Some _ _ _ Hdescr'), lift_bind, Hw, lift_bind.
    rewrite M_bind_warnings, decode_fill_value_silent, Hd1.
    pose proof (decode_fill_value_Ok _ _ _ Hd1) as [_ Hsame].
    rewrite lookup_insert_ne, lookup_delete_ne, Hdata in Hsame
      by discriminate.
    rewrite (check_empty_filters_empty d1 Hsame).
    rewrite M_bind_warnings. cbn [outcome warnings app].
    rewrite call_cls_silent. reflexivity.
  - apply from_dict_empty_filters_Ok.
  - intros a m Ha Hm.
    rewrite <- (init_with_filters_empty a Ha) in Hm.
    split; [|apply (init_empty_filters_Ok a m Ha Hm)].
    rewrite <- (M_eta (init a)), init_silent, Hm. reflexivity.
  - intros data m Hdata Hm.
    destruct (from_dict_empty_as_None data Hdata) as [Hsame _].
    rewrite <- Hsame in Hm.
    destruct (from_dict_empty_filters_Ok data m Hdata Hm) as [Hnone Hws].
    split; [|exact Hnone].
    rewrite <- (M_eta (from_dict data)), Hws, Hm. reflexivity.
Qed.

(** *** Reading back what was written *)

Lemma filter_expected_lookup (d : gmap string PyObj) (k : string) :
  k ∈ expected -> filter (fun kv => fst kv ∈ expected) d !! k = d !! k.
Proof.
  intros Hk. rewrite map_lookup_filter.
  destruct (d !! k) as [x|]; [|reflexivity]. cbn.
  rewrite option_guard_True by exact Hk. reflexivity.
Qed.

(** [from_dict] on a document without fill value whose filters are absent
    or not empty is the constructor on the entries of the document. *)
Lemma from_dict_entries (d : gmap string PyObj) (w : ZDType)
    (descr sh ch o sep c f attrs : PyObj) :
  d !! "zarr_format" = Some (PInt 2) ->
  d !! "dtype" = Some descr -> get_data_type_from_numpy descr = Ok w ->
  d !! "fill_value" = Some PNone ->
  d !! "filters" = Some f ->
  (f = PNone \/ exists n, py_len f = Ok (S n)) ->
  d !! "shape" = Some sh -> d !! "chunks" = Some ch ->
  d !! "order" = Some o -> d !! "dimension_separator" = Some sep ->
  d !! "compressor" = Some c -> d !! "attributes" = Some attrs ->
  from_dict d =
  init {| arg_shape := sh; arg_dtype := PWrapper w; arg_chunks := ch;
          arg_fill_value := PNone; arg_order := o;
          arg_dimension_separator := sep; arg_compressor := c;
          arg_filters := f; arg_attributes := attrs |}.
Proof.
  intros Hzf Hdt Hw Hfv Hf Hlen Hsh Hch Ho Hsep Hc Hat.
  unfold from_dict.
  rewrite (getitem_Some _ _ _ Hzf), lift_bind.
  change (parse_zarr_format (PInt 2)) with (Ok (A:=Z) 2%Z).
  rewrite lift_bind.
  assert (Hdt' : delete "zarr_format" d !! "dtype" = Some descr)
    by (rewrite lookup_delete_ne by discriminate; exact Hdt).
  rewrite (getitem_Some _ _ _ Hdt'), lift_bind, Hw, lift_bind.
  set (d1 := <["dtype" := PWrapper w]> (delete "zarr_format" d)).
  assert (Hd1 : forall k, k <> "dtype" -> k <> "zarr_format" ->
                          d1 !! k = d !! k).
  { intros k Hk1 Hk2. subst d1.
    rewrite lookup_insert_ne, lookup_delete_ne by congruence. reflexivity. }
  assert (Hdec : decode_fill_value w d1 = mret d1).
  { unfold decode_fill_value. rewrite Hd1, Hfv by discriminate.
    destruct (Ascii.eqb _ "S" || Ascii.eqb _ "V"); reflexivity. }
  rewrite Hdec, M_ret_bind.
  assert (Hchk : check_empty_filters d1 = mret d1).
  { unfold check_empty_filters.
    assert (Hf1 : d1 !! "filters" = Some f)
      by (rewrite Hd1 by discriminate; exact Hf).
    rewrite (getitem_Some _ _ _ Hf1), lift_bind.
    destruct Hlen as [-> | [n Hn]]; [reflexivity|].
    destruct (is_None f); [reflexivity|]. rewrite lift_bind, Hn. reflexivity. }
  rewrite Hchk, M_ret_bind.
  assert (Hkw : forall k x, k ∈ expected -> k <> "dtype" ->
                  k <> "zarr_format" -> d !! k = Some x ->
                  filter (fun kv => fst kv ∈ expected) d1 !! k = Some x).
  { intros k x Hk Hk1 Hk2 Hx.
    rewrite (filter_expected_lookup d1 k Hk), Hd1 by assumption. exact Hx. }
  assert (Hkd : filter (fun kv => fst kv ∈ expected) d1 !! "dtype"
                = Some (PWrapper w)).
  { rewrite filter_expected_lookup by (apply list_elem_of_In; cbn; tauto).
    subst d1. apply lookup_insert_eq. }
  unfold call_cls, required.
  rewrite (Hkw "shape" sh), lift_bind, Hkd, lift_bind,
    (Hkw "chunks" ch), lift_bind, (Hkw "fill_value" PNone), lift_bind,
    (Hkw "order" o), lift_bind,
    (Hkw "dimension_separator" sep), (Hkw "compressor" c),
    (Hkw "filters" f), (Hkw "attributes" attrs);
    try reflexivity; try discriminate; try assumption;
    apply list_elem_of_In; cbn; tauto.
Qed.

Lemma parse_filters_loop_dicts (fs : list Codec) (idx : nat) :
  Forall (fun k => get_codec (get_config k) = Ok k) fs ->
  parse_filters_loop idx ((fun k => PDict (get_config k)) <$> fs) = Ok fs.
Proof.
  intros Hfs. revert idx. induction Hfs as [|k fs Hk _ IH]; intros idx;
    [reflexivity|].
  rewrite fmap_cons. cbn [parse_filters_loop]. rewrite Hk, bind_Ok, IH.
  reflexivity.
Qed.

Lemma to_dict_succeeds (m : ArrayV2Metadata) :
  fill_value m = PNone ->
  (forall k, compressor m = Some k ->
             is_ok (compressor_config (get_config k)) = true) ->
  exists d, to_dict m = Ok d.
Proof.
  intros Hfv Hc.
  destruct (super_to_dict_lookups m) as (_ & _ & _ & _ & Hfs & _).
  unfold to_dict. cbv zeta.
  rewrite (getitem_Some _ _ _ (super_to_dict_compressor m)), bind_Ok.
  assert (Hz1 : exists z1,
             match match compressor m with
                   | Some c => codec_obj c
                   | None => PNone
                   end with
             | PCodec cfg =>
                 codec_config ← compressor_config cfg;
                 mret (<["compressor" := PDict codec_config]> (super_to_dict m))
             | _ => mret (super_to_dict m)
             end = Ok z1 /\
             z1 !! "filters" = super_to_dict m !! "filters").
  { destruct (compressor m) as [k|] eqn:Hk; [|eauto].
    specialize (Hc k eq_refl). unfold codec_obj.
    destruct (compressor_config (get_config k)) as [cfg|]; [|discriminate Hc].
    eexists. split; [reflexivity|]. apply lookup_insert_ne. discriminate. }
  destruct Hz1 as (z1 & -> & Hz1). rewrite bind_Ok.
  rewrite Hfs in Hz1. rewrite (getitem_Some _ _ _ Hz1), bind_Ok.
  rewrite Hfv. cbn [is_None].
  destruct (filters m); cbn [is_None py_iter]; rewrite !bind_Ok; eauto.
Qed.

(** X7.  Writing a document and reading it back restores it.  For a
    document built by the constructor that has no fill value, whose data
    type name numpy resolves to the native type of its wrapper, and whose
    codecs the resolver rebuilds from the configurations written for them,
    [to_dict] succeeds and [from_dict] on its result returns the same
    document, without any warning. *)
Theorem to_dict_from_dict_roundtrip (a : InitArgs) (m : ArrayV2Metadata) :
  outcome (init a) = Ok m ->
  fill_value m = PNone ->
  np_dtype_of (PStr (get_name (dtype m) V2)) = Ok (Wrapper.to_dtype (dtype m)) ->
  (forall k, compressor m = Some k ->
     exists cfg, compressor_config (get_config k) = Ok cfg /\
                 get_codec cfg = Ok k) ->
  (forall fs, filters m = Some fs ->
     Forall (fun k => get_codec (get_config k) = Ok k) fs) ->
  exists d, to_dict m = Ok d /\ from_dict d = mkM [] (Ok m).
Proof.
  intros Hm Hfv Hnp Hcomp Hfilters.
  destruct (to_dict_succeeds m Hfv) as [d Hd].
  { intros k Hk. destruct (Hcomp k Hk) as (cfg & -> & _). reflexivity. }
  exists d. split; [exact Hd|].
  pose proof (init_Ok a m Hm)
    as (Hs & Hc & _ & _ & Ho & Hsep & Hf & _ & _ & Hlen).
  apply parse_shapelike_again in Hs, Hc.
  apply parse_indexing_order_again in Ho.
  apply parse_separator_again in Hsep.
  apply parse_filters_not_empty in Hf.
  destruct (super_to_dict_lookups m)
    as (Lsh & Lch & _ & Lo & _ & Lsep & Lat & Lzf).
  apply to_dict_form in Hd as (c & v & Hcv & Hv & ->).
  rewrite Hfv in Hv. cbn [is_None] in Hv. subst v.
  rewrite (from_dict_entries _ (dtype m)
             (PStr (get_name (dtype m) V2))
             (PList (PInt <$> shape m)) (PList (PInt <$> chunks m))
             (PStr (order m)) (PStr (dimension_separator m)) c
             (match filters m with
              | Some fs => PList ((fun k => PDict (get_config k)) <$> fs)
              | None => PNone
              end)
             (PDict (attributes m))).
  - rewrite init_lift. f_equal.
    cbn [arg_shape arg_dtype arg_chunks arg_fill_value arg_order
         arg_dimension_separator arg_compressor arg_filters arg_attributes
         check_wrapper parse_attributes].
    rewrite Hs, Hc, Ho, Hsep, !bind_Ok.
    assert (Hpc : parse_compressor c = Ok (compressor m)).
    { destruct (compressor m) as [k|] eqn:Hk; [|subst c; reflexivity].
      destruct Hcv as (cfg & Hcfg & ->).
      destruct (Hcomp k eq_refl) as (cfg' & Hcfg' & Hget).
      rewrite Hcfg in Hcfg'. injection Hcfg' as <-.
      cbn [parse_compressor]. rewrite Hget. reflexivity. }
    assert (Hpf : parse_filters
                    (match filters m with
                     | Some fs => PList ((fun k => PDict (get_config k)) <$> fs)
                     | None => PNone
                     end) = Ok (filters m)).
    { destruct (filters m) as [fs|] eqn:Hfs; [|reflexivity].
      unfold parse_filters. cbn [py_iter].
      rewrite (parse_filters_loop_dicts fs 0 (Hfilters fs eq_refl)), bind_Ok.
      destruct fs; [contradiction | reflexivity]. }
    rewrite Hpc, Hpf, !bind_Ok.
    change (parse_fill_value PNone (Wrapper.to_dtype (dtype m)))
      with (Ok PNone).
    rewrite !bind_Ok. unfold parse_metadata. cbn [chunks shape].
    rewrite <- Hlen, Nat.eqb_refl. cbn [negb].
    destruct m. cbn in *. subst. reflexivity.
  - rewrite !lookup_insert_ne by discriminate. exact Lzf.
  - apply lookup_insert_eq.
  - unfold get_data_type_from_numpy. rewrite Hnp, bind_Ok.
    apply RegistryFacts.match_dtype_registered.
  - rewrite lookup_insert_ne by discriminate. apply lookup_insert_eq.
  - rewrite !lookup_insert_ne by discriminate. apply lookup_insert_eq.
  - destruct (filters m) as [[|k fs]|]; [contradiction| |left; reflexivity].
    right. eexists. reflexivity.
  - rewrite !lookup_insert_ne by discriminate. exact Lsh.
  - rewrite !lookup_insert_ne by discriminate. exact Lch.
  - rewrite !lookup_insert_ne by discriminate. exact Lo.
  - rewrite !lookup_insert_ne by discriminate. exact Lsep.
  - rewrite !lookup_insert_ne by discriminate. apply lookup_insert_eq.
  - rewrite !lookup_insert_ne by discriminate. exact Lat.
Qed.

(** *** Chunk keys *)

Lemma pretty_N_char_key (x : N) : is_key_char (pretty_N_char x).
Proof.
  unfold pretty_N_char, is_key_char.
  repeat (match goal with |- context [match ?y with _ => _ end] => destruct y end);
    split; discriminate.
Qed.

Lemma pretty_N_go_key (x : N) (s : string) :
  Forall is_key_char (list_ascii_of_string s) ->
  Forall is_key_char (list_ascii_of_string (pretty_N_go x s)).
Proof.
  revert s. induction (N.lt_wf_0 x) as [x _ IH]. intros s Hs.
  destruct (N.eq_dec x 0%N) as [->|Hx].
  - rewrite pretty_N_go_0. exact Hs.
  - assert (Hpos : (0 < x)%N) by lia.
    rewrite (pretty_N_go_step x s Hpos).
    apply IH; [apply N.div_lt; [exact Hpos | reflexivity]|].
    cbn [list_ascii_of_string]. constructor; [apply pretty_N_char_key | exact Hs].
Qed.

Lemma pretty_Z_key (z : Z) :
  Forall is_key_char (list_ascii_of_string (pretty z)).
Proof.
  destruct z as [|p|p].
  - repeat constructor; discriminate.
  - change (pretty (Z.pos p)) with (pretty_N_go (N.pos p) "").
    apply pretty_N_go_key. constructor.
  - change (pretty (Z.neg p)) with (String "-" (pretty_N_go (N.pos p) "")).
    cbn [list_ascii_of_string].
    constructor; [split; discriminate | apply pretty_N_go_key; constructor].
Qed.

(** Two texts without the character [c], each followed by [c], agree when
    the whole strings agree. *)
Lemma split_at_char (c : ascii) (p q r r' : string) :
  Forall (fun x => x <> c) (list_ascii_of_string p) ->
  Forall (fun x => x <> c) (list_ascii_of_string q) ->
  p +:+ String c r = q +:+ String c r' -> p = q /\ r = r'.
Proof.
  revert q. induction p as [|x p IH]; intros [|y q] Hp Hq Heq.
  - injection Heq as ->. auto.
  - injection Heq as <- _. apply Forall_inv in Hq. contradiction.
  - injection Heq as -> _. apply Forall_inv in Hp. contradiction.
  - injection Heq as -> Heq.
    cbn [list_ascii_of_string] in Hp, Hq.
    apply Forall_inv_tail in Hp, Hq.
    destruct (IH q Hp Hq Heq) as [-> ->]. auto.
Qed.

Lemma str_join_inj (c : ascii) (l1 l2 : list string) :
  Forall (fun p => Forall (fun x => x <> c) (list_ascii_of_string p)) l1 ->
  Forall (fun p => Forall (fun x => x <> c) (list_ascii_of_string p)) l2 ->
  List.length l1 = List.length l2 ->
  str_join (String c "") l1 = str_join (String c "") l2 -> l1 = l2.
Proof.
  intros Hl1. revert l2. induction Hl1 as [|p l1 Hp Hl1 IH];
    intros [|q l2] Hl2 Hlen Heq; try discriminate Hlen; [reflexivity|].
  apply Forall_cons in Hl2 as [Hq Hl2]. injection Hlen as Hlen.
  destruct l1 as [|p' l1]; destruct l2 as [|q' l2]; try discriminate Hlen.
  - cbn in Heq. subst. reflexivity.
  - cbn [str_join] in Heq.
    change (p +:+ String c (str_join (String c "") (p' :: l1)) =
            q +:+ String c (str_join (String c "") (q' :: l2))) in Heq.
    destruct (split_at_char c p q _ _ Hp Hq Heq) as [-> Hrest].
    f_equal. apply IH; [exact Hl2 | exact Hlen | exact Hrest].
Qed.

Lemma pretty_list_inj (l1 l2 : list Z) :
  pretty <$> l1 = pretty <$> l2 -> l1 = l2.
Proof.
  revert l2. induction l1 as [|z l1 IH]; intros [|z' l2] Heq;
    try discriminate Heq; [reflexivity|].
  rewrite !fmap_cons in Heq. injection Heq as Hz Hl.
  apply (inj pretty) in Hz. subst. f_equal. apply IH, Hl.
Qed.

(** X10.  With one of the two separators, chunk keys do not collide
    within an array: coordinate tuples of the same length with the same
    key are the same tuple.  The length matters: the empty tuple and the
    tuple of the single coordinate 0 share the key ["0"]. *)
Theorem encode_chunk_key_injective (m : ArrayV2Metadata) (c1 c2 : list Z) :
  dimension_separator m = "." \/ dimension_separator m = "/" ->
  List.length c1 = List.length c2 ->
  encode_chunk_key m c1 = encode_chunk_key m c2 ->
  c1 = c2 /\ encode_chunk_key m [] = encode_chunk_key m [0%Z].
Proof.
  intros Hsep Hlen Heq. split; [|reflexivity].
  destruct c1 as [|z1 c1]; destruct c2 as [|z2 c2]; try discriminate Hlen;
    [reflexivity|].
  unfold encode_chunk_key in Heq.
  assert (Hne : forall (z : Z) (c : list Z),
             String.eqb (str_join (dimension_separator m) (pretty <$> z :: c)) ""
             = false).
  { intros z c. apply String.eqb_neq. rewrite fmap_cons.
    apply str_join_nonempty, pretty_Z_nonempty. }
  rewrite !Hne in Heq.
  assert (Hkey : forall (ch : ascii) (l : list Z),
             ch = "."%char \/ ch = "/"%char ->
             Forall (fun p => Forall (fun x => x <> ch) (list_ascii_of_string p))
               (pretty <$> l)).
  { intros ch l Hch. apply Forall_fmap, Forall_forall. intros z _. cbn.
    eapply Forall_impl; [apply pretty_Z_key|].
    intros x [Hdot Hslash]. destruct Hch as [-> | ->]; assumption. }
  apply pretty_list_inj.
  destruct Hsep as [Hs|Hs]; rewrite Hs in Heq.
  - apply (str_join_inj "."); auto. rewrite !length_fmap. exact Hlen.
  - apply (str_join_inj "/"); auto. rewrite !length_fmap. exact Hlen.
Qed.

End General.

Section Buffers.
Context `{Numpy, Numcodecs, DTypeNames, Json, DocumentNames}.
Context {Buffer BufferPrototype : Type}.
Context (from_bytes : BufferPrototype -> list byte -> Buffer).

(** X14.  [to_buffer_dict] splits the document in two: when the two
    document names differ, the result holds exactly these two buffers, the
    primary one made of the mapping of [to_dict] without its attributes
    key, the other made of the user attributes alone, both written with
    the configured indentation. *)
Theorem to_buffer_dict_split (config : PyObj) (m : ArrayV2Metadata)
    (prototype : BufferPrototype) (bufs : gmap string Buffer) :
  ZARRAY_JSON <> ZATTRS_JSON ->
  to_buffer_dict from_bytes config m prototype = Ok bufs ->
  exists d indent zarray_bytes zattrs_bytes,
    to_dict m = Ok d /\
    Config.get config "json_indent" = Ok indent /\
    delete "attributes" d !! "attributes" = None /\
    json_dumps (PDict (delete "attributes" d)) indent = Ok zarray_bytes /\
    json_dumps (PDict (attributes m)) indent = Ok zattrs_bytes /\
    bufs !! ZARRAY_JSON = Some (from_bytes prototype zarray_bytes) /\
    bufs !! ZATTRS_JSON = Some (from_bytes prototype zattrs_bytes) /\
    dom bufs = {[ZARRAY_JSON; ZATTRS_JSON]}.
Proof.
  intros Hnames Hb. unfold to_buffer_dict in Hb.
  apply bind_is_Ok in Hb as (d & Hd & Hb). cbv zeta in Hb.
  apply bind_is_Ok in Hb as (indent & Hindent & Hb).
  apply bind_is_Ok in Hb as (zb & Hzb & Hb).
  apply bind_is_Ok in Hb as (ab & Hab & Hb).
  injection Hb as <-.
  exists d, indent, zb, ab.
  assert (Hattrs : d !! "attributes" = Some (PDict (attributes m))).
  { destruct (super_to_dict_lookups m) as (_ & _ & _ & _ & _ & _ & Lat & _).
    pose proof Hd as Hform. apply to_dict_form in Hform as (c & v & _ & _ & ->).
    rewrite !lookup_insert_ne by discriminate. exact Lat. }
  rewrite Hattrs in Hab. cbn [default from_option id] in Hab.
  repeat split; try assumption.
  - apply lookup_delete_eq.
  - rewrite lookup_insert_ne by (intros Heq; apply Hnames; symmetry; exact Heq).
    apply lookup_singleton_eq.
  - apply lookup_insert_eq.
  - rewrite dom_insert_L, dom_singleton_L. apply (comm_L (∪)).
Qed.

End Buffers.

(** *** The results at the reference scenario *)

Section Concrete.
#[local] Existing Instances Reference.numpy Reference.numcodecs Reference.names
  Reference.json Reference.document_names.

Example init_filtered :
  init Reference.filtered_args = mkM [] (Ok Reference.filtered).
Proof. vm_compute. reflexivity. Qed.

Lemma to_dict_filtered_Ok :
  exists d, to_dict Reference.filtered = Ok d.
Proof.
  destruct (to_dict Reference.filtered) as [d|e] eqn:Hd; [eauto|].
  vm_compute in Hd. discriminate Hd.
Qed.

Lemma parse_filters_result_witness :
  parse_filters (PList [PDict Reference.delta_config;
                        PCodec Reference.zstd_default])
  = Ok (Some [mkCodec Reference.delta_config;
              mkCodec Reference.zstd_default]) /\
  [mkCodec Reference.delta_config; mkCodec Reference.zstd_default] <> [] /\
  List.length [mkCodec Reference.delta_config; mkCodec Reference.zstd_default]
    = 2.
Proof.
  assert (Hp : parse_filters (PList [PDict Reference.delta_config;
                                     PCodec Reference.zstd_default])
               = Ok (Some [mkCodec Reference.delta_config;
                           mkCodec Reference.zstd_default]))
    by (vm_compute; reflexivity).
  pose proof (parse_filters_result _ _ Hp) as [Hne _].
  split; [exact Hp|]. split; [exact Hne | reflexivity].
Defined.

Lemma parse_filters_first_invalid_witness :
  parse_filters (PList [PCodec Reference.zstd_default; PInt 3; PNone])
  = Raise (invalid_filter 1 (PInt 3)).
Proof.
  apply (parse_filters_first_invalid [mkCodec Reference.zstd_default]
           (PInt 3) [PNone]); discriminate.
Defined.

Lemma from_dict_checks_format_witness :
  from_dict {["shape" := PList [PInt 10]]}
    = mkM [] (Raise (key_error "zarr_format")) /\
  from_dict {["zarr_format" := PInt 3]}
    = mkM [] (Raise (exc ValueError
                       [Lit "Invalid value. Expected 2. Got "; FStr (PInt 3);
                        Lit "."])).
Proof.
  split.
  - apply (from_dict_checks_format {["shape" := PList [PInt 10]]}).
    vm_compute. reflexivity.
  - apply (from_dict_checks_format {["zarr_format" := PInt 3]});
      vm_compute; reflexivity.
Defined.

Lemma from_dict_requires_filters_witness :
  outcome (from_dict (delete "filters" Reference.empty_filters_document))
  = Raise (key_error "filters").
Proof.
  eapply (from_dict_requires_filters
            (delete "filters" Reference.empty_filters_document) _
            (PInt 2) (PStr "<i4") Int32);
    vm_compute; reflexivity.
Defined.

Lemma from_dict_ignores_extra_keys_witness :
  from_dict (<["note" := PStr "kept by an older writer"]>
               Reference.empty_filters_document)
  = from_dict Reference.empty_filters_document.
Proof.
  apply from_dict_ignores_extra_keys.
  intros Hin. apply list_elem_of_In in Hin. cbn in Hin.
  repeat (destruct Hin as [Hin|Hin]; [discriminate Hin|]). exact Hin.
Defined.

Lemma empty_filters_normalised_witness :
  (init Reference.empty_filters_args
     = init (with_filters Reference.empty_filters_args PNone) /\
   warnings (init Reference.empty_filters_args) = []) /\
  filters Reference.no_fill = None /\
  (outcome (from_dict Reference.empty_filters_document)
     = outcome (from_dict
                  (<["filters" := PNone]> Reference.empty_filters_document)) /\
   warnings (from_dict
               (<["filters" := PNone]> Reference.empty_filters_document))
     = []) /\
  warnings (from_dict Reference.empty_filters_document)
    = [UserWarning empty_filters_msg] /\
  (filters Reference.no_fill = None /\
   warnings (from_dict Reference.empty_filters_document)
     = [UserWarning empty_filters_msg]) /\
  (init Reference.empty_filters_args = mkM [] (Ok Reference.no_fill) /\
   filters Reference.no_fill = None) /\
  (from_dict Reference.empty_filters_document
     = mkM [UserWarning empty_filters_msg] (Ok Reference.no_fill) /\
   filters Reference.no_fill = None).
Proof.
  destruct empty_filters_normalised
    as (_ & Hinit & Hstored & Hdict & Hwarn & Hread & Hvalid & Hvalid').
  split; [|split; [|split; [|split; [|split; [|split]]]]].
  - apply (Hinit Reference.empty_filters_args). reflexivity.
  - apply (Hstored Reference.empty_filters_args); [reflexivity|].
    vm_compute. reflexivity.
  - apply (Hdict Reference.empty_filters_document). vm_compute. reflexivity.
  - apply (Hwarn Reference.empty_filters_document (PInt 2) (PStr "<i4") Int32
             (<["dtype" := PWrapper Int32]>
                (delete "zarr_format" Reference.empty_filters_document)));
      vm_compute; reflexivity.
  - apply (Hread Reference.empty_filters_document);
      vm_compute; reflexivity.
  - apply (Hvalid Reference.empty_filters_args); [reflexivity|].
    vm_compute. reflexivity.
  - apply (Hvalid' Reference.empty_filters_document);
      vm_compute; reflexivity.
Defined.

Lemma to_dict_from_dict_roundtrip_witness :
  exists d, to_dict Reference.filtered = Ok d /\
            from_dict d = mkM [] (Ok Reference.filtered).
Proof.
  apply (to_dict_from_dict_roundtrip Reference.filtered_args).
  - vm_compute. reflexivity.
  - reflexivity.
  - reflexivity.
  - intros k Hk. injection Hk as <-. exists Reference.zstd_checksum.
    split; vm_compute; reflexivity.
  - intros fs Hfs. injection Hfs as <-.
    repeat constructor; vm_compute; reflexivity.
Defined.

Lemma to_dict_filters_witness :
  exists d, to_dict Reference.filtered = Ok d /\
            d !! "filters" =
            Some (PList [PDict Reference.delta_config;
                         PDict Reference.zstd_default]).
Proof.
  destruct to_dict_filtered_Ok as [d Hd]. exists d. split; [exact Hd|].
  apply (to_dict_filters Reference.filtered d Hd).
Defined.

Lemma to_dict_entries_witness :
  exists d, to_dict Reference.filtered = Ok d /\
            d !! "dtype" = Some (PStr "<i4") /\
            d !! "fill_value" = Some PNone.
Proof.
  destruct to_dict_filtered_Ok as [d Hd]. exists d. split; [exact Hd|].
  destruct (to_dict_entries Reference.filtered d Hd)
    as (Hdtype & _ & _ & Hfill & _).
  split; [exact Hdtype | apply Hfill; reflexivity].
Defined.

Lemma encode_chunk_key_injective_witness :
  encode_chunk_key Reference.filtered [3; 14]%Z = "3/14" /\
  ([3; 14]%Z = [3; 14]%Z /\
   encode_chunk_key Reference.filtered []
   = encode_chunk_key Reference.filtered [0%Z]).
Proof.
  split; [reflexivity|].
  apply (encode_chunk_key_injective Reference.filtered);
    [right; reflexivity | reflexivity | reflexivity].
Defined.

Lemma document_invariants_witness :
  (order Reference.filtered = "C" \/ order Reference.filtered = "F") /\
  filters Reference.filtered <> Some [].
Proof.
  destruct document_invariants as [Hinit _].
  destruct (Hinit Reference.filtered_args Reference.filtered) as (Ho & Hf & _).
  - vm_compute. reflexivity.
  - split; [exact Ho | exact Hf].
Defined.

Lemma to_buffer_dict_split_witness :
  exists bufs,
    to_buffer_dict Reference.from_bytes Config.defaults Reference.no_fill tt
    = Ok bufs /\
    bufs !! ".zattrs" = Some (list_byte_of_string "{}") /\
    dom bufs = {[".zarray"; ".zattrs"]}.
Proof.
  destruct (to_buffer_dict Reference.from_bytes Config.defaults
              Reference.no_fill tt) as [bufs|e] eqn:Hb;
    [|vm_compute in Hb; discriminate Hb].
  exists bufs. split; [reflexivity|].
  destruct (to_buffer_dict_split Reference.from_bytes Config.defaults
              Reference.no_fill tt bufs)
    as (d & indent & zb & ab & _ & _ & _ & _ & Hab & _ & Hattrs & Hdom);
    [discriminate | exact Hb |].
  split; [|exact Hdom].
  change (bufs !! ZATTRS_JSON = Some (list_byte_of_string "{}")).
  rewrite Hattrs. vm_compute in Hab. injection Hab as <-. reflexivity.
Defined.

End Concrete.

End MetadataFacts.

(** ** The configuration *)

Module ConfigFacts.
Import Config.

Lemma v2_default_compressor_table :
  get defaults "array.v2_default_compressor" =
  Ok (PDict (list_to_map [("default", codec_zstd_v2);
                          ("variable-length-string", codec_zstd_v2)])).
Proof. reflexivity. Qed.

Lemma v2_default_filters_table :
  get defaults "array.v2_default_filters" =
  Ok (PDict (list_to_map
               [("default", PNone);
                ("variable-length-string",
                  PList [PDict (list_to_map [("id", PStr "vlen-utf8")])])])).
Proof. reflexivity. Qed.

Example get_nested :
  get defaults "codec_pipeline.batch_size" = Ok (PInt 1) /\
  get defaults "json_indent" = Ok (PInt 2) /\
  get defaults "array.order" = Ok (PStr "C") /\
  get defaults "codecs.lz4" = Raise (exc KeyError [FRepr (PStr "codecs.lz4")]).
Proof. repeat split. Qed.

(** X12.  Every category that [categorize_data_type] assigns is one of
    the two categories, and each of the five tables of default codecs in
    the built-in configuration has an entry for it: a lookup by category
    never misses. *)
Theorem categories_have_defaults (w : ZDType) :
  In (categorize_data_type w) categories /\
  Forall (fun table =>
            exists t, get defaults ("array." +:+ table) = Ok (PDict t) /\
                      is_Some (t !! categorize_data_type w))
    ["v2_default_compressor"; "v2_default_filters"; "v3_default_filters";
     "v3_default_serializer"; "v3_default_compressors"].
Proof.
  assert (Hboth : forall cat, In cat categories ->
            Forall (fun table =>
                      exists t, get defaults ("array." +:+ table) = Ok (PDict t) /\
                                is_Some (t !! cat))
              ["v2_default_compressor"; "v2_default_filters";
               "v3_default_filters"; "v3_default_serializer";
               "v3_default_compressors"]).
  { intros cat [<-|[<-|[]]];
      repeat constructor;
      (eexists; split; [vm_compute; reflexivity | vm_compute; eauto]). }
  assert (Hcat : In (categorize_data_type w) categories)
    by (destruct w; cbn; tauto).
  split; [exact Hcat | apply Hboth, Hcat].
Qed.

Section Kinds.
Context `{DTypeKinds}.

(** X13.  The default compressor and filters of the metadata module are
    looked up under the kind of the data type, while the tables of the
    built-in configuration are keyed by category.  So a default compressor
    is found only for a kind that spells one of the two category names,
    default filters only for the kind ["variable-length-string"], and a
    one-character kind code finds neither. *)
Theorem default_codecs_by_kind (w : ZDType) :
  V2._default_compressor defaults w =
    Ok (if decide (wrapper_kind w = "default" \/
                   wrapper_kind w = "variable-length-string")
        then codec_zstd_v2 else PNone) /\
  V2._default_filters defaults w =
    Ok (if decide (wrapper_kind w = "variable-length-string")
        then PList [PDict (list_to_map [("id", PStr "vlen-utf8")])]
        else PNone) /\
  (String.length (wrapper_kind w) = 1 ->
   V2._default_compressor defaults w = Ok PNone /\
   V2._default_filters defaults w = Ok PNone).
Proof.
  assert (Hc : V2._default_compressor defaults w =
    Ok (if decide (wrapper_kind w = "default" \/
                   wrapper_kind w = "variable-length-string")
        then codec_zstd_v2 else PNone)).
  { unfold V2._default_compressor.
    rewrite v2_default_compressor_table, bind_Ok.
    unfold V2.dict_get_or_None. f_equal. cbn [list_to_map foldr uncurry fst snd].
    destruct (decide (wrapper_kind w = "default")) as [->|Hd].
    { rewrite lookup_insert_eq. reflexivity. }
    rewrite lookup_insert_ne by congruence.
    destruct (decide (wrapper_kind w = "variable-length-string")) as [->|Hv].
    { rewrite lookup_insert_eq. reflexivity. }
    rewrite lookup_insert_ne, lookup_empty by congruence.
    rewrite decide_False by tauto. reflexivity. }
  assert (Hf : V2._default_filters defaults w =
    Ok (if decide (wrapper_kind w = "variable-length-string")
        then PList [PDict (list_to_map [("id", PStr "vlen-utf8")])]
        else PNone)).
  { unfold V2._default_filters.
    rewrite v2_default_filters_table, bind_Ok.
    unfold V2.dict_get_or_None. f_equal.
    change (list_to_map
              [("default", PNone);
               ("variable-length-string",
                 PList [PDict (list_to_map [("id", PStr "vlen-utf8")])])])
      with (<["default" := PNone]>
              (<["variable-length-string" :=
                   PList [PDict (list_to_map [("id", PStr "vlen-utf8")])]]>
                 (∅ : gmap string PyObj))).
    destruct (decide (wrapper_kind w = "variable-length-string")) as [->|Hv].
    { rewrite lookup_insert_ne by discriminate.
      rewrite lookup_insert_eq. reflexivity. }
    destruct (decide (wrapper_kind w = "default")) as [->|Hd].
    { rewrite lookup_insert_eq. reflexivity. }
    rewrite !lookup_insert_ne, lookup_empty by congruence. reflexivity. }
  split; [exact Hc|]. split; [exact Hf|].
  intros Hlen. rewrite Hc, Hf.
  rewrite !decide_False; [auto| |];
    intros Hk; repeat destruct Hk as [Hk|Hk]; rewrite Hk in Hlen;
    discriminate Hlen.
Qed.

End Kinds.

Lemma default_codecs_by_kind_witness :
  String.length (wrapper_kind (DTypeKinds := Reference.kinds) Int32) = 1 /\
  V2._default_compressor (H := Reference.kinds) defaults Int32 = Ok PNone /\
  V2._default_filters (H := Reference.kinds) defaults Int32 = Ok PNone.
Proof.
  split; [reflexivity|].
  apply (default_codecs_by_kind (H := Reference.kinds) Int32). reflexivity.
Defined.

End ConfigFacts.
